(** * AI Governance Autopilot: classification and protection workflow

    A shallow embedding of [src/autopilot.py] and of the notebook copy
    [notebooks/ai_governance_autopilot_notebook.py], with the properties of
    the workflow proved over it.

    Python [str] values are Rocq strings holding their UTF-8 encoding; the
    text operations ([strip], [upper], [repr]) work on the code points.

    The warehouse and the inference service are remote collaborators.  They
    are an environment of oracles that see the whole world (the audit table,
    the history of remote calls, the printed lines), so their answers may
    change from one call to the next. *)

From Stdlib Require Import List String Ascii Bool Arith NArith Lia.
Import ListNotations.

Local Open Scope string_scope.
Local Open Scope list_scope.

(** String concatenation, as [+] on [str] and as adjacent f-string parts. *)
Infix "+++" := String.append (right associativity, at level 60).

(** ** Python text operations

    A Rocq string stands for the Python [str] whose UTF-8 encoding it is.  A
    byte that belongs to no UTF-8 sequence stands for itself: it decodes to
    a lone surrogate U+DC80..U+DCFF, as under [surrogateescape], which no
    operation below changes.  Equality and concatenation of texts are those
    of their encodings.  The operations work on code points, as
    CPython's do, with the character tables of Unicode 14.0 (CPython 3.11):
    the white space of [str.isspace], the full upper-case mapping of
    [str.upper], where one letter may give several, and the printable
    characters of [str.isprintable]. *)

Module PyStr.

Local Open Scope N_scope.

(** The byte with code [n]; below 128 it is the character [chr(n)]. *)
Definition chr (n : nat) : ascii := ascii_of_nat n.

Definition str1 (c : ascii) : string := String c EmptyString.

Definition newline : string := str1 (chr 10).

(** *** Code points and their UTF-8 form *)

Definition byte (c : ascii) : N := N_of_ascii c.

Definition of_byte (n : N) : ascii := ascii_of_N n.

(** A continuation byte, [10xxxxxx]. *)
Definition is_cont (n : N) : bool := (128 <=? n) && (n <? 192).

(** The code point of a sequence of two, three or four bytes, when the
    sequence is well formed: shortest form, no surrogate, at most U+10FFFF. *)
Definition seq2 (b1 b2 : N) : option N :=
  if (194 <=? b1) && (b1 <? 224) && is_cont b2
  then Some ((b1 - 192) * 64 + (b2 - 128))
  else None.

Definition seq3 (b1 b2 b3 : N) : option N :=
  let cp := (b1 - 224) * 4096 + (b2 - 128) * 64 + (b3 - 128) in
  if (224 <=? b1) && (b1 <? 240) && is_cont b2 && is_cont b3
     && (2048 <=? cp) && negb ((55296 <=? cp) && (cp <? 57344))
  then Some cp
  else None.

Definition seq4 (b1 b2 b3 b4 : N) : option N :=
  let cp := (b1 - 240) * 262144 + (b2 - 128) * 4096 + (b3 - 128) * 64 + (b4 - 128) in
  if (240 <=? b1) && (b1 <? 245) && is_cont b2 && is_cont b3 && is_cont b4
     && (65536 <=? cp) && (cp <? 1114112)
  then Some cp
  else None.

(** The code points of a text.  A byte that starts no well-formed sequence
    gives the surrogate U+DC00 + byte, and decoding goes on after it. *)
Fixpoint decode (s : string) : list N :=
  match s with
  | EmptyString => []
  | String c1 r1 =>
      let b1 := byte c1 in
      let escaped := (56320 + b1) :: decode r1 in
      if b1 <? 128 then b1 :: decode r1
      else
        match r1 with
        | EmptyString => escaped
        | String c2 r2 =>
            match seq2 b1 (byte c2) with
            | Some cp => cp :: decode r2
            | None =>
                match r2 with
                | EmptyString => escaped
                | String c3 r3 =>
                    match seq3 b1 (byte c2) (byte c3) with
                    | Some cp => cp :: decode r3
                    | None =>
                        match r3 with
                        | EmptyString => escaped
                        | String c4 r4 =>
                            match seq4 b1 (byte c2) (byte c3) (byte c4) with
                            | Some cp => cp :: decode r4
                            | None => escaped
                            end
                        end
                    end
                end
            end
        end
  end.

(** The bytes of one code point; U+DC80..U+DCFF give back the byte they
    stand for. *)
Definition encode_cp (cp : N) : string :=
  if cp <? 128 then str1 (of_byte cp)
  else if cp <? 2048 then
    String (of_byte (192 + cp / 64)) (str1 (of_byte (128 + cp mod 64)))
  else if (56448 <=? cp) && (cp <? 56576) then str1 (of_byte (cp - 56320))
  else if cp <? 65536 then
    String (of_byte (224 + cp / 4096))
      (String (of_byte (128 + (cp / 64) mod 64)) (str1 (of_byte (128 + cp mod 64))))
  else
    String (of_byte (240 + cp / 262144))
      (String (of_byte (128 + (cp / 4096) mod 64))
         (String (of_byte (128 + (cp / 64) mod 64)) (str1 (of_byte (128 + cp mod 64))))).

Fixpoint encode (l : list N) : string :=
  match l with
  | [] => EmptyString
  | cp :: r => encode_cp cp +++ encode r
  end.

(** *** [str.strip] *)

(** [str.isspace] on one code point: TAB to CR, FS to US and the space, NEL,
    the no-break space, and the separators of the general punctuation and
    CJK blocks. *)
Definition isspace (cp : N) : bool :=
  ((9 <=? cp) && (cp <=? 13)) || ((28 <=? cp) && (cp <=? 32))
  || (cp =? 0x85) || (cp =? 0xA0) || (cp =? 0x1680)
  || ((0x2000 <=? cp) && (cp <=? 0x200A))
  || (cp =? 0x2028) || (cp =? 0x2029) || (cp =? 0x202F) || (cp =? 0x205F)
  || (cp =? 0x3000).

Fixpoint lstrip (l : list N) : list N :=
  match l with
  | [] => []
  | cp :: r => if isspace cp then lstrip r else l
  end.

Fixpoint rstrip (l : list N) : list N :=
  match l with
  | [] => []
  | cp :: r =>
      match rstrip r with
      | [] => if isspace cp then [] else [cp]
      | r' => cp :: r'
      end
  end.

(** [s.strip()] *)
Definition strip (s : string) : string := encode (rstrip (lstrip (decode s))).

(** *** [str.upper] *)

(** The upper-case form of the code points from 128 up that have one other
    than themselves. *)
Definition upper_table : list (N * list N) :=
  [(181, [924]); (223, [83; 83]); (224, [192]); (225, [193]);
   (226, [194]); (227, [195]); (228, [196]); (229, [197]);
   (230, [198]); (231, [199]); (232, [200]); (233, [201]);
   (234, [202]); (235, [203]); (236, [204]); (237, [205]);
   (238, [206]); (239, [207]); (240, [208]); (241, [209]);
   (242, [210]); (243, [211]); (244, [212]); (245, [213]);
   (246, [214]); (248, [216]); (249, [217]); (250, [218]);
   (251, [219]); (252, [220]); (253, [221]); (254, [222]);
   (255, [376]); (257, [256]); (259, [258]); (261, [260]);
   (263, [262]); (265, [264]); (267, [266]); (269, [268]);
   (271, [270]); (273, [272]); (275, [274]); (277, [276]);
   (279, [278]); (281, [280]); (283, [282]); (285, [284]);
   (287, [286]); (289, [288]); (291, [290]); (293, [292]);
   (295, [294]); (297, [296]); (299, [298]); (301, [300]);
   (303, [302]); (305, [73]); (307, [306]); (309, [308]);
   (311, [310]); (314, [313]); (316, [315]); (318, [317]);
   (320, [319]); (322, [321]); (324, [323]); (326, [325]);
   (328, [327]); (329, [700; 78]); (331, [330]); (333, [332]);
   (335, [334]); (337, [336]); (339, [338]); (341, [340]);
   (343, [342]); (345, [344]); (347, [346]); (349, [348]);
   (351, [350]); (353, [352]); (355, [354]); (357, [356]);
   (359, [358]); (361, [360]); (363, [362]); (365, [364]);
   (367, [366]); (369, [368]); (371, [370]); (373, [372]);
   (375, [374]); (378, [377]); (380, [379]); (382, [381]);
   (383, [83]); (384, [579]); (387, [386]); (389, [388]);
   (392, [391]); (396, [395]); (402, [401]); (405, [502]);
   (409, [408]); (410, [573]); (414, [544]); (417, [416]);
   (419, [418]); (421, [420]); (424, [423]); (429, [428]);
   (432, [431]); (436, [435]); (438, [437]); (441, [440]);
   (445, [444]); (447, [503]); (453, [452]); (454, [452]);
   (456, [455]); (457, [455]); (459, [458]); (460, [458]);
   (462, [461]); (464, [463]); (466, [465]); (468, [467]);
   (470, [469]); (472, [471]); (474, [473]); (476, [475]);
   (477, [398]); (479, [478]); (481, [480]); (483, [482]);
   (485, [484]); (487, [486]); (489, [488]); (491, [490]);
   (493, [492]); (495, [494]); (496, [74; 780]); (498, [497]);
   (499, [497]); (501, [500]); (505, [504]); (507, [506]);
   (509, [508]); (511, [510]); (513, [512]); (515, [514]);
   (517, [516]); (519, [518]); (521, [520]); (523, [522]);
   (525, [524]); (527, [526]); (529, [528]); (531, [530]);
   (533, [532]); (535, [534]); (537, [536]); (539, [538]);
   (541, [540]); (543, [542]); (547, [546]); (549, [548]);
   (551, [550]); (553, [552]); (555, [554]); (557, [556]);
   (559, [558]); (561, [560]); (563, [562]); (572, [571]);
   (575, [11390]); (576, [11391]); (578, [577]); (583, [582]);
   (585, [584]); (587, [586]); (589, [588]); (591, [590]);
   (592, [11375]); (593, [11373]); (594, [11376]); (595, [385]);
   (596, [390]); (598, [393]); (599, [394]); (601, [399]);
   (603, [400]); (604, [42923]); (608, [403]); (609, [42924]);
   (611, [404]); (613, [42893]); (614, [42922]); (616, [407]);
   (617, [406]); (618, [42926]); (619, [11362]); (620, [42925]);
   (623, [412]); (625, [11374]); (626, [413]); (629, [415]);
   (637, [11364]); (640, [422]); (642, [42949]); (643, [425]);
   (647, [42929]); (648, [430]); (649, [580]); (650, [433]);
   (651, [434]); (652, [581]); (658, [439]); (669, [42930]);
   (670, [42928]); (837, [921]); (881, [880]); (883, [882]);
   (887, [886]); (891, [1021]); (892, [1022]); (893, [1023]);
   (912, [921; 776; 769]); (940, [902]); (941, [904]); (942, [905]);
   (943, [906]); (944, [933; 776; 769]); (945, [913]); (946, [914]);
   (947, [915]); (948, [916]); (949, [917]); (950, [918]);
   (951, [919]); (952, [920]); (953, [921]); (954, [922]);
   (955, [923]); (956, [924]); (957, [925]); (958, [926]);
   (959, [927]); (960, [928]); (961, [929]); (962, [931]);
   (963, [931]); (964, [932]); (965, [933]); (966, [934]);
   (967, [935]); (968, [936]); (969, [937]); (970, [938]);
   (971, [939]); (972, [908]); (973, [910]); (974, [911]);
   (976, [914]); (977, [920]); (981, [934]); (982, [928]);
   (983, [975]); (985, [984]); (987, [986]); (989, [988]);
   (991, [990]); (993, [992]); (995, [994]); (997, [996]);
   (999, [998]); (1001, [1000]); (1003, [1002]); (1005, [1004]);
   (1007, [1006]); (1008, [922]); (1009, [929]); (1010, [1017]);
   (1011, [895]); (1013, [917]); (1016, [1015]); (1019, [1018]);
   (1072, [1040]); (1073, [1041]); (1074, [1042]); (1075, [1043]);
   (1076, [1044]); (1077, [1045]); (1078, [1046]); (1079, [1047]);
   (1080, [1048]); (1081, [1049]); (1082, [1050]); (1083, [1051]);
   (1084, [1052]); (1085, [1053]); (1086, [1054]); (1087, [1055]);
   (1088, [1056]); (1089, [1057]); (1090, [1058]); (1091, [1059]);
   (1092, [1060]); (1093, [1061]); (1094, [1062]); (1095, [1063]);
   (1096, [1064]); (1097, [1065]); (1098, [1066]); (1099, [1067]);
   (1100, [1068]); (1101, [1069]); (1102, [1070]); (1103, [1071]);
   (1104, [1024]); (1105, [1025]); (1106, [1026]); (1107, [1027]);
   (1108, [1028]); (1109, [1029]); (1110, [1030]); (1111, [1031]);
   (1112, [1032]); (1113, [1033]); (1114, [1034]); (1115, [1035]);
   (1116, [1036]); (1117, [1037]); (1118, [1038]); (1119, [1039]);
   (1121, [1120]); (1123, [1122]); (1125, [1124]); (1127, [1126]);
   (1129, [1128]); (1131, [1130]); (1133, [1132]); (1135, [1134]);
   (1137, [1136]); (1139, [1138]); (1141, [1140]); (1143, [1142]);
   (1145, [1144]); (1147, [1146]); (1149, [1148]); (1151, [1150]);
   (1153, [1152]); (1163, [1162]); (1165, [1164]); (1167, [1166]);
   (1169, [1168]); (1171, [1170]); (1173, [1172]); (1175, [1174]);
   (1177, [1176]); (1179, [1178]); (1181, [1180]); (1183, [1182]);
   (1185, [1184]); (1187, [1186]); (1189, [1188]); (1191, [1190]);
   (1193, [1192]); (1195, [1194]); (1197, [1196]); (1199, [1198]);
   (1201, [1200]); (1203, [1202]); (1205, [1204]); (1207, [1206]);
   (1209, [1208]); (1211, [1210]); (1213, [1212]); (1215, [1214]);
   (1218, [1217]); (1220, [1219]); (1222, [1221]); (1224, [1223]);
   (1226, [1225]); (1228, [1227]); (1230, [1229]); (1231, [1216]);
   (1233, [1232]); (1235, [1234]); (1237, [1236]); (1239, [1238]);
   (1241, [1240]); (1243, [1242]); (1245, [1244]); (1247, [1246]);
   (1249, [1248]); (1251, [1250]); (1253, [1252]); (1255, [1254]);
   (1257, [1256]); (1259, [1258]); (1261, [1260]); (1263, [1262]);
   (1265, [1264]); (1267, [1266]); (1269, [1268]); (1271, [1270]);
   (1273, [1272]); (1275, [1274]); (1277, [1276]); (1279, [1278]);
   (1281, [1280]); (1283, [1282]); (1285, [1284]); (1287, [1286]);
   (1289, [1288]); (1291, [1290]); (1293, [1292]); (1295, [1294]);
   (1297, [1296]); (1299, [1298]); (1301, [1300]); (1303, [1302]);
   (1305, [1304]); (1307, [1306]); (1309, [1308]); (1311, [1310]);
   (1313, [1312]); (1315, [1314]); (1317, [1316]); (1319, [1318]);
   (1321, [1320]); (1323, [1322]); (1325, [1324]); (1327, [1326]);
   (1377, [1329]); (1378, [1330]); (1379, [1331]); (1380, [1332]);
   (1381, [1333]); (1382, [1334]); (1383, [1335]); (1384, [1336]);
   (1385, [1337]); (1386, [1338]); (1387, [1339]); (1388, [1340]);
   (1389, [1341]); (1390, [1342]); (1391, [1343]); (1392, [1344]);
   (1393, [1345]); (1394, [1346]); (1395, [1347]); (1396, [1348]);
   (1397, [1349]); (1398, [1350]); (1399, [1351]); (1400, [1352]);
   (1401, [1353]); (1402, [1354]); (1403, [1355]); (1404, [1356]);
   (1405, [1357]); (1406, [1358]); (1407, [1359]); (1408, [1360]);
   (1409, [1361]); (1410, [1362]); (1411, [1363]); (1412, [1364]);
   (1413, [1365]); (1414, [1366]); (1415, [1333; 1362]); (4304, [7312]);
   (4305, [7313]); (4306, [7314]); (4307, [7315]); (4308, [7316]);
   (4309, [7317]); (4310, [7318]); (4311, [7319]); (4312, [7320]);
   (4313, [7321]); (4314, [7322]); (4315, [7323]); (4316, [7324]);
   (4317, [7325]); (4318, [7326]); (4319, [7327]); (4320, [7328]);
   (4321, [7329]); (4322, [7330]); (4323, [7331]); (4324, [7332]);
   (4325, [7333]); (4326, [7334]); (4327, [7335]); (4328, [7336]);
   (4329, [7337]); (4330, [7338]); (4331, [7339]); (4332, [7340]);
   (4333, [7341]); (4334, [7342]); (4335, [7343]); (4336, [7344]);
   (4337, [7345]); (4338, [7346]); (4339, [7347]); (4340, [7348]);
   (4341, [7349]); (4342, [7350]); (4343, [7351]); (4344, [7352]);
   (4345, [7353]); (4346, [7354]); (4349, [7357]); (4350, [7358]);
   (4351, [7359]); (5112, [5104]); (5113, [5105]); (5114, [5106]);
   (5115, [5107]); (5116, [5108]); (5117, [5109]); (7296, [1042]);
   (7297, [1044]); (7298, [1054]); (7299, [1057]); (7300, [1058]);
   (7301, [1058]); (7302, [1066]); (7303, [1122]); (7304, [42570]);
   (7545, [42877]); (7549, [11363]); (7566, [42950]); (7681, [7680]);
   (7683, [7682]); (7685, [7684]); (7687, [7686]); (7689, [7688]);
   (7691, [7690]); (7693, [7692]); (7695, [7694]); (7697, [7696]);
   (7699, [7698]); (7701, [7700]); (7703, [7702]); (7705, [7704]);
   (7707, [7706]); (7709, [7708]); (7711, [7710]); (7713, [7712]);
   (7715, [7714]); (7717, [7716]); (7719, [7718]); (7721, [7720]);
   (7723, [7722]); (7725, [7724]); (7727, [7726]); (7729, [7728]);
   (7731, [7730]); (7733, [7732]); (7735, [7734]); (7737, [7736]);
   (7739, [7738]); (7741, [7740]); (7743, [7742]); (7745, [7744]);
   (7747, [7746]); (7749, [7748]); (7751, [7750]); (7753, [7752]);
   (7755, [7754]); (7757, [7756]); (7759, [7758]); (7761, [7760]);
   (7763, [7762]); (7765, [7764]); (7767, [7766]); (7769, [7768]);
   (7771, [7770]); (7773, [7772]); (7775, [7774]); (7777, [7776]);
   (7779, [7778]); (7781, [7780]); (7783, [7782]); (7785, [7784]);
   (7787, [7786]); (7789, [7788]); (7791, [7790]); (7793, [7792]);
   (7795, [7794]); (7797, [7796]); (7799, [7798]); (7801, [7800]);
   (7803, [7802]); (7805, [7804]); (7807, [7806]); (7809, [7808]);
   (7811, [7810]); (7813, [7812]); (7815, [7814]); (7817, [7816]);
   (7819, [7818]); (7821, [7820]); (7823, [7822]); (7825, [7824]);
   (7827, [7826]); (7829, [7828]); (7830, [72; 817]); (7831, [84; 776]);
   (7832, [87; 778]); (7833, [89; 778]); (7834, [65; 702]); (7835, [7776]);
   (7841, [7840]); (7843, [7842]); (7845, [7844]); (7847, [7846]);
   (7849, [7848]); (7851, [7850]); (7853, [7852]); (7855, [7854]);
   (7857, [7856]); (7859, [7858]); (7861, [7860]); (7863, [7862]);
   (7865, [7864]); (7867, [7866]); (7869, [7868]); (7871, [7870]);
   (7873, [7872]); (7875, [7874]); (7877, [7876]); (7879, [7878]);
   (7881, [7880]); (7883, [7882]); (7885, [7884]); (7887, [7886]);
   (7889, [7888]); (7891, [7890]); (7893, [7892]); (7895, [7894]);
   (7897, [7896]); (7899, [7898]); (7901, [7900]); (7903, [7902]);
   (7905, [7904]); (7907, [7906]); (7909, [7908]); (7911, [7910]);
   (7913, [7912]); (7915, [7914]); (7917, [7916]); (7919, [7918]);
   (7921, [7920]); (7923, [7922]); (7925, [7924]); (7927, [7926]);
   (7929, [7928]); (7931, [7930]); (7933, [7932]); (7935, [7934]);
   (7936, [7944]); (7937, [7945]); (7938, [7946]); (7939, [7947]);
   (7940, [7948]); (7941, [7949]); (7942, [7950]); (7943, [7951]);
   (7952, [7960]); (7953, [7961]); (7954, [7962]); (7955, [7963]);
   (7956, [7964]); (7957, [7965]); (7968, [7976]); (7969, [7977]);
   (7970, [7978]); (7971, [7979]); (7972, [7980]); (7973, [7981]);
   (7974, [7982]); (7975, [7983]); (7984, [7992]); (7985, [7993]);
   (7986, [7994]); (7987, [7995]); (7988, [7996]); (7989, [7997]);
   (7990, [7998]); (7991, [7999]); (8000, [8008]); (8001, [8009]);
   (8002, [8010]); (8003, [8011]); (8004, [8012]); (8005, [8013]);
   (8016, [933; 787]); (8017, [8025]); (8018, [933; 787; 768]); (8019, [8027]);
   (8020, [933; 787; 769]); (8021, [8029]); (8022, [933; 787; 834]); (8023, [8031]);
   (8032, [8040]); (8033, [8041]); (8034, [8042]); (8035, [8043]);
   (8036, [8044]); (8037, [8045]); (8038, [8046]); (8039, [8047]);
   (8048, [8122]); (8049, [8123]); (8050, [8136]); (8051, [8137]);
   (8052, [8138]); (8053, [8139]); (8054, [8154]); (8055, [8155]);
   (8056, [8184]); (8057, [8185]); (8058, [8170]); (8059, [8171]);
   (8060, [8186]); (8061, [8187]); (8064, [7944; 921]); (8065, [7945; 921]);
   (8066, [7946; 921]); (8067, [7947; 921]); (8068, [7948; 921]); (8069, [7949; 921]);
   (8070, [7950; 921]); (8071, [7951; 921]); (8072, [7944; 921]); (8073, [7945; 921]);
   (8074, [7946; 921]); (8075, [7947; 921]); (8076, [7948; 921]); (8077, [7949; 921]);
   (8078, [7950; 921]); (8079, [7951; 921]); (8080, [7976; 921]); (8081, [7977; 921]);
   (8082, [7978; 921]); (8083, [7979; 921]); (8084, [7980; 921]); (8085, [7981; 921]);
   (8086, [7982; 921]); (8087, [7983; 921]); (8088, [7976; 921]); (8089, [7977; 921]);
   (8090, [7978; 921]); (8091, [7979; 921]); (8092, [7980; 921]); (8093, [7981; 921]);
   (8094, [7982; 921]); (8095, [7983; 921]); (8096, [8040; 921]); (8097, [8041; 921]);
   (8098, [8042; 921]); (8099, [8043; 921]); (8100, [8044; 921]); (8101, [8045; 921]);
   (8102, [8046; 921]); (8103, [8047; 921]); (8104, [8040; 921]); (8105, [8041; 921]);
   (8106, [8042; 921]); (8107, [8043; 921]); (8108, [8044; 921]); (8109, [8045; 921]);
   (8110, [8046; 921]); (8111, [8047; 921]); (8112, [8120]); (8113, [8121]);
   (8114, [8122; 921]); (8115, [913; 921]); (8116, [902; 921]); (8118, [913; 834]);
   (8119, [913; 834; 921]); (8124, [913; 921]); (8126, [921]); (8130, [8138; 921]);
   (8131, [919; 921]); (8132, [905; 921]); (8134, [919; 834]); (8135, [919; 834; 921]);
   (8140, [919; 921]); (8144, [8152]); (8145, [8153]); (8146, [921; 776; 768]);
   (8147, [921; 776; 769]); (8150, [921; 834]); (8151, [921; 776; 834]); (8160, [8168]);
   (8161, [8169]); (8162, [933; 776; 768]); (8163, [933; 776; 769]); (8164, [929; 787]);
   (8165, [8172]); (8166, [933; 834]); (8167, [933; 776; 834]); (8178, [8186; 921]);
   (8179, [937; 921]); (8180, [911; 921]); (8182, [937; 834]); (8183, [937; 834; 921]);
   (8188, [937; 921]); (8526, [8498]); (8560, [8544]); (8561, [8545]);
   (8562, [8546]); (8563, [8547]); (8564, [8548]); (8565, [8549]);
   (8566, [8550]); (8567, [8551]); (8568, [8552]); (8569, [8553]);
   (8570, [8554]); (8571, [8555]); (8572, [8556]); (8573, [8557]);
   (8574, [8558]); (8575, [8559]); (8580, [8579]); (9424, [9398]);
   (9425, [9399]); (9426, [9400]); (9427, [9401]); (9428, [9402]);
   (9429, [9403]); (9430, [9404]); (9431, [9405]); (9432, [9406]);
   (9433, [9407]); (9434, [9408]); (9435, [9409]); (9436, [9410]);
   (9437, [9411]); (9438, [9412]); (9439, [9413]); (9440, [9414]);
   (9441, [9415]); (9442, [9416]); (9443, [9417]); (9444, [9418]);
   (9445, [9419]); (9446, [9420]); (9447, [9421]); (9448, [9422]);
   (9449, [9423]); (11312, [11264]); (11313, [11265]); (11314, [11266]);
   (11315, [11267]); (11316, [11268]); (11317, [11269]); (11318, [11270]);
   (11319, [11271]); (11320, [11272]); (11321, [11273]); (11322, [11274]);
   (11323, [11275]); (11324, [11276]); (11325, [11277]); (11326, [11278]);
   (11327, [11279]); (11328, [11280]); (11329, [11281]); (11330, [11282]);
   (11331, [11283]); (11332, [11284]); (11333, [11285]); (11334, [11286]);
   (11335, [11287]); (11336, [11288]); (11337, [11289]); (11338, [11290]);
   (11339, [11291]); (11340, [11292]); (11341, [11293]); (11342, [11294]);
   (11343, [11295]); (11344, [11296]); (11345, [11297]); (11346, [11298]);
   (11347, [11299]); (11348, [11300]); (11349, [11301]); (11350, [11302]);
   (11351, [11303]); (11352, [11304]); (11353, [11305]); (11354, [11306]);
   (11355, [11307]); (11356, [11308]); (11357, [11309]); (11358, [11310]);
   (11359, [11311]); (11361, [11360]); (11365, [570]); (11366, [574]);
   (11368, [11367]); (11370, [11369]); (11372, [11371]); (11379, [11378]);
   (11382, [11381]); (11393, [11392]); (11395, [11394]); (11397, [11396]);
   (11399, [11398]); (11401, [11400]); (11403, [11402]); (11405, [11404]);
   (11407, [11406]); (11409, [11408]); (11411, [11410]); (11413, [11412]);
   (11415, [11414]); (11417, [11416]); (11419, [11418]); (11421, [11420]);
   (11423, [11422]); (11425, [11424]); (11427, [11426]); (11429, [11428]);
   (11431, [11430]); (11433, [11432]); (11435, [11434]); (11437, [11436]);
   (11439, [11438]); (11441, [11440]); (11443, [11442]); (11445, [11444]);
   (11447, [11446]); (11449, [11448]); (11451, [11450]); (11453, [11452]);
   (11455, [11454]); (11457, [11456]); (11459, [11458]); (11461, [11460]);
   (11463, [11462]); (11465, [11464]); (11467, [11466]); (11469, [11468]);
   (11471, [11470]); (11473, [11472]); (11475, [11474]); (11477, [11476]);
   (11479, [11478]); (11481, [11480]); (11483, [11482]); (11485, [11484]);
   (11487, [11486]); (11489, [11488]); (11491, [11490]); (11500, [11499]);
   (11502, [11501]); (11507, [11506]); (11520, [4256]); (11521, [4257]);
   (11522, [4258]); (11523, [4259]); (11524, [4260]); (11525, [4261]);
   (11526, [4262]); (11527, [4263]); (11528, [4264]); (11529, [4265]);
   (11530, [4266]); (11531, [4267]); (11532, [4268]); (11533, [4269]);
   (11534, [4270]); (11535, [4271]); (11536, [4272]); (11537, [4273]);
   (11538, [4274]); (11539, [4275]); (11540, [4276]); (11541, [4277]);
   (11542, [4278]); (11543, [4279]); (11544, [4280]); (11545, [4281]);
   (11546, [4282]); (11547, [4283]); (11548, [4284]); (11549, [4285]);
   (11550, [4286]); (11551, [4287]); (11552, [4288]); (11553, [4289]);
   (11554, [4290]); (11555, [4291]); (11556, [4292]); (11557, [4293]);
   (11559, [4295]); (11565, [4301]); (42561, [42560]); (42563, [42562]);
   (42565, [42564]); (42567, [42566]); (42569, [42568]); (42571, [42570]);
   (42573, [42572]); (42575, [42574]); (42577, [42576]); (42579, [42578]);
   (42581, [42580]); (42583, [42582]); (42585, [42584]); (42587, [42586]);
   (42589, [42588]); (42591, [42590]); (42593, [42592]); (42595, [42594]);
   (42597, [42596]); (42599, [42598]); (42601, [42600]); (42603, [42602]);
   (42605, [42604]); (42625, [42624]); (42627, [42626]); (42629, [42628]);
   (42631, [42630]); (42633, [42632]); (42635, [42634]); (42637, [42636]);
   (42639, [42638]); (42641, [42640]); (42643, [42642]); (42645, [42644]);
   (42647, [42646]); (42649, [42648]); (42651, [42650]); (42787, [42786]);
   (42789, [42788]); (42791, [42790]); (42793, [42792]); (42795, [42794]);
   (42797, [42796]); (42799, [42798]); (42803, [42802]); (42805, [42804]);
   (42807, [42806]); (42809, [42808]); (42811, [42810]); (42813, [42812]);
   (42815, [42814]); (42817, [42816]); (42819, [42818]); (42821, [42820]);
   (42823, [42822]); (42825, [42824]); (42827, [42826]); (42829, [42828]);
   (42831, [42830]); (42833, [42832]); (42835, [42834]); (42837, [42836]);
   (42839, [42838]); (42841, [42840]); (42843, [42842]); (42845, [42844]);
   (42847, [42846]); (42849, [42848]); (42851, [42850]); (42853, [42852]);
   (42855, [42854]); (42857, [42856]); (42859, [42858]); (42861, [42860]);
   (42863, [42862]); (42874, [42873]); (42876, [42875]); (42879, [42878]);
   (42881, [42880]); (42883, [42882]); (42885, [42884]); (42887, [42886]);
   (42892, [42891]); (42897, [42896]); (42899, [42898]); (42900, [42948]);
   (42903, [42902]); (42905, [42904]); (42907, [42906]); (42909, [42908]);
   (42911, [42910]); (42913, [42912]); (42915, [42914]); (42917, [42916]);
   (42919, [42918]); (42921, [42920]); (42933, [42932]); (42935, [42934]);
   (42937, [42936]); (42939, [42938]); (42941, [42940]); (42943, [42942]);
   (42945, [42944]); (42947, [42946]); (42952, [42951]); (42954, [42953]);
   (42961, [42960]); (42967, [42966]); (42969, [42968]); (42998, [42997]);
   (43859, [42931]); (43888, [5024]); (43889, [5025]); (43890, [5026]);
   (43891, [5027]); (43892, [5028]); (43893, [5029]); (43894, [5030]);
   (43895, [5031]); (43896, [5032]); (43897, [5033]); (43898, [5034]);
   (43899, [5035]); (43900, [5036]); (43901, [5037]); (43902, [5038]);
   (43903, [5039]); (43904, [5040]); (43905, [5041]); (43906, [5042]);
   (43907, [5043]); (43908, [5044]); (43909, [5045]); (43910, [5046]);
   (43911, [5047]); (43912, [5048]); (43913, [5049]); (43914, [5050]);
   (43915, [5051]); (43916, [5052]); (43917, [5053]); (43918, [5054]);
   (43919, [5055]); (43920, [5056]); (43921, [5057]); (43922, [5058]);
   (43923, [5059]); (43924, [5060]); (43925, [5061]); (43926, [5062]);
   (43927, [5063]); (43928, [5064]); (43929, [5065]); (43930, [5066]);
   (43931, [5067]); (43932, [5068]); (43933, [5069]); (43934, [5070]);
   (43935, [5071]); (43936, [5072]); (43937, [5073]); (43938, [5074]);
   (43939, [5075]); (43940, [5076]); (43941, [5077]); (43942, [5078]);
   (43943, [5079]); (43944, [5080]); (43945, [5081]); (43946, [5082]);
   (43947, [5083]); (43948, [5084]); (43949, [5085]); (43950, [5086]);
   (43951, [5087]); (43952, [5088]); (43953, [5089]); (43954, [5090]);
   (43955, [5091]); (43956, [5092]); (43957, [5093]); (43958, [5094]);
   (43959, [5095]); (43960, [5096]); (43961, [5097]); (43962, [5098]);
   (43963, [5099]); (43964, [5100]); (43965, [5101]); (43966, [5102]);
   (43967, [5103]); (64256, [70; 70]); (64257, [70; 73]); (64258, [70; 76]);
   (64259, [70; 70; 73]); (64260, [70; 70; 76]); (64261, [83; 84]); (64262, [83; 84]);
   (64275, [1348; 1350]); (64276, [1348; 1333]); (64277, [1348; 1339]); (64278, [1358; 1350]);
   (64279, [1348; 1341]); (65345, [65313]); (65346, [65314]); (65347, [65315]);
   (65348, [65316]); (65349, [65317]); (65350, [65318]); (65351, [65319]);
   (65352, [65320]); (65353, [65321]); (65354, [65322]); (65355, [65323]);
   (65356, [65324]); (65357, [65325]); (65358, [65326]); (65359, [65327]);
   (65360, [65328]); (65361, [65329]); (65362, [65330]); (65363, [65331]);
   (65364, [65332]); (65365, [65333]); (65366, [65334]); (65367, [65335]);
   (65368, [65336]); (65369, [65337]); (65370, [65338]); (66600, [66560]);
   (66601, [66561]); (66602, [66562]); (66603, [66563]); (66604, [66564]);
   (66605, [66565]); (66606, [66566]); (66607, [66567]); (66608, [66568]);
   (66609, [66569]); (66610, [66570]); (66611, [66571]); (66612, [66572]);
   (66613, [66573]); (66614, [66574]); (66615, [66575]); (66616, [66576]);
   (66617, [66577]); (66618, [66578]); (66619, [66579]); (66620, [66580]);
   (66621, [66581]); (66622, [66582]); (66623, [66583]); (66624, [66584]);
   (66625, [66585]); (66626, [66586]); (66627, [66587]); (66628, [66588]);
   (66629, [66589]); (66630, [66590]); (66631, [66591]); (66632, [66592]);
   (66633, [66593]); (66634, [66594]); (66635, [66595]); (66636, [66596]);
   (66637, [66597]); (66638, [66598]); (66639, [66599]); (66776, [66736]);
   (66777, [66737]); (66778, [66738]); (66779, [66739]); (66780, [66740]);
   (66781, [66741]); (66782, [66742]); (66783, [66743]); (66784, [66744]);
   (66785, [66745]); (66786, [66746]); (66787, [66747]); (66788, [66748]);
   (66789, [66749]); (66790, [66750]); (66791, [66751]); (66792, [66752]);
   (66793, [66753]); (66794, [66754]); (66795, [66755]); (66796, [66756]);
   (66797, [66757]); (66798, [66758]); (66799, [66759]); (66800, [66760]);
   (66801, [66761]); (66802, [66762]); (66803, [66763]); (66804, [66764]);
   (66805, [66765]); (66806, [66766]); (66807, [66767]); (66808, [66768]);
   (66809, [66769]); (66810, [66770]); (66811, [66771]); (66967, [66928]);
   (66968, [66929]); (66969, [66930]); (66970, [66931]); (66971, [66932]);
   (66972, [66933]); (66973, [66934]); (66974, [66935]); (66975, [66936]);
   (66976, [66937]); (66977, [66938]); (66979, [66940]); (66980, [66941]);
   (66981, [66942]); (66982, [66943]); (66983, [66944]); (66984, [66945]);
   (66985, [66946]); (66986, [66947]); (66987, [66948]); (66988, [66949]);
   (66989, [66950]); (66990, [66951]); (66991, [66952]); (66992, [66953]);
   (66993, [66954]); (66995, [66956]); (66996, [66957]); (66997, [66958]);
   (66998, [66959]); (66999, [66960]); (67000, [66961]); (67001, [66962]);
   (67003, [66964]); (67004, [66965]); (68800, [68736]); (68801, [68737]);
   (68802, [68738]); (68803, [68739]); (68804, [68740]); (68805, [68741]);
   (68806, [68742]); (68807, [68743]); (68808, [68744]); (68809, [68745]);
   (68810, [68746]); (68811, [68747]); (68812, [68748]); (68813, [68749]);
   (68814, [68750]); (68815, [68751]); (68816, [68752]); (68817, [68753]);
   (68818, [68754]); (68819, [68755]); (68820, [68756]); (68821, [68757]);
   (68822, [68758]); (68823, [68759]); (68824, [68760]); (68825, [68761]);
   (68826, [68762]); (68827, [68763]); (68828, [68764]); (68829, [68765]);
   (68830, [68766]); (68831, [68767]); (68832, [68768]); (68833, [68769]);
   (68834, [68770]); (68835, [68771]); (68836, [68772]); (68837, [68773]);
   (68838, [68774]); (68839, [68775]); (68840, [68776]); (68841, [68777]);
   (68842, [68778]); (68843, [68779]); (68844, [68780]); (68845, [68781]);
   (68846, [68782]); (68847, [68783]); (68848, [68784]); (68849, [68785]);
   (68850, [68786]); (71872, [71840]); (71873, [71841]); (71874, [71842]);
   (71875, [71843]); (71876, [71844]); (71877, [71845]); (71878, [71846]);
   (71879, [71847]); (71880, [71848]); (71881, [71849]); (71882, [71850]);
   (71883, [71851]); (71884, [71852]); (71885, [71853]); (71886, [71854]);
   (71887, [71855]); (71888, [71856]); (71889, [71857]); (71890, [71858]);
   (71891, [71859]); (71892, [71860]); (71893, [71861]); (71894, [71862]);
   (71895, [71863]); (71896, [71864]); (71897, [71865]); (71898, [71866]);
   (71899, [71867]); (71900, [71868]); (71901, [71869]); (71902, [71870]);
   (71903, [71871]); (93792, [93760]); (93793, [93761]); (93794, [93762]);
   (93795, [93763]); (93796, [93764]); (93797, [93765]); (93798, [93766]);
   (93799, [93767]); (93800, [93768]); (93801, [93769]); (93802, [93770]);
   (93803, [93771]); (93804, [93772]); (93805, [93773]); (93806, [93774]);
   (93807, [93775]); (93808, [93776]); (93809, [93777]); (93810, [93778]);
   (93811, [93779]); (93812, [93780]); (93813, [93781]); (93814, [93782]);
   (93815, [93783]); (93816, [93784]); (93817, [93785]); (93818, [93786]);
   (93819, [93787]); (93820, [93788]); (93821, [93789]); (93822, [93790]);
   (93823, [93791]); (125218, [125184]); (125219, [125185]); (125220, [125186]);
   (125221, [125187]); (125222, [125188]); (125223, [125189]); (125224, [125190]);
   (125225, [125191]); (125226, [125192]); (125227, [125193]); (125228, [125194]);
   (125229, [125195]); (125230, [125196]); (125231, [125197]); (125232, [125198]);
   (125233, [125199]); (125234, [125200]); (125235, [125201]); (125236, [125202]);
   (125237, [125203]); (125238, [125204]); (125239, [125205]); (125240, [125206]);
   (125241, [125207]); (125242, [125208]); (125243, [125209]); (125244, [125210]);
   (125245, [125211]); (125246, [125212]); (125247, [125213]); (125248, [125214]);
   (125249, [125215]); (125250, [125216]); (125251, [125217])].

Fixpoint assoc {B} (cp : N) (t : list (N * B)) : option B :=
  match t with
  | [] => None
  | (k, v) :: r => if k =? cp then Some v else assoc cp r
  end.

(** The upper-case form of one code point. *)
Definition upper_cp (cp : N) : list N :=
  if cp <? 128 then [if (97 <=? cp) && (cp <=? 122) then cp - 32 else cp]
  else match assoc cp upper_table with
       | Some l => l
       | None => [cp]
       end.

(** [s.upper()] *)
Definition upper (s : string) : string := encode (flat_map upper_cp (decode s)).

(** *** [repr] *)

(** The ranges of the code points from 128 up that are not printable. *)
Definition unprintable_table : list (N * N) :=
  [(128, 160); (173, 173); (888, 889); (896, 899); (907, 907); (909, 909);
   (930, 930); (1328, 1328); (1367, 1368); (1419, 1420); (1424, 1424); (1480, 1487);
   (1515, 1518); (1525, 1541); (1564, 1564); (1757, 1757); (1806, 1807); (1867, 1868);
   (1970, 1983); (2043, 2044); (2094, 2095); (2111, 2111); (2140, 2141); (2143, 2143);
   (2155, 2159); (2191, 2199); (2274, 2274); (2436, 2436); (2445, 2446); (2449, 2450);
   (2473, 2473); (2481, 2481); (2483, 2485); (2490, 2491); (2501, 2502); (2505, 2506);
   (2511, 2518); (2520, 2523); (2526, 2526); (2532, 2533); (2559, 2560); (2564, 2564);
   (2571, 2574); (2577, 2578); (2601, 2601); (2609, 2609); (2612, 2612); (2615, 2615);
   (2618, 2619); (2621, 2621); (2627, 2630); (2633, 2634); (2638, 2640); (2642, 2648);
   (2653, 2653); (2655, 2661); (2679, 2688); (2692, 2692); (2702, 2702); (2706, 2706);
   (2729, 2729); (2737, 2737); (2740, 2740); (2746, 2747); (2758, 2758); (2762, 2762);
   (2766, 2767); (2769, 2783); (2788, 2789); (2802, 2808); (2816, 2816); (2820, 2820);
   (2829, 2830); (2833, 2834); (2857, 2857); (2865, 2865); (2868, 2868); (2874, 2875);
   (2885, 2886); (2889, 2890); (2894, 2900); (2904, 2907); (2910, 2910); (2916, 2917);
   (2936, 2945); (2948, 2948); (2955, 2957); (2961, 2961); (2966, 2968); (2971, 2971);
   (2973, 2973); (2976, 2978); (2981, 2983); (2987, 2989); (3002, 3005); (3011, 3013);
   (3017, 3017); (3022, 3023); (3025, 3030); (3032, 3045); (3067, 3071); (3085, 3085);
   (3089, 3089); (3113, 3113); (3130, 3131); (3141, 3141); (3145, 3145); (3150, 3156);
   (3159, 3159); (3163, 3164); (3166, 3167); (3172, 3173); (3184, 3190); (3213, 3213);
   (3217, 3217); (3241, 3241); (3252, 3252); (3258, 3259); (3269, 3269); (3273, 3273);
   (3278, 3284); (3287, 3292); (3295, 3295); (3300, 3301); (3312, 3312); (3315, 3327);
   (3341, 3341); (3345, 3345); (3397, 3397); (3401, 3401); (3408, 3411); (3428, 3429);
   (3456, 3456); (3460, 3460); (3479, 3481); (3506, 3506); (3516, 3516); (3518, 3519);
   (3527, 3529); (3531, 3534); (3541, 3541); (3543, 3543); (3552, 3557); (3568, 3569);
   (3573, 3584); (3643, 3646); (3676, 3712); (3715, 3715); (3717, 3717); (3723, 3723);
   (3748, 3748); (3750, 3750); (3774, 3775); (3781, 3781); (3783, 3783); (3790, 3791);
   (3802, 3803); (3808, 3839); (3912, 3912); (3949, 3952); (3992, 3992); (4029, 4029);
   (4045, 4045); (4059, 4095); (4294, 4294); (4296, 4300); (4302, 4303); (4681, 4681);
   (4686, 4687); (4695, 4695); (4697, 4697); (4702, 4703); (4745, 4745); (4750, 4751);
   (4785, 4785); (4790, 4791); (4799, 4799); (4801, 4801); (4806, 4807); (4823, 4823);
   (4881, 4881); (4886, 4887); (4955, 4956); (4989, 4991); (5018, 5023); (5110, 5111);
   (5118, 5119); (5760, 5760); (5789, 5791); (5881, 5887); (5910, 5918); (5943, 5951);
   (5972, 5983); (5997, 5997); (6001, 6001); (6004, 6015); (6110, 6111); (6122, 6127);
   (6138, 6143); (6158, 6158); (6170, 6175); (6265, 6271); (6315, 6319); (6390, 6399);
   (6431, 6431); (6444, 6447); (6460, 6463); (6465, 6467); (6510, 6511); (6517, 6527);
   (6572, 6575); (6602, 6607); (6619, 6621); (6684, 6685); (6751, 6751); (6781, 6782);
   (6794, 6799); (6810, 6815); (6830, 6831); (6863, 6911); (6989, 6991); (7039, 7039);
   (7156, 7163); (7224, 7226); (7242, 7244); (7305, 7311); (7355, 7356); (7368, 7375);
   (7419, 7423); (7958, 7959); (7966, 7967); (8006, 8007); (8014, 8015); (8024, 8024);
   (8026, 8026); (8028, 8028); (8030, 8030); (8062, 8063); (8117, 8117); (8133, 8133);
   (8148, 8149); (8156, 8156); (8176, 8177); (8181, 8181); (8191, 8207); (8232, 8239);
   (8287, 8303); (8306, 8307); (8335, 8335); (8349, 8351); (8385, 8399); (8433, 8447);
   (8588, 8591); (9255, 9279); (9291, 9311); (11124, 11125); (11158, 11158); (11508, 11512);
   (11558, 11558); (11560, 11564); (11566, 11567); (11624, 11630); (11633, 11646); (11671, 11679);
   (11687, 11687); (11695, 11695); (11703, 11703); (11711, 11711); (11719, 11719); (11727, 11727);
   (11735, 11735); (11743, 11743); (11870, 11903); (11930, 11930); (12020, 12031); (12246, 12271);
   (12284, 12288); (12352, 12352); (12439, 12440); (12544, 12548); (12592, 12592); (12687, 12687);
   (12772, 12783); (12831, 12831); (42125, 42127); (42183, 42191); (42540, 42559); (42744, 42751);
   (42955, 42959); (42962, 42962); (42964, 42964); (42970, 42993); (43053, 43055); (43066, 43071);
   (43128, 43135); (43206, 43213); (43226, 43231); (43348, 43358); (43389, 43391); (43470, 43470);
   (43482, 43485); (43519, 43519); (43575, 43583); (43598, 43599); (43610, 43611); (43715, 43738);
   (43767, 43776); (43783, 43784); (43791, 43792); (43799, 43807); (43815, 43815); (43823, 43823);
   (43884, 43887); (44014, 44015); (44026, 44031); (55204, 55215); (55239, 55242); (55292, 63743);
   (64110, 64111); (64218, 64255); (64263, 64274); (64280, 64284); (64311, 64311); (64317, 64317);
   (64319, 64319); (64322, 64322); (64325, 64325); (64451, 64466); (64912, 64913); (64968, 64974);
   (64976, 65007); (65050, 65055); (65107, 65107); (65127, 65127); (65132, 65135); (65141, 65141);
   (65277, 65280); (65471, 65473); (65480, 65481); (65488, 65489); (65496, 65497); (65501, 65503);
   (65511, 65511); (65519, 65531); (65534, 65535); (65548, 65548); (65575, 65575); (65595, 65595);
   (65598, 65598); (65614, 65615); (65630, 65663); (65787, 65791); (65795, 65798); (65844, 65846);
   (65935, 65935); (65949, 65951); (65953, 65999); (66046, 66175); (66205, 66207); (66257, 66271);
   (66300, 66303); (66340, 66348); (66379, 66383); (66427, 66431); (66462, 66462); (66500, 66503);
   (66518, 66559); (66718, 66719); (66730, 66735); (66772, 66775); (66812, 66815); (66856, 66863);
   (66916, 66926); (66939, 66939); (66955, 66955); (66963, 66963); (66966, 66966); (66978, 66978);
   (66994, 66994); (67002, 67002); (67005, 67071); (67383, 67391); (67414, 67423); (67432, 67455);
   (67462, 67462); (67505, 67505); (67515, 67583); (67590, 67591); (67593, 67593); (67638, 67638);
   (67641, 67643); (67645, 67646); (67670, 67670); (67743, 67750); (67760, 67807); (67827, 67827);
   (67830, 67834); (67868, 67870); (67898, 67902); (67904, 67967); (68024, 68027); (68048, 68049);
   (68100, 68100); (68103, 68107); (68116, 68116); (68120, 68120); (68150, 68151); (68155, 68158);
   (68169, 68175); (68185, 68191); (68256, 68287); (68327, 68330); (68343, 68351); (68406, 68408);
   (68438, 68439); (68467, 68471); (68498, 68504); (68509, 68520); (68528, 68607); (68681, 68735);
   (68787, 68799); (68851, 68857); (68904, 68911); (68922, 69215); (69247, 69247); (69290, 69290);
   (69294, 69295); (69298, 69375); (69416, 69423); (69466, 69487); (69514, 69551); (69580, 69599);
   (69623, 69631); (69710, 69713); (69750, 69758); (69821, 69821); (69827, 69839); (69865, 69871);
   (69882, 69887); (69941, 69941); (69960, 69967); (70007, 70015); (70112, 70112); (70133, 70143);
   (70162, 70162); (70207, 70271); (70279, 70279); (70281, 70281); (70286, 70286); (70302, 70302);
   (70314, 70319); (70379, 70383); (70394, 70399); (70404, 70404); (70413, 70414); (70417, 70418);
   (70441, 70441); (70449, 70449); (70452, 70452); (70458, 70458); (70469, 70470); (70473, 70474);
   (70478, 70479); (70481, 70486); (70488, 70492); (70500, 70501); (70509, 70511); (70517, 70655);
   (70748, 70748); (70754, 70783); (70856, 70863); (70874, 71039); (71094, 71095); (71134, 71167);
   (71237, 71247); (71258, 71263); (71277, 71295); (71354, 71359); (71370, 71423); (71451, 71452);
   (71468, 71471); (71495, 71679); (71740, 71839); (71923, 71934); (71943, 71944); (71946, 71947);
   (71956, 71956); (71959, 71959); (71990, 71990); (71993, 71994); (72007, 72015); (72026, 72095);
   (72104, 72105); (72152, 72153); (72165, 72191); (72264, 72271); (72355, 72367); (72441, 72703);
   (72713, 72713); (72759, 72759); (72774, 72783); (72813, 72815); (72848, 72849); (72872, 72872);
   (72887, 72959); (72967, 72967); (72970, 72970); (73015, 73017); (73019, 73019); (73022, 73022);
   (73032, 73039); (73050, 73055); (73062, 73062); (73065, 73065); (73103, 73103); (73106, 73106);
   (73113, 73119); (73130, 73439); (73465, 73647); (73649, 73663); (73714, 73726); (74650, 74751);
   (74863, 74863); (74869, 74879); (75076, 77711); (77811, 77823); (78895, 82943); (83527, 92159);
   (92729, 92735); (92767, 92767); (92778, 92781); (92863, 92863); (92874, 92879); (92910, 92911);
   (92918, 92927); (92998, 93007); (93018, 93018); (93026, 93026); (93048, 93052); (93072, 93759);
   (93851, 93951); (94027, 94030); (94088, 94094); (94112, 94175); (94181, 94191); (94194, 94207);
   (100344, 100351); (101590, 101631); (101641, 110575); (110580, 110580); (110588, 110588); (110591, 110591);
   (110883, 110927); (110931, 110947); (110952, 110959); (111356, 113663); (113771, 113775); (113789, 113791);
   (113801, 113807); (113818, 113819); (113824, 118527); (118574, 118575); (118599, 118607); (118724, 118783);
   (119030, 119039); (119079, 119080); (119155, 119162); (119275, 119295); (119366, 119519); (119540, 119551);
   (119639, 119647); (119673, 119807); (119893, 119893); (119965, 119965); (119968, 119969); (119971, 119972);
   (119975, 119976); (119981, 119981); (119994, 119994); (119996, 119996); (120004, 120004); (120070, 120070);
   (120075, 120076); (120085, 120085); (120093, 120093); (120122, 120122); (120127, 120127); (120133, 120133);
   (120135, 120137); (120145, 120145); (120486, 120487); (120780, 120781); (121484, 121498); (121504, 121504);
   (121520, 122623); (122655, 122879); (122887, 122887); (122905, 122906); (122914, 122914); (122917, 122917);
   (122923, 123135); (123181, 123183); (123198, 123199); (123210, 123213); (123216, 123535); (123567, 123583);
   (123642, 123646); (123648, 124895); (124903, 124903); (124908, 124908); (124911, 124911); (124927, 124927);
   (125125, 125126); (125143, 125183); (125260, 125263); (125274, 125277); (125280, 126064); (126133, 126208);
   (126270, 126463); (126468, 126468); (126496, 126496); (126499, 126499); (126501, 126502); (126504, 126504);
   (126515, 126515); (126520, 126520); (126522, 126522); (126524, 126529); (126531, 126534); (126536, 126536);
   (126538, 126538); (126540, 126540); (126544, 126544); (126547, 126547); (126549, 126550); (126552, 126552);
   (126554, 126554); (126556, 126556); (126558, 126558); (126560, 126560); (126563, 126563); (126565, 126566);
   (126571, 126571); (126579, 126579); (126584, 126584); (126589, 126589); (126591, 126591); (126602, 126602);
   (126620, 126624); (126628, 126628); (126634, 126634); (126652, 126703); (126706, 126975); (127020, 127023);
   (127124, 127135); (127151, 127152); (127168, 127168); (127184, 127184); (127222, 127231); (127406, 127461);
   (127491, 127503); (127548, 127551); (127561, 127567); (127570, 127583); (127590, 127743); (128728, 128732);
   (128749, 128751); (128765, 128767); (128884, 128895); (128985, 128991); (129004, 129007); (129009, 129023);
   (129036, 129039); (129096, 129103); (129114, 129119); (129160, 129167); (129198, 129199); (129202, 129279);
   (129620, 129631); (129646, 129647); (129653, 129655); (129661, 129663); (129671, 129679); (129709, 129711);
   (129723, 129727); (129734, 129743); (129754, 129759); (129768, 129775); (129783, 129791); (129939, 129939);
   (129995, 130031); (130042, 131071); (173792, 173823); (177977, 177983); (178206, 178207); (183970, 183983);
   (191457, 194559); (195102, 196607); (201547, 917759); (918000, 1114111)].

(** [str.isprintable] on one code point. *)
Definition isprintable (cp : N) : bool :=
  if cp <? 128 then (32 <=? cp) && (cp <? 127)
  else negb (existsb (fun r => (fst r <=? cp) && (cp <=? snd r)) unprintable_table).

Definition hex_digit (n : N) : N := if n <? 10 then 48 + n else 87 + n.

(** The last [digits] hexadecimal digits of [n], in lower case. *)
Fixpoint hex (digits : nat) (n : N) : list N :=
  match digits with
  | O => []
  | S d => hex d (n / 16) ++ [hex_digit (n mod 16)]
  end.

Definition squote : N := 39.
Definition dquote : N := 34.
Definition backslash : N := 92.

(** One code point of [repr(s)] when the surrounding quote is [q]. *)
Definition repr_cp (q cp : N) : list N :=
  if (cp =? backslash) || (cp =? q) then [backslash; cp]
  else if cp =? 9 then [backslash; 116]
  else if cp =? 10 then [backslash; 110]
  else if cp =? 13 then [backslash; 114]
  else if isprintable cp then [cp]
  else if cp <? 256 then backslash :: 120 :: hex 2 cp
  else if cp <? 65536 then backslash :: 117 :: hex 4 cp
  else backslash :: 85 :: hex 8 cp.

(** [repr(s)] for a [str]: single quotes, unless the text holds a single
    quote and no double quote. *)
Definition repr (s : string) : string :=
  let cps := decode s in
  let q := if existsb (N.eqb squote) cps && negb (existsb (N.eqb dquote) cps)
           then dquote else squote in
  encode (q :: flat_map (repr_cp q) cps ++ [q]).

Fixpoint join (sep : string) (l : list string) : string :=
  match l with
  | [] => EmptyString
  | [x] => x
  | x :: r => x +++ sep +++ join sep r
  end.

(** [str(l)] for a list of [str], as an f-string field renders it. *)
Definition repr_list (l : list string) : string :=
  "[" +++ join ", " (map repr l) +++ "]".

(** [x in {...}] for a set of strings given as a list. *)
Definition mem (x : string) (l : list string) : bool :=
  existsb (String.eqb x) l.

End PyStr.

(** ** The platform: warehouse, inference service, console *)

(** A raised Python exception: its class, [str(e)], and whether the class
    derives from [Exception].  [KeyboardInterrupt], [SystemExit] and
    [GeneratorExit] derive from [BaseException] only, and a remote call may
    be interrupted by any of them. *)
Record Exc := mkExc {
  exc_class : string;
  exc_message : string;
  is_exception : bool
}.

(** One row of [GOVERNANCE_AUTOPILOT_LOG], without [EVENT_TIME], which no
    insert supplies (the column default fills it). *)
Record AuditRecord := mkAudit {
  object_type : string;
  object_name : string;
  column_name : option string;   (* [None] is SQL NULL *)
  action      : string;
  details     : string
}.

(** The statements the workflow submits through [session.sql(...).collect()].
    The platform is taken to read each submitted text as the statement it
    spells, which holds as long as table and column names carry no quote
    character. *)
Inductive Stmt :=
| CreateLogTable
| SetTag (table column label : string)
| SetRowAccessPolicy (table policy : string)
| InsertLog (r : AuditRecord).

(** Remote calls, in the order issued; [ok] is false when the call raised. *)
Inductive Call :=
| GetActiveSession (ok : bool)
| TableToPandas (table : string) (limit : nat) (ok : bool)
| CortexComplete (model prompt : string) (ok : bool)
| Sql (s : Stmt) (ok : bool).

Record World := mkWorld {
  log_table : option (list AuditRecord);   (* [None]: the table is absent *)
  history   : list Call;
  stdout    : list string
}.

(** A pandas frame: the columns in table order, each with its cells. *)
Definition DataFrame (Cell : Type) : Type := list (string * list Cell).

Record Env := mkEnv {
  Cell : Type;
  (** [str(x)] on a cell, as [astype(str)] applies it *)
  cell_str : Cell -> string;
  (** the error [get_active_session()] raises, if any *)
  active_session : World -> option Exc;
  (** the rows a scan of the named table yields, or the error raised *)
  table_rows : string -> World -> Exc + DataFrame Cell;
  (** the answer of [cortex.complete(model, prompt)], or the error raised *)
  cortex_answer : string -> string -> World -> Exc + string;
  (** the error the platform raises on a statement, if any *)
  sql_fault : Stmt -> World -> option Exc
}.

Definition rows (w : World) : list AuditRecord :=
  match log_table w with Some l => l | None => [] end.

Definition record_call (c : Call) (w : World) : World :=
  mkWorld (log_table w) (history w ++ [c]) (stdout w).

Definition call_ok (c : Call) : bool :=
  match c with
  | GetActiveSession ok => ok
  | TableToPandas _ _ ok => ok
  | CortexComplete _ _ ok => ok
  | Sql _ ok => ok
  end.

(** Computations that read and change the world and may raise.  The world
    reached survives a raise: what was done before it stays done. *)
Definition M (A : Type) : Type := World -> (Exc + A) * World.

Definition ret {A} (a : A) : M A := fun w => (inr a, w).

Definition raise {A} (e : Exc) : M A := fun w => (inl e, w).

Definition bind {A B} (m : M A) (k : A -> M B) : M B :=
  fun w => match m w with
           | (inr a, w') => k a w'
           | (inl e, w') => (inl e, w')
           end.

(** [try: m  except Exception as e: h e].  The handler takes the exceptions
    that derive from [Exception]; any other leaves the statement as raised. *)
Definition try_except {A} (m : M A) (h : Exc -> M A) : M A :=
  fun w => match m w with
           | (inr a, w') => (inr a, w')
           | (inl e, w') => if is_exception e then h e w' else (inl e, w')
           end.

Notation "x <- m ;; k" := (bind m (fun x => k))
  (at level 61, m at next level, right associativity).
Notation "m ;;; k" := (bind m (fun _ => k))
  (at level 61, right associativity).

(** The world after one more printed line. *)
Definition printed (line : string) (w : World) : World :=
  mkWorld (log_table w) (history w) (stdout w ++ [line]).

(** [print(line)] *)
Definition print (line : string) : M unit :=
  fun w => (inr tt, printed line w).

(** What a statement does to the audit table once the platform accepts it.
    [CREATE TABLE IF NOT EXISTS] keeps an existing table; an insert needs
    the table to exist and appends one row. *)
Definition apply_stmt (s : Stmt) (log : option (list AuditRecord))
  : Exc + option (list AuditRecord) :=
  match s with
  | CreateLogTable =>
      match log with
      | Some l => inr (Some l)
      | None => inr (Some [])
      end
  | InsertLog r =>
      match log with
      | Some l => inr (Some (l ++ [r]))
      | None => inl (mkExc "SnowparkSQLException"
                       "Table 'GOVERNANCE_AUTOPILOT_LOG' does not exist" true)
      end
  | SetTag _ _ _ => inr log
  | SetRowAccessPolicy _ _ => inr log
  end.

Section Primitives.

Variable env : Env.

(** [get_active_session()] *)
Definition get_active_session : M unit :=
  fun w => match active_session env w with
           | Some e => (inl e, record_call (GetActiveSession false) w)
           | None => (inr tt, record_call (GetActiveSession true) w)
           end.

(** [session.table(name).limit(n).to_pandas()] *)
Definition table_limit_to_pandas (name : string) (n : nat)
  : M (DataFrame (Cell env)) :=
  fun w => match table_rows env name w with
           | inl e => (inl e, record_call (TableToPandas name n false) w)
           | inr df =>
               (inr (map (fun c => (fst c, firstn n (snd c))) df),
                record_call (TableToPandas name n true) w)
           end.

(** [cortex.complete(model=model, prompt=prompt, session=session)] *)
Definition cortex_complete (model prompt : string) : M string :=
  fun w => match cortex_answer env model prompt w with
           | inl e => (inl e, record_call (CortexComplete model prompt false) w)
           | inr r => (inr r, record_call (CortexComplete model prompt true) w)
           end.

(** [session.sql(text).collect()] for the text of statement [s] *)
Definition session_sql (s : Stmt) : M unit :=
  fun w => match sql_fault env s w with
           | Some e => (inl e, record_call (Sql s false) w)
           | None =>
               match apply_stmt s (log_table w) with
               | inl e => (inl e, record_call (Sql s false) w)
               | inr log' =>
                   (inr tt, mkWorld log' (history w ++ [Sql s true]) (stdout w))
               end
           end.

(** [frame[name].astype(str).tolist()].  Selecting a label that heads two
    columns gives a frame, which has no [tolist]. *)
Definition column_values (df : DataFrame (Cell env)) (name : string)
  : M (list string) :=
  match filter (fun c => String.eqb (fst c) name) df with
  | [c] => ret (map (cell_str env) (snd c))
  | [] => raise (mkExc "KeyError" name true)
  | _ => raise (mkExc "AttributeError"
                  "'DataFrame' object has no attribute 'tolist'" true)
  end.

Definition columns (df : DataFrame (Cell env)) : list string := map fst df.

End Primitives.

(** ** [src/autopilot.py] *)

Module Autopilot.

Definition default_model : string := "llama3.1-8b".

(** The set [allowed] of [classify_column_sensitivity]. *)
Definition allowed : list string := ["PII"; "CONFIDENTIAL"; "INTERNAL"; "PUBLIC"].

(** [values[:5]] *)
Definition sample_values (values : list string) : list string := firstn 5 values.

(** The f-string [prompt], with the list already cut to the sample. *)
Definition prompt_text (col_name : string) (sample : list string) : string :=
  "Classify this column's sensitivity." +++ PyStr.newline +++
  "Column: " +++ col_name +++ PyStr.newline +++
  "Values: " +++ PyStr.repr_list sample +++ PyStr.newline +++
  "Labels: PII, CONFIDENTIAL, INTERNAL, PUBLIC" +++ PyStr.newline +++
  "Return only the label.".

(** Lines 72-74: [str(result).strip().upper()], then the membership test. *)
Definition label_of_result (result : string) : string :=
  let label := PyStr.upper (PyStr.strip result) in
  if PyStr.mem label allowed then label else "INTERNAL".

(** UTF-8 bytes of the arrow in the progress lines. *)
Definition arrow : string :=
  String (PyStr.chr 226) (String (PyStr.chr 134) (String (PyStr.chr 146) EmptyString)).

Definition tag_record (table col_name label : string) : AuditRecord :=
  mkAudit "TABLE" table (Some col_name) "TAG_APPLIED" ("DATA_SENSITIVITY=" +++ label).

Definition policy_attached_record (table : string) : AuditRecord :=
  mkAudit "TABLE" table None "POLICY_ATTACHED" "PII_ROW_POLICY".

Definition policy_skipped_record (table : string) : AuditRecord :=
  mkAudit "TABLE" table None "POLICY_SKIPPED"
    "ROW_ACCESS_POLICY already present or attach failed".

(** The lines the run prints. *)
Definition running_line (full_table_name : string) : string :=
  "=== Running AI Governance Autopilot for " +++ full_table_name +++ " ===".

Definition classified_line (col_name label raw_label : string) : string :=
  "  " +++ arrow +++ " Cortex classified " +++ col_name +++ " as: "
  +++ label +++ " (raw: " +++ raw_label +++ ")".

Definition pii_detected_line (full_table_name : string) : string :=
  "PII detected in " +++ full_table_name +++ " " +++ arrow +++
  " ensuring PII_ROW_POLICY is attached...".

Definition attach_failed_line (e : Exc) : string :=
  "  Table already has a ROW ACCESS POLICY or attach failed: " +++ exc_message e.

Definition no_pii_line (full_table_name : string) : string :=
  "No PII detected in " +++ full_table_name +++ " " +++ arrow +++
  " no row policy attached.".

Definition completion_line : string := "=== Autopilot classification complete ===".

Section WithEnv.

Variable env : Env.

(** [_get_session()]: an error of the lookup that [except Exception] takes
    becomes a [RuntimeError]. *)
Definition _get_session : M unit :=
  try_except (get_active_session env)
    (fun _ => raise (mkExc "RuntimeError"
       ("No active Snowflake session found. " +++
        "This module is intended to run inside a Snowflake Notebook.") true)).

Definition classify_column_sensitivity
    (col_name : string) (values : list string) (model : string) : M string :=
  _get_session ;;;
  let prompt := prompt_text col_name (sample_values values) in
  result <- cortex_complete env model prompt ;;
  ret (label_of_result result).

(** The body of the [for col_name in sample_pdf.columns] loop; it gives
    the value of [has_pii] after the column. *)
Definition column_step (full_table_name : string)
    (sample_pdf : DataFrame (Cell env)) (col_name : string) (has_pii : bool)
  : M bool :=
  values <- column_values env sample_pdf col_name ;;
  raw_label <- classify_column_sensitivity col_name values default_model ;;
  let label := PyStr.upper raw_label in
  print (classified_line col_name label raw_label) ;;;
  (* ALTER TABLE t MODIFY COLUMN c SET TAG DATA_SENSITIVITY = 'label' *)
  session_sql env (SetTag full_table_name col_name label) ;;;
  (* INSERT INTO GOVERNANCE_AUTOPILOT_LOG ... VALUES('TABLE', 't', 'c',
     'TAG_APPLIED', 'DATA_SENSITIVITY=label') *)
  session_sql env (InsertLog (tag_record full_table_name col_name label)) ;;;
  ret (if String.eqb label "PII" then true else has_pii).

Fixpoint tag_columns (full_table_name : string)
    (sample_pdf : DataFrame (Cell env)) (cols : list string) (has_pii : bool)
  : M bool :=
  match cols with
  | [] => ret has_pii
  | col_name :: rest =>
      has_pii' <- column_step full_table_name sample_pdf col_name has_pii ;;
      tag_columns full_table_name sample_pdf rest has_pii'
  end.

(** Lines 92-131: session, sample, log table guard, column loop. *)
Definition protect_columns (full_table_name : string) : M bool :=
  _get_session ;;;
  print (running_line full_table_name) ;;;
  sample_pdf <- table_limit_to_pandas env full_table_name 10 ;;
  let has_pii := false in
  session_sql env CreateLogTable ;;;
  tag_columns full_table_name sample_pdf (columns env sample_pdf) has_pii.

(** Lines 133-154: the policy branch and the closing message. *)
Definition policy_step (full_table_name : string) (has_pii : bool) : M unit :=
  (if has_pii then
     print (pii_detected_line full_table_name) ;;;
     try_except
       ((* ALTER TABLE t SET ROW ACCESS POLICY PII_ROW_POLICY *)
        session_sql env (SetRowAccessPolicy full_table_name "PII_ROW_POLICY") ;;;
        session_sql env (InsertLog (policy_attached_record full_table_name)))
       (fun e =>
          print (attach_failed_line e) ;;;
          session_sql env (InsertLog (policy_skipped_record full_table_name)))
   else
     print (no_pii_line full_table_name)) ;;;
  print completion_line.

Definition classify_and_protect_table (full_table_name : string) : M unit :=
  has_pii <- protect_columns full_table_name ;;
  policy_step full_table_name has_pii.

End WithEnv.

End Autopilot.

(** ** [notebooks/ai_governance_autopilot_notebook.py]

    The notebook defines its own copies of the two functions over the
    session bound once at its top (line 4), so they make no session lookup
    of their own.  The copy has no log table guard, writes the bare label as
    DETAILS and has no handler around the policy statements. *)

Module Notebook.

Definition allowed : list string := ["PII"; "CONFIDENTIAL"; "INTERNAL"; "PUBLIC"].

Definition prompt_text (col_name : string) (values : list string) : string :=
  "Classify this column's sensitivity." +++ PyStr.newline +++
  "Column: " +++ col_name +++ PyStr.newline +++
  "Values: " +++ PyStr.repr_list (firstn 5 values) +++ PyStr.newline +++
  "Labels: PII, CONFIDENTIAL, INTERNAL, PUBLIC" +++ PyStr.newline +++
  "Return only the label.".

Definition label_of_result (result : string) : string :=
  let label := PyStr.upper (PyStr.strip result) in
  if PyStr.mem label allowed then label else "INTERNAL".

Section WithEnv.

Variable env : Env.

Definition classify_column_sensitivity
    (col_name : string) (values : list string) : M string :=
  let prompt := prompt_text col_name values in
  let model := "llama3.1-8b" in
  result <- cortex_complete env model prompt ;;
  ret (label_of_result result).

Definition column_step (full_table_name : string)
    (sample : DataFrame (Cell env)) (col_name : string) (has_pii : bool)
  : M bool :=
  values <- column_values env sample col_name ;;
  label <- classify_column_sensitivity col_name values ;;
  session_sql env (SetTag full_table_name col_name label) ;;;
  (* VALUES('TABLE','t','c','TAG_APPLIED','label') *)
  session_sql env
    (InsertLog (mkAudit "TABLE" full_table_name (Some col_name) "TAG_APPLIED" label)) ;;;
  ret (if String.eqb label "PII" then true else has_pii).

Fixpoint tag_columns (full_table_name : string)
    (sample : DataFrame (Cell env)) (cols : list string) (has_pii : bool)
  : M bool :=
  match cols with
  | [] => ret has_pii
  | col_name :: rest =>
      has_pii' <- column_step full_table_name sample col_name has_pii ;;
      tag_columns full_table_name sample rest has_pii'
  end.

(** Lines 19-37. *)
Definition protect_columns (full_table_name : string) : M bool :=
  sample <- table_limit_to_pandas env full_table_name 10 ;;
  let has_pii := false in
  tag_columns full_table_name sample (columns env sample) has_pii.

(** Lines 39-47: no handler around the policy statements. *)
Definition policy_step (full_table_name : string) (has_pii : bool) : M unit :=
  (if has_pii then
     session_sql env (SetRowAccessPolicy full_table_name "PII_ROW_POLICY") ;;;
     (* the insert names no COLUMN_NAME, which is then NULL *)
     session_sql env
       (InsertLog (mkAudit "TABLE" full_table_name None "POLICY_ATTACHED" "PII_ROW_POLICY"))
   else ret tt) ;;;
  print "Autopilot classification complete.".

Definition classify_and_protect_table (full_table_name : string) : M unit :=
  has_pii <- protect_columns full_table_name ;;
  policy_step full_table_name has_pii.

End WithEnv.

End Notebook.

(** ** Traces of a run *)

(** The audit rows a sequence of calls inserted: one per accepted insert. *)
Definition inserted (calls : list Call) : list AuditRecord :=
  flat_map (fun c => match c with
                     | Sql (InsertLog r) true => [r]
                     | _ => []
                     end) calls.

(** [w'] is [w] after the remote calls [calls], in this order. *)
Definition extends (w w' : World) (calls : list Call) : Prop :=
  history w' = history w ++ calls /\ rows w' = rows w ++ inserted calls.

Definition is_policy_call (c : Call) : bool :=
  match c with
  | Sql (SetRowAccessPolicy _ _) _ => true
  | _ => false
  end.

Definition is_policy_record (r : AuditRecord) : bool :=
  String.eqb (action r) "POLICY_ATTACHED" || String.eqb (action r) "POLICY_SKIPPED".

(** A tagging statement that carries the label PII. *)
Definition is_pii_tag (c : Call) : bool :=
  match c with
  | Sql (SetTag _ _ label) _ => String.eqb label "PII"
  | _ => false
  end.

(** The classifications of a run, read off its tag statements: the column
    and the label of each, in the order issued. *)
Definition classified (calls : list Call) : list (string * string) :=
  flat_map (fun c => match c with
                     | Sql (SetTag _ col label) _ => [(col, label)]
                     | _ => []
                     end) calls.

(** The calls of one column that goes through: session lookup, inference,
    tag statement, audit insert. *)
Definition column_calls (model table col prompt label : string)
    (log : AuditRecord) : list Call :=
  [GetActiveSession true; CortexComplete model prompt true;
   Sql (SetTag table col label) true; Sql (InsertLog log) true].

Module AutopilotTrace.

(** The calls of a column whose processing raised. *)
Inductive aborted (table col : string) : list Call -> Prop :=
| AbValues : aborted table col []
| AbSession : aborted table col [GetActiveSession false]
| AbCortex prompt :
    aborted table col
      [GetActiveSession true; CortexComplete Autopilot.default_model prompt false]
| AbTag prompt label :
    aborted table col
      [GetActiveSession true; CortexComplete Autopilot.default_model prompt true;
       Sql (SetTag table col label) false]
| AbLog prompt label :
    aborted table col
      [GetActiveSession true; CortexComplete Autopilot.default_model prompt true;
       Sql (SetTag table col label) true;
       Sql (InsertLog (Autopilot.tag_record table col label)) false].

(** The calls of the column loop over [cols] entered with flag [has_pii],
    and what the loop gives: the final flag, or the exception. *)
Inductive loop (table : string)
  : list string -> bool -> Exc + bool -> list Call -> Prop :=
| LoopEnd has_pii : loop table [] has_pii (inr has_pii) []
| LoopColumn col rest has_pii values label r calls :
    In label Autopilot.allowed ->
    loop table rest (if String.eqb label "PII" then true else has_pii) r calls ->
    loop table (col :: rest) has_pii r
      (column_calls Autopilot.default_model table col
         (Autopilot.prompt_text col (Autopilot.sample_values values)) label
         (Autopilot.tag_record table col label) ++ calls)
| LoopRaise col rest has_pii e calls :
    aborted table col calls ->
    loop table (col :: rest) has_pii (inl e) calls.

(** The calls of the policy branch entered with the flag set.  The last two
    cases are those of an exception the handler does not take. *)
Inductive policy (table : string) : Exc + unit -> list Call -> Prop :=
| PolicyAttached :
    policy table (inr tt)
      [Sql (SetRowAccessPolicy table "PII_ROW_POLICY") true;
       Sql (InsertLog (Autopilot.policy_attached_record table)) true]
| PolicySkipped (ok : bool) (r : Exc + unit) :
    (if ok then r = inr tt else exists e, r = inl e) ->
    policy table r
      [Sql (SetRowAccessPolicy table "PII_ROW_POLICY") false;
       Sql (InsertLog (Autopilot.policy_skipped_record table)) ok]
| PolicyLogRaised (ok : bool) (r : Exc + unit) :
    (if ok then r = inr tt else exists e, r = inl e) ->
    policy table r
      [Sql (SetRowAccessPolicy table "PII_ROW_POLICY") true;
       Sql (InsertLog (Autopilot.policy_attached_record table)) false;
       Sql (InsertLog (Autopilot.policy_skipped_record table)) ok]
| PolicyAttachLeft e :
    is_exception e = false ->
    policy table (inl e) [Sql (SetRowAccessPolicy table "PII_ROW_POLICY") false]
| PolicyLogLeft e :
    is_exception e = false ->
    policy table (inl e)
      [Sql (SetRowAccessPolicy table "PII_ROW_POLICY") true;
       Sql (InsertLog (Autopilot.policy_attached_record table)) false].

(** The calls of a whole run. *)
Inductive run (table : string) : Exc + unit -> list Call -> Prop :=
| RunNoSession e : run table (inl e) [GetActiveSession false]
| RunNoSample e :
    run table (inl e) [GetActiveSession true; TableToPandas table 10 false]
| RunNoLogTable e :
    run table (inl e)
      [GetActiveSession true; TableToPandas table 10 true; Sql CreateLogTable false]
| RunLoopRaised cols e calls :
    loop table cols false (inl e) calls ->
    run table (inl e)
      ([GetActiveSession true; TableToPandas table 10 true; Sql CreateLogTable true]
       ++ calls)
| RunNoPii cols calls :
    loop table cols false (inr false) calls ->
    run table (inr tt)
      ([GetActiveSession true; TableToPandas table 10 true; Sql CreateLogTable true]
       ++ calls)
| RunPii cols calls r tail :
    loop table cols false (inr true) calls ->
    policy table r tail ->
    run table r
      ([GetActiveSession true; TableToPandas table 10 true; Sql CreateLogTable true]
       ++ calls ++ tail).

End AutopilotTrace.

(** The calls every run makes before the column loop once all three go
    through. *)
Definition prelude (table : string) : list Call :=
  [GetActiveSession true; TableToPandas table 10 true; Sql CreateLogTable true].

(** Calls of the sampling, classification and tagging steps. *)
Definition in_fatal_step (c : Call) : bool :=
  match c with
  | GetActiveSession _ => true
  | TableToPandas _ _ _ => true
  | CortexComplete _ _ _ => true
  | Sql (SetTag _ _ _) _ => true
  | _ => false
  end.

Definition raised_fatal (c : Call) : bool := in_fatal_step c && negb (call_ok c).

(** No call follows one that raised in a fatal step. *)
Fixpoint stops_at_failure (calls : list Call) : bool :=
  match calls with
  | [] => true
  | c :: rest =>
      if raised_fatal c then match rest with [] => true | _ => false end
      else stops_at_failure rest
  end.

Definition no_policy_call (calls : list Call) : bool :=
  forallb (fun c => negb (is_policy_call c)) calls.

Definition is_tag_applied (r : AuditRecord) : bool := String.eqb (action r) "TAG_APPLIED".

(** [rec] is the audit row of a tagging statement of [calls] on [table]. *)
Definition logs_a_tag (table : string) (calls : list Call) (rec : AuditRecord) : Prop :=
  exists col label,
    In (Sql (SetTag table col label) true) calls /\
    In label Autopilot.allowed /\
    rec = Autopilot.tag_record table col label.


(** A row of a whole run: the row of a tagging statement, or a policy row. *)
Definition is_run_row (table : string) (calls : list Call) (rec : AuditRecord) : Prop :=
  logs_a_tag table calls rec
  \/ rec = Autopilot.policy_attached_record table
  \/ rec = Autopilot.policy_skipped_record table.

(** ** Scripted platforms, for running the workflow on concrete inputs *)

Module Demo.

(** The fixed head of every prompt about column [col]. *)
Definition prompt_head (col : string) : string :=
  "Classify this column's sensitivity." +++ PyStr.newline +++
  "Column: " +++ col +++ PyStr.newline.

(** An inference service that answers by the column a prompt is about. *)
Fixpoint answer_by_column (script : list (string * string)) (prompt : string)
  : string :=
  match script with
  | [] => "UNKNOWN"
  | (col, answer) :: rest =>
      if String.prefix (prompt_head col) prompt then answer
      else answer_by_column rest prompt
  end.

(** A platform with an active session, one frame for every table, scripted
    answers and the given statement faults.  Cells are text already. *)
Definition platform (frame : DataFrame string) (script : list (string * string))
    (fault : Stmt -> World -> option Exc) : Env :=
  mkEnv string (fun x => x)
    (fun _ => None)
    (fun _ _ => inr frame)
    (fun _ prompt _ => inr (answer_by_column script prompt))
    fault.

Definition no_fault : Stmt -> World -> option Exc := fun _ _ => None.

Definition policy_error : Exc :=
  mkExc "SnowparkSQLException" "Object already has a ROW ACCESS POLICY." true.


(** Tag statements raise on the named column. *)
Definition tag_rejected (col : string) : Stmt -> World -> option Exc :=
  fun s _ => match s with
             | SetTag _ c _ =>
                 if String.eqb c col
                 then Some (mkExc "SnowparkSQLException" "invalid identifier" true)
                 else None
             | _ => None
             end.

(** The attach raises once the history shows a policy attached before. *)
Definition attach_once : Stmt -> World -> option Exc :=
  fun s w => match s with
             | SetRowAccessPolicy _ _ =>
                 if existsb (fun c => is_policy_call c && call_ok c) (history w)
                 then Some policy_error else None
             | _ => None
             end.

Definition fresh_world : World := mkWorld None [] [].

(** A warehouse where the audit table was created beforehand. *)
Definition prepared_world : World := mkWorld (Some []) [] [].

Definition abc_frame : DataFrame string :=
  [("A", ["1"; "2"]); ("B", ["ann@example.com"; "bob@example.com"]); ("C", ["x"; "y"])].

Definition abc_script : list (string * string) :=
  [("A", "public"); ("B", " PII "); ("C", "Internal")].

Definition plain_frame : DataFrame string :=
  [("SKU", ["a1"; "b2"]); ("NOTE", ["ok"; "late"])].

Definition plain_script : list (string * string) :=
  [("SKU", "PUBLIC"); ("NOTE", "no idea")].

Definition email_frame : DataFrame string := [("EMAIL", ["ann@example.com"])].

Definition email_script : list (string * string) := [("EMAIL", "PII")].

(** The answer [pii] written with two dotless i (U+0131), after a no-break
    space and before an em space and a line feed. *)
Definition padded_answer : string :=
  PyStr.encode [0xA0; 0x70; 0x131; 0x131; 0x2003; 0x0A]%N.

(** The answer [PII] after a zero width space (U+200B), which is no white
    space for [str.strip]. *)
Definition marked_answer : string := PyStr.encode [0x200B; 0x50; 0x49; 0x49]%N.

End Demo.

(** ** Further readings of a world and of a trace *)

Definition table_exists (w : World) : bool :=
  match log_table w with Some _ => true | None => false end.

Definition is_sql (c : Call) : bool :=
  match c with Sql _ _ => true | _ => false end.

(** A tagging statement the platform accepted. *)
Definition is_tag_ok (c : Call) : bool :=
  match c with Sql (SetTag _ _ _) true => true | _ => false end.

(** The columns of the accepted tagging statements, in the order issued. *)
Definition tagged_columns (calls : list Call) : list string :=
  flat_map (fun c => match c with
                     | Sql (SetTag _ col _) true => [col]
                     | _ => []
                     end) calls.

(** The prompts of the inference requests, in the order issued. *)
Definition prompts (calls : list Call) : list string :=
  flat_map (fun c => match c with
                     | CortexComplete _ p _ => [p]
                     | _ => []
                     end) calls.

(** The error [_get_session] raises. *)
Definition no_session_error : Exc :=
  mkExc "RuntimeError"
    ("No active Snowflake session found. " +++
     "This module is intended to run inside a Snowflake Notebook.") true.

(** The audit row the notebook copy writes for a tagged column. *)
Definition notebook_tag_record (table col label : string) : AuditRecord :=
  mkAudit "TABLE" table (Some col) "TAG_APPLIED" label.

(** The audit table after the accepted statements among [calls], starting
    from [log]. *)
Definition replay (log : option (list AuditRecord)) (calls : list Call)
  : option (list AuditRecord) :=
  fold_left (fun lg c => match c with
                         | Sql s true =>
                             match apply_stmt s lg with
                             | inr lg' => lg'
                             | inl _ => lg
                             end
                         | _ => lg
                         end) calls log.

(** A computation all of whose remote calls satisfy [P], whose printed
    lines satisfy [Q] and whose returned values satisfy [R]; the audit table
    it leaves is the replay of its accepted statements. *)
Definition traced {A} (P : Call -> Prop) (Q : string -> Prop) (R : A -> Prop)
    (m : M A) : Prop :=
  forall w r w', m w = (r, w') ->
    exists calls out,
      history w' = history w ++ calls /\
      stdout w' = stdout w ++ out /\
      log_table w' = replay (log_table w) calls /\
      Forall P calls /\ Forall Q out /\
      (forall a, r = inr a -> R a).

(** The calls the column loop of the module may make on [table]. *)
Definition loop_call (table : string) (c : Call) : Prop :=
  match c with
  | GetActiveSession _ => True
  | CortexComplete model _ _ => model = Autopilot.default_model
  | Sql (SetTag t _ label) _ => t = table /\ In label Autopilot.allowed
  | Sql (InsertLog r) _ =>
      exists col label, In label Autopilot.allowed /\
                        r = Autopilot.tag_record table col label
  | _ => False
  end.

(** The calls the policy branch of the module may make on [table]. *)
Definition policy_branch_call (table : string) (c : Call) : Prop :=
  match c with
  | Sql (SetRowAccessPolicy t p) _ => t = table /\ p = "PII_ROW_POLICY"
  | Sql (InsertLog r) _ =>
      r = Autopilot.policy_attached_record table
      \/ r = Autopilot.policy_skipped_record table
  | _ => False
  end.

(** The calls a run of the module may make on [table]. *)
Definition run_call (table : string) (c : Call) : Prop :=
  match c with
  | TableToPandas t n _ => t = table /\ n = 10
  | Sql CreateLogTable _ => True
  | _ => loop_call table c \/ policy_branch_call table c
  end.

(** The lines a run of the module prints before its policy branch. *)
Definition progress_line (table : string) (line : string) : Prop :=
  line = Autopilot.running_line table
  \/ exists col label, In label Autopilot.allowed /\
                       line = Autopilot.classified_line col label label.

(** The calls a run of the notebook copy may make on [table]. *)
Definition notebook_call (table : string) (c : Call) : Prop :=
  match c with
  | TableToPandas t n _ => t = table /\ n = 10
  | CortexComplete model _ _ => model = "llama3.1-8b"
  | Sql (SetTag t _ label) _ => t = table /\ In label Notebook.allowed
  | Sql (SetRowAccessPolicy t p) _ => t = table /\ p = "PII_ROW_POLICY"
  | Sql (InsertLog r) _ =>
      (exists col label, In label Notebook.allowed /\
                         r = notebook_tag_record table col label)
      \/ r = mkAudit "TABLE" table None "POLICY_ATTACHED" "PII_ROW_POLICY"
  | _ => False
  end.

(** ** Platforms that fail in one place *)

Module Scenario.

Definition sql_error (msg : string) : Exc := mkExc "SnowparkSQLException" msg true.

(** No session is bound. *)
Definition offline : Env :=
  mkEnv string (fun x => x)
    (fun _ => Some (mkExc "SnowparkSessionException" "No default Session is found." true))
    (fun _ _ => inr Demo.email_frame)
    (fun _ _ _ => inr "PII")
    Demo.no_fault.

(** An interrupt of the running call: [KeyboardInterrupt] derives from
    [BaseException] only. *)
Definition interrupt : Exc := mkExc "KeyboardInterrupt" "" false.

(** The session lookup is interrupted. *)
Definition interrupted_lookup : Env :=
  mkEnv string (fun x => x)
    (fun _ => Some interrupt)
    (fun _ _ => inr Demo.email_frame)
    (fun _ _ _ => inr "PII")
    Demo.no_fault.

(** The scan of the table raises. *)
Definition unreadable_table : Env :=
  mkEnv string (fun x => x)
    (fun _ => None)
    (fun _ _ => inl (sql_error "Object does not exist or not authorized."))
    (fun _ _ _ => inr "PII")
    Demo.no_fault.

(** The inference service raises. *)
Definition inference_error : Exc := mkExc "SnowparkSQLException" "Unknown model" true.

Definition inference_down (frame : DataFrame string) : Env :=
  mkEnv string (fun x => x)
    (fun _ => None)
    (fun _ _ => inr frame)
    (fun _ _ _ => inl inference_error)
    Demo.no_fault.

(** The insert of a POLICY_ATTACHED row raises; all else goes through. *)
Definition attached_row_rejected : Stmt -> World -> option Exc :=
  fun s _ => match s with
             | InsertLog r =>
                 if String.eqb (action r) "POLICY_ATTACHED"
                 then Some (sql_error "insert rejected") else None
             | _ => None
             end.

(** The attach statement is interrupted. *)
Definition attach_interrupted : Stmt -> World -> option Exc :=
  fun s _ => match s with
             | SetRowAccessPolicy _ _ => Some interrupt
             | _ => None
             end.

(** The attach raises, and so does the insert of the POLICY_SKIPPED row. *)
Definition attach_and_skip_row_rejected : Stmt -> World -> option Exc :=
  fun s _ => match s with
             | SetRowAccessPolicy _ _ => Some Demo.policy_error
             | InsertLog r =>
                 if String.eqb (action r) "POLICY_SKIPPED"
                 then Some (sql_error "insert rejected") else None
             | _ => None
             end.

(** The audit insert of the named column raises. *)
Definition tag_row_rejected (col : string) : Stmt -> World -> option Exc :=
  fun s _ => match s with
             | InsertLog r =>
                 match column_name r with
                 | Some c => if String.eqb c col
                             then Some (sql_error "insert rejected") else None
                 | None => None
                 end
             | _ => None
             end.

(** A table scanned with twelve rows in one column. *)
Definition long_frame : DataFrame string :=
  [("ID", ["1"; "2"; "3"; "4"; "5"; "6"; "7"; "8"; "9"; "10"; "11"; "12"])].

Definition empty_frame : DataFrame string := [].

End Scenario.

(** ** Laws of the computations *)

Lemma bind_inv {A B} (m : M A) (k : A -> M B) w r w' :
  bind m k w = (r, w') ->
  (exists a w1, m w = (inr a, w1) /\ k a w1 = (r, w'))
  \/ (exists e, m w = (inl e, w') /\ r = inl e).
Proof.
  unfold bind. destruct (m w) as [[e | a] w1] eqn:E; intros H.
  - right. exists e. inversion H; subst. auto.
  - left. exists a, w1. auto.
Qed.

Lemma inserted_app l1 l2 : inserted (l1 ++ l2) = inserted l1 ++ inserted l2.
Proof. unfold inserted. apply flat_map_app. Qed.

Lemma inserted_failed s : inserted [Sql s false] = [].
Proof. destruct s; reflexivity. Qed.

Lemma record_failed_extends s w : extends w (record_call (Sql s false) w) [Sql s false].
Proof.
  split; [reflexivity|]. rewrite inserted_failed, app_nil_r. reflexivity.
Qed.

Lemma extends_refl w : extends w w [].
Proof. split; simpl; now rewrite app_nil_r. Qed.

Lemma extends_trans w1 w2 w3 c1 c2 :
  extends w1 w2 c1 -> extends w2 w3 c2 -> extends w1 w3 (c1 ++ c2).
Proof.
  intros [H1 R1] [H2 R2]. split.
  - rewrite H2, H1. now rewrite app_assoc.
  - rewrite R2, R1, inserted_app. now rewrite app_assoc.
Qed.

Lemma extends_inj w w' c1 c2 : extends w w' c1 -> extends w w' c2 -> c1 = c2.
Proof.
  intros [H1 _] [H2 _]. rewrite H1 in H2. now apply app_inv_head in H2.
Qed.

Lemma print_extends line w :
  exists w', print line w = (inr tt, w') /\ extends w w' []
             /\ stdout w' = stdout w ++ [line].
Proof.
  eexists. split; [reflexivity|]. split; [|reflexivity].
  split; simpl; unfold rows; simpl; now rewrite app_nil_r.
Qed.

Section PrimitiveLaws.

Variable env : Env.

Lemma session_sql_spec s w r w' :
  session_sql env s w = (r, w') ->
  exists ok, extends w w' [Sql s ok]
             /\ stdout w' = stdout w
             /\ (if ok then r = inr tt else exists e, r = inl e).
Proof.
  unfold session_sql. destruct (sql_fault env s w) as [e|].
  - intros H; inversion H; subst. exists false.
    split; [apply record_failed_extends|split; [reflexivity|eauto]].
  - destruct (apply_stmt s (log_table w)) as [e|log'] eqn:E.
    + intros H; inversion H; subst. exists false.
      split; [apply record_failed_extends|split; [reflexivity|eauto]].
    + intros H; inversion H; subst. exists true.
      split; [|split; reflexivity].
      split; simpl; [reflexivity|]. unfold rows; simpl.
      destruct s; simpl in E.
      * destruct (log_table w); inversion E; subst; simpl;
          rewrite ?app_nil_r; reflexivity.
      * inversion E; subst. now rewrite app_nil_r.
      * inversion E; subst. now rewrite app_nil_r.
      * destruct (log_table w); inversion E; reflexivity.
Qed.

Lemma get_active_session_spec w r w' :
  get_active_session env w = (r, w') ->
  exists ok, extends w w' [GetActiveSession ok]
             /\ stdout w' = stdout w
             /\ (if ok then r = inr tt else exists e, r = inl e).
Proof.
  unfold get_active_session. destruct (active_session env w) as [e|];
    intros H; inversion H; subst; [exists false | exists true];
    (split; [|split; [reflexivity|eauto]]);
    split; simpl; try reflexivity; unfold rows; simpl; now rewrite app_nil_r.
Qed.

Lemma _get_session_spec w r w' :
  Autopilot._get_session env w = (r, w') ->
  exists ok, extends w w' [GetActiveSession ok]
             /\ stdout w' = stdout w
             /\ (if ok then r = inr tt else exists e, r = inl e).
Proof.
  unfold Autopilot._get_session, try_except.
  destruct (get_active_session env w) as [[e|[]] w1] eqn:E;
    apply get_active_session_spec in E; destruct E as (ok & X & O & R).
  - destruct (is_exception e); unfold raise; intros H; inversion H; subst;
      exists ok; (split; [assumption|split; [assumption|]]);
      (destruct ok; [discriminate|eauto]).
  - intros H; inversion H; subst. exists ok.
    split; [assumption|split; [assumption|]].
    destruct ok; [reflexivity|]. destruct R; discriminate.
Qed.

Lemma cortex_complete_spec model prompt w r w' :
  cortex_complete env model prompt w = (r, w') ->
  exists ok, extends w w' [CortexComplete model prompt ok]
             /\ stdout w' = stdout w
             /\ (if ok then exists raw, r = inr raw else exists e, r = inl e).
Proof.
  unfold cortex_complete. destruct (cortex_answer env model prompt w) as [e|raw];
    intros H; inversion H; subst; [exists false | exists true];
    (split; [|split; [reflexivity|eauto]]);
    split; simpl; try reflexivity; unfold rows; simpl; now rewrite app_nil_r.
Qed.

Lemma table_limit_to_pandas_spec name n w r w' :
  table_limit_to_pandas env name n w = (r, w') ->
  exists ok, extends w w' [TableToPandas name n ok]
             /\ stdout w' = stdout w
             /\ (if ok then exists df, r = inr df else exists e, r = inl e).
Proof.
  unfold table_limit_to_pandas. destruct (table_rows env name w) as [e|df];
    intros H; inversion H; subst; [exists false | exists true];
    (split; [|split; [reflexivity|eauto]]);
    split; simpl; try reflexivity; unfold rows; simpl; now rewrite app_nil_r.
Qed.

Lemma column_values_spec df name w r w' :
  column_values env df name w = (r, w') -> w' = w.
Proof.
  unfold column_values.
  destruct (filter _ df) as [|c [|c' l]]; unfold ret, raise;
    intros H; inversion H; reflexivity.
Qed.

End PrimitiveLaws.

(** ** Labels *)

Lemma mem_In x l : PyStr.mem x l = true <-> In x l.
Proof.
  unfold PyStr.mem. rewrite existsb_exists. split.
  - intros (y & Hy & E). apply String.eqb_eq in E. now subst.
  - intros H. exists x. split; [assumption|apply String.eqb_refl].
Qed.

Lemma label_of_result_allowed raw :
  In (Autopilot.label_of_result raw) Autopilot.allowed.
Proof.
  unfold Autopilot.label_of_result.
  destruct (PyStr.mem _ _) eqn:E.
  - now apply mem_In.
  - simpl; auto.
Qed.

Lemma upper_allowed label :
  In label Autopilot.allowed -> PyStr.upper label = label.
Proof.
  simpl. intros [<- | [<- | [<- | [<- | []]]]]; reflexivity.
Qed.

Lemma strip_allowed label :
  In label Autopilot.allowed -> PyStr.strip label = label.
Proof.
  simpl. intros [<- | [<- | [<- | [<- | []]]]]; reflexivity.
Qed.

(** ** The module's functions produce the traces above *)

Ltac bind_step H :=
  let a := fresh "a" in
  let w1 := fresh "w" in
  let Hm := fresh "Hm" in
  let e := fresh "e" in
  let Hr := fresh "Hr" in
  apply bind_inv in H;
  destruct H as [(a & w1 & Hm & H) | (e & Hm & Hr)];
  [ | first [ discriminate Hr | subst ] ].

Ltac pair_inv H := inversion H; subst; clear H.

Lemma printed_extends line w : extends w (printed line w) [].
Proof. split; simpl; now rewrite app_nil_r. Qed.

Lemma stdout_printed line w : stdout (printed line w) = stdout w ++ [line].
Proof. reflexivity. Qed.

(** Chains the [extends] facts at hand from the first world to the last. *)
Ltac ext_chain n :=
  lazymatch n with
  | O => fail
  | S ?m =>
      solve [ eassumption
            | apply printed_extends
            | apply extends_refl
            | eapply extends_trans;
              [ (eassumption + apply printed_extends) | ext_chain m ] ]
  end.

Ltac ext_solve := ext_chain 12.

(** Splits on the outcome of the next statement of a run unfolded in [H]. *)
Ltac sql_case H :=
  match type of H with
  | context [session_sql ?env0 ?s0 ?w0] =>
      let E := fresh "E" in
      let ok := fresh "ok" in
      let X := fresh "X" in
      let O := fresh "O" in
      let R := fresh "R" in
      let e1 := fresh "e" in
      let w1 := fresh "w" in
      destruct (session_sql env0 s0 w0) as [[e1|[]] w1] eqn:E;
      cbv beta iota in H;
      apply session_sql_spec in E; destruct E as (ok & X & O & R);
      destruct ok; try discriminate R; try (destruct R; discriminate)
  end.

(** Splits on whether the handler takes the exception met in [H]. *)
Ltac exc_case H :=
  match type of H with
  | context [is_exception ?x] =>
      let E := fresh "Ee" in
      destruct (is_exception x) eqn:E; cbv beta iota in H
  end.

(** Closes a goal on the printed lines from the facts on each statement. *)
Ltac out_solve :=
  repeat match goal with
         | O : stdout ?w = _ |- context [stdout ?w] => rewrite O
         | |- context [stdout (printed _ _)] => rewrite stdout_printed
         end;
  match goal with
  | |- _ = ?pre ++ _ ++ _ => rewrite (app_assoc pre)
  end;
  f_equal; rewrite <- ?app_assoc; reflexivity.

Section AutopilotLaws.

Variable env : Env.

Lemma classify_column_sensitivity_spec col_name values model w r w' :
  Autopilot.classify_column_sensitivity env col_name values model w = (r, w') ->
  let prompt := Autopilot.prompt_text col_name (Autopilot.sample_values values) in
  stdout w' = stdout w /\
  ((exists e, r = inl e /\ extends w w' [GetActiveSession false])
   \/ (exists e, r = inl e /\
         extends w w' [GetActiveSession true; CortexComplete model prompt false])
   \/ (exists raw, r = inr (Autopilot.label_of_result raw) /\
         extends w w' [GetActiveSession true; CortexComplete model prompt true])).
Proof.
  unfold Autopilot.classify_column_sensitivity. intros H. simpl.
  bind_step H.
  - apply _get_session_spec in Hm. destruct Hm as (ok & X & O & R).
    destruct ok; [|destruct R; discriminate].
    bind_step H.
    + apply cortex_complete_spec in Hm. destruct Hm as (ok & X2 & O2 & R2).
      destruct ok; [|destruct R2; discriminate].
      unfold ret in H. pair_inv H. split; [congruence|].
      right. right. exists a0. split; [reflexivity|].
      apply (extends_trans _ _ _ _ _ X X2).
    + apply cortex_complete_spec in Hm. destruct Hm as (ok & X2 & O2 & R2).
      destruct ok; [destruct R2; discriminate|].
      split; [congruence|]. right. left. exists e. split; [reflexivity|].
      apply (extends_trans _ _ _ _ _ X X2).
  - apply _get_session_spec in Hm. destruct Hm as (ok & X & O & R).
    destruct ok; [discriminate|]. split; [assumption|].
    left. exists e. auto.
Qed.

Lemma column_step_spec table df col_name has_pii w r w' :
  Autopilot.column_step env table df col_name has_pii w = (r, w') ->
  exists calls, extends w w' calls /\
    ((exists e, r = inl e /\ AutopilotTrace.aborted table col_name calls)
     \/ (exists values label,
           In label Autopilot.allowed /\
           (exists w1, Autopilot.classify_column_sensitivity env col_name values
                         Autopilot.default_model w = (inr label, w1)) /\
           r = inr (if String.eqb label "PII" then true else has_pii) /\
           calls = column_calls Autopilot.default_model table col_name
                     (Autopilot.prompt_text col_name (Autopilot.sample_values values))
                     label (Autopilot.tag_record table col_name label))).
Proof.
  unfold Autopilot.column_step. intros H.
  bind_step H.
  2:{ apply column_values_spec in Hm. subst. exists []. split; [apply extends_refl|].
      left. exists e. split; [reflexivity|constructor]. }
  apply column_values_spec in Hm. subst w0.
  bind_step H.
  2:{ apply classify_column_sensitivity_spec in Hm. simpl in Hm.
      destruct Hm as (_ & [(e' & E & X) | [(e' & E & X) | (raw & E & X)]]);
        try discriminate; eexists; (split; [exact X|]);
        left; exists e; (split; [reflexivity|constructor]). }
  pose proof Hm as Hcl.
  apply classify_column_sensitivity_spec in Hm. simpl in Hm.
  destruct Hm as (_ & [(e' & E & X) | [(e' & E & X) | (raw & E & X)]]);
    try discriminate.
  pair_inv E.
  pose proof (label_of_result_allowed raw) as Hal.
  rewrite (upper_allowed _ Hal) in H.
  set (label := Autopilot.label_of_result raw) in *.
  bind_step H; [|destruct (print_extends
    (Autopilot.classified_line col_name label label) w0) as (w2 & P & _); congruence].
  match type of Hm with print ?l _ = _ =>
    destruct (print_extends l w0) as (w2 & P & X1 & _) end.
  rewrite P in Hm. pair_inv Hm.
  bind_step H.
  2:{ apply session_sql_spec in Hm. destruct Hm as (ok & X2 & _ & R).
      destruct ok; [discriminate|].
      eexists. split; [exact (extends_trans _ _ _ _ _ (extends_trans _ _ _ _ _ X X1) X2)|].
      left. exists e. split; [reflexivity|]. simpl. constructor. }
  apply session_sql_spec in Hm. destruct Hm as (ok & X2 & _ & R).
  destruct ok; [|destruct R; discriminate].
  bind_step H.
  2:{ apply session_sql_spec in Hm. destruct Hm as (ok & X3 & _ & R3).
      destruct ok; [discriminate|].
      eexists. split;
        [exact (extends_trans _ _ _ _ _
                  (extends_trans _ _ _ _ _ (extends_trans _ _ _ _ _ X X1) X2) X3)|].
      left. exists e. split; [reflexivity|]. simpl. constructor. }
  apply session_sql_spec in Hm. destruct Hm as (ok & X3 & _ & R3).
  destruct ok; [|destruct R3; discriminate].
  unfold ret in H. pair_inv H.
  eexists. split;
    [exact (extends_trans _ _ _ _ _
              (extends_trans _ _ _ _ _ (extends_trans _ _ _ _ _ X X1) X2) X3)|].
  right. exists a, label. split; [assumption|].
  split; [exists w0; exact Hcl|]. split; reflexivity.
Qed.

Lemma tag_columns_spec table df cols :
  forall has_pii w r w',
    Autopilot.tag_columns env table df cols has_pii w = (r, w') ->
    exists calls, extends w w' calls /\ AutopilotTrace.loop table cols has_pii r calls.
Proof.
  induction cols as [|col rest IH]; intros has_pii w r w' H; simpl in H.
  - unfold ret in H. pair_inv H. exists []. split; [apply extends_refl|constructor].
  - bind_step H.
    + apply column_step_spec in Hm.
      destruct Hm as (calls & X & [(e & E & _) | (values & label & Hal & _ & E & ->)]);
        [discriminate|].
      pair_inv E. apply IH in H. destruct H as (calls' & X' & L).
      eexists. split; [exact (extends_trans _ _ _ _ _ X X')|].
      now constructor.
    + apply column_step_spec in Hm.
      destruct Hm as (calls & X & [(e' & E & Ab) | (values & label & Hal & _ & E & _)]);
        [|discriminate].
      exists calls. split; [assumption|]. now constructor.
Qed.

End AutopilotLaws.

Section AutopilotRunLaws.

Variable env : Env.

Lemma protect_columns_spec table w r w' :
  Autopilot.protect_columns env table w = (r, w') ->
  exists calls, extends w w' calls /\
    ((exists e, r = inl e /\ calls = [GetActiveSession false])
     \/ (exists e, r = inl e /\
           calls = [GetActiveSession true; TableToPandas table 10 false])
     \/ (exists e, r = inl e /\
           calls = [GetActiveSession true; TableToPandas table 10 true;
                    Sql CreateLogTable false])
     \/ (exists cols calls',
           calls = prelude table ++ calls' /\
           AutopilotTrace.loop table cols false r calls')).
Proof.
  unfold Autopilot.protect_columns. intros H.
  bind_step H.
  2:{ apply _get_session_spec in Hm. destruct Hm as (ok & X & _ & R).
      destruct ok; [discriminate|]. eexists. split; [exact X|]. left. eauto. }
  apply _get_session_spec in Hm. destruct Hm as (ok & X & _ & R).
  destruct ok; [|destruct R; discriminate].
  bind_step H;
    match type of Hm with print ?l ?w1 = _ =>
      destruct (print_extends l w1) as (w2 & P & X1 & _) end;
    [|congruence].
  rewrite P in Hm. pair_inv Hm.
  bind_step H.
  2:{ apply table_limit_to_pandas_spec in Hm. destruct Hm as (ok & X2 & _ & R2).
      destruct ok; [destruct R2; discriminate|].
      eexists. split; [exact (extends_trans _ _ _ _ _ (extends_trans _ _ _ _ _ X X1) X2)|].
      right. left. eauto. }
  apply table_limit_to_pandas_spec in Hm. destruct Hm as (ok & X2 & _ & R2).
  destruct ok; [|destruct R2; discriminate].
  bind_step H.
  2:{ apply session_sql_spec in Hm. destruct Hm as (ok & X3 & _ & R3).
      destruct ok; [discriminate|].
      eexists. split;
        [exact (extends_trans _ _ _ _ _
                  (extends_trans _ _ _ _ _ (extends_trans _ _ _ _ _ X X1) X2) X3)|].
      right. right. left. eauto. }
  apply session_sql_spec in Hm. destruct Hm as (ok & X3 & _ & R3).
  destruct ok; [|destruct R3; discriminate].
  apply tag_columns_spec in H. destruct H as (calls' & X4 & L).
  eexists. split;
    [exact (extends_trans _ _ _ _ _
              (extends_trans _ _ _ _ _
                 (extends_trans _ _ _ _ _ (extends_trans _ _ _ _ _ X X1) X2) X3) X4)|].
  right. right. right. exists (columns env a0), calls'. split; [reflexivity|assumption].
Qed.

Lemma policy_step_spec table has_pii w r w' :
  Autopilot.policy_step env table has_pii w = (r, w') ->
  exists tail, extends w w' tail /\
    (if has_pii then AutopilotTrace.policy table r tail
     else tail = [] /\ r = inr tt) /\
    (r = inr tt -> exists out, stdout w' = stdout w ++ out ++ [Autopilot.completion_line]).
Proof.
  unfold Autopilot.policy_step. intros H.
  cbv beta iota delta [bind try_except print ret raise] in H.
  destruct has_pii; cbv beta iota in H.
  - sql_case H.
    + (* the attach statement raised *)
      exc_case H.
      * sql_case H; pair_inv H.
        -- eexists. split; [ext_solve|]. simpl.
           split; [apply (AutopilotTrace.PolicySkipped table false); eauto
                  |discriminate].
        -- eexists. split; [ext_solve|]. simpl.
           split; [apply (AutopilotTrace.PolicySkipped table true); reflexivity|].
           intros _. eexists. simpl. out_solve.
      * pair_inv H. eexists. split; [ext_solve|]. simpl.
        split; [now apply AutopilotTrace.PolicyAttachLeft|discriminate].
    + sql_case H.
      * (* the insert of POLICY_ATTACHED raised *)
        exc_case H.
        -- sql_case H; pair_inv H.
           ++ eexists. split; [ext_solve|]. simpl.
              split; [apply (AutopilotTrace.PolicyLogRaised table false); eauto
                     |discriminate].
           ++ eexists. split; [ext_solve|]. simpl.
              split; [apply (AutopilotTrace.PolicyLogRaised table true); reflexivity|].
              intros _. eexists. simpl. out_solve.
        -- pair_inv H. eexists. split; [ext_solve|]. simpl.
           split; [now apply AutopilotTrace.PolicyLogLeft|discriminate].
      * pair_inv H. eexists. split; [ext_solve|]. simpl.
        split; [constructor|].
        intros _. eexists. simpl. out_solve.
  - pair_inv H. eexists. split; [ext_solve|]. simpl. split; [auto|].
    intros _. eexists. simpl. out_solve.
Qed.

End AutopilotRunLaws.

Section AutopilotWholeRun.

Variable env : Env.

Lemma classify_and_protect_table_spec table w r w' :
  Autopilot.classify_and_protect_table env table w = (r, w') ->
  exists calls, extends w w' calls /\ AutopilotTrace.run table r calls
    /\ (r = inr tt -> exists out, stdout w' = out ++ [Autopilot.completion_line]).
Proof.
  unfold Autopilot.classify_and_protect_table. intros H.
  bind_step H.
  - apply protect_columns_spec in Hm.
    destruct Hm as (calls & X & [(e & E & _) | [(e & E & _) | [(e & E & _) |
                    (cols & calls' & -> & L)]]]); try discriminate.
    apply policy_step_spec in H. destruct H as (tail & X' & P & O).
    exists ((prelude table ++ calls') ++ tail).
    split; [exact (extends_trans _ _ _ _ _ X X')|]. split.
    + rewrite <- app_assoc. destruct a.
      * now apply AutopilotTrace.RunPii with (cols := cols).
      * destruct P as [-> ->]. rewrite app_nil_r.
        now apply AutopilotTrace.RunNoPii with (cols := cols).
    + intros E. destruct (O E) as (out & Hout). exists (stdout w0 ++ out).
      rewrite Hout. now rewrite app_assoc.
  - apply protect_columns_spec in Hm.
    destruct Hm as (calls & X & [(e' & E & ->) | [(e' & E & ->) | [(e' & E & ->) |
                    (cols & calls' & -> & L)]]]);
      eexists; (split; [exact X|]); (split; [|discriminate]).
    + constructor.
    + constructor.
    + constructor.
    + now apply AutopilotTrace.RunLoopRaised with (cols := cols).
Qed.

End AutopilotWholeRun.

(** ** Reading traces *)

Lemma raised_fatal_ok c : call_ok c = true -> raised_fatal c = false.
Proof. unfold raised_fatal. intros ->. apply andb_false_r. Qed.

Lemma stops_at_failure_ok_prefix pre l :
  forallb call_ok pre = true -> stops_at_failure (pre ++ l) = stops_at_failure l.
Proof.
  induction pre as [|c pre IH]; simpl; [reflexivity|].
  intros H. apply andb_true_iff in H. destruct H as [Hc Hpre].
  rewrite (raised_fatal_ok _ Hc). auto.
Qed.

Lemma stops_at_failure_split pre c post :
  stops_at_failure (pre ++ c :: post) = true -> raised_fatal c = true -> post = [].
Proof.
  induction pre as [|d pre IH]; simpl.
  - intros H Hc. rewrite Hc in H. destruct post; [reflexivity|discriminate].
  - destruct (raised_fatal d).
    + destruct pre; simpl; discriminate.
    + auto.
Qed.


Lemma no_raised_fatal_of_ok calls :
  forallb call_ok calls = true -> existsb raised_fatal calls = false.
Proof.
  induction calls as [|c l IH]; simpl; [reflexivity|].
  intros H. apply andb_true_iff in H. destruct H as [Hc Hl].
  now rewrite (raised_fatal_ok _ Hc), IH.
Qed.

Lemma logs_a_tag_weaken table pre calls rec :
  logs_a_tag table calls rec -> logs_a_tag table (pre ++ calls) rec.
Proof.
  intros (col & label & Hin & Hal & E). exists col, label.
  split; [apply in_or_app; now right|auto].
Qed.

Section TraceFacts.

Variable table : string.

Lemma aborted_facts col calls :
  AutopilotTrace.aborted table col calls ->
  no_policy_call calls = true /\ stops_at_failure calls = true /\
  inserted calls = [].
Proof. intros H. destruct H; repeat split; reflexivity. Qed.

Lemma loop_no_policy cols has_pii r calls :
  AutopilotTrace.loop table cols has_pii r calls -> no_policy_call calls = true.
Proof.
  induction 1 as [hp | col rest hp values label r calls Hal L IH | col rest hp e calls Ab].
  - reflexivity.
  - unfold no_policy_call in *. rewrite forallb_app, IH. reflexivity.
  - now apply aborted_facts in Ab.
Qed.

Lemma loop_stops cols has_pii r calls :
  AutopilotTrace.loop table cols has_pii r calls -> stops_at_failure calls = true.
Proof.
  induction 1 as [hp | col rest hp values label r calls Hal L IH | col rest hp e calls Ab].
  - reflexivity.
  - rewrite stops_at_failure_ok_prefix; [assumption|reflexivity].
  - now apply aborted_facts in Ab.
Qed.

Lemma loop_inserted cols has_pii r calls :
  AutopilotTrace.loop table cols has_pii r calls ->
  Forall (logs_a_tag table calls) (inserted calls).
Proof.
  induction 1 as [hp | col rest hp values label r calls Hal L IH | col rest hp e calls Ab].
  - constructor.
  - rewrite inserted_app. apply Forall_app. split.
    + simpl. constructor; [|constructor].
      exists col, label. simpl. auto.
    + eapply Forall_impl; [|exact IH].
      intros rec. apply logs_a_tag_weaken.
  - apply aborted_facts in Ab. destruct Ab as (_ & _ & ->). constructor.
Qed.

(** A loop that ends gives the flag it was entered with, or true once a
    column was tagged PII; all its calls went through, one insert per
    column. *)
Lemma loop_done cols has_pii b calls :
  AutopilotTrace.loop table cols has_pii (inr b) calls ->
  b = has_pii || existsb is_pii_tag calls /\
  forallb call_ok calls = true /\
  List.length (inserted calls) = List.length cols.
Proof.
  remember (inr b : Exc + bool) as r eqn:Er. intros L. revert b Er.
  induction L as [hp | col rest hp values label r calls Hal L IH | col rest hp e calls Ab];
    intros b Er.
  - inversion Er; subst. simpl. now rewrite orb_false_r.
  - destruct (IH b Er) as (Hb & Hok & Hlen).
    rewrite existsb_app, forallb_app, inserted_app, List.length_app, Hok, Hlen.
    split; [|split; reflexivity].
    rewrite Hb. simpl.
    destruct (String.eqb label "PII"); simpl; rewrite ?orb_true_r; reflexivity.
  - discriminate.
Qed.

Lemma policy_facts r tail :
  AutopilotTrace.policy table r tail ->
  existsb is_policy_call tail = true /\
  existsb raised_fatal tail = false /\
  existsb is_pii_tag tail = false /\
  (r = inr tt ->
   inserted tail = [Autopilot.policy_attached_record table]
   \/ inserted tail = [Autopilot.policy_skipped_record table]) /\
  Forall (fun rec => rec = Autopilot.policy_attached_record table
                     \/ rec = Autopilot.policy_skipped_record table)
         (inserted tail).
Proof.
  intros H. destruct H as [| ok r Hr | ok r Hr | e He | e He];
    (split; [reflexivity|]); (split; [reflexivity|]); (split; [reflexivity|]).
  - split; [intros _; now left|].
    simpl. constructor; [now left|constructor].
  - destruct ok; simpl.
    + split; [intros _; now right|]. constructor; [now right|constructor].
    + split; [|constructor]. intros ->. destruct Hr; discriminate.
  - destruct ok; simpl.
    + split; [intros _; now right|]. constructor; [now right|constructor].
    + split; [|constructor]. intros ->. destruct Hr; discriminate.
  - split; [discriminate|constructor].
  - split; [discriminate|constructor].
Qed.

End TraceFacts.

(** ** The classifier *)

Lemma notebook_label_of_result raw :
  Notebook.label_of_result raw = Autopilot.label_of_result raw.
Proof. reflexivity. Qed.

Lemma notebook_prompt_text col values :
  Notebook.prompt_text col values
  = Autopilot.prompt_text col (Autopilot.sample_values values).
Proof. reflexivity. Qed.

Lemma label_of_result_unknown raw :
  ~ In (PyStr.upper (PyStr.strip raw)) Autopilot.allowed ->
  Autopilot.label_of_result raw = "INTERNAL".
Proof.
  intros H. unfold Autopilot.label_of_result.
  destruct (PyStr.mem _ _) eqn:E; [|reflexivity].
  apply mem_In in E. contradiction.
Qed.

Lemma label_of_result_known raw :
  In (PyStr.upper (PyStr.strip raw)) Autopilot.allowed ->
  Autopilot.label_of_result raw = PyStr.upper (PyStr.strip raw).
Proof.
  intros H. unfold Autopilot.label_of_result.
  apply mem_In in H. now rewrite H.
Qed.

Lemma classify_column_sensitivity_answer env col values model w w1 raw w2 :
  Autopilot._get_session env w = (inr tt, w1) ->
  cortex_complete env model
    (Autopilot.prompt_text col (Autopilot.sample_values values)) w1 = (inr raw, w2) ->
  Autopilot.classify_column_sensitivity env col values model w
  = (inr (Autopilot.label_of_result raw), w2).
Proof.
  intros Hs Hc. unfold Autopilot.classify_column_sensitivity, bind.
  rewrite Hs, Hc. reflexivity.
Qed.

Lemma notebook_classify_answer env col values w raw w2 :
  cortex_complete env "llama3.1-8b" (Notebook.prompt_text col values) w = (inr raw, w2) ->
  Notebook.classify_column_sensitivity env col values w
  = (inr (Autopilot.label_of_result raw), w2).
Proof.
  intros Hc. unfold Notebook.classify_column_sensitivity, bind.
  rewrite Hc. reflexivity.
Qed.

(** The responses the specification lists, and a padded lower-case one. *)
Example label_of_result_examples :
  Autopilot.label_of_result "UNKNOWN" = "INTERNAL" /\
  Autopilot.label_of_result "" = "INTERNAL" /\
  Autopilot.label_of_result "Maybe PII" = "INTERNAL" /\
  Autopilot.label_of_result ("  confidential" +++ PyStr.newline) = "CONFIDENTIAL" /\
  Autopilot.label_of_result "Public" = "PUBLIC".
Proof. repeat split. Qed.

(** Responses outside ASCII: white space and letters of other blocks are
    trimmed and upper-cased as [str.strip] and [str.upper] do, the ligature
    fi (U+FB01) giving [FI]; a zero width space is not trimmed, and the
    sharp s gives [SS]. *)
Example label_of_result_unicode_examples :
  Autopilot.label_of_result (PyStr.encode [0xA0; 0x50; 0x49; 0x49]%N) = "PII" /\
  Autopilot.label_of_result (PyStr.encode [0x70; 0x131; 0x131]%N) = "PII" /\
  Autopilot.label_of_result Demo.padded_answer = "PII" /\
  Autopilot.label_of_result
    (" con" +++ PyStr.encode [0xFB01]%N +++ "dential" +++ PyStr.encode [0x2003; 0x0A]%N)
  = "CONFIDENTIAL" /\
  Autopilot.label_of_result (PyStr.encode [0x85]%N +++ "public" +++ PyStr.encode [0x3000]%N)
  = "PUBLIC" /\
  Autopilot.label_of_result Demo.marked_answer = "INTERNAL" /\
  PyStr.upper ("stra" +++ PyStr.encode [0xDF]%N +++ "e") = "STRASSE".
Proof. vm_compute. repeat split. Qed.

Example prompt_text_example :
  Autopilot.prompt_text "EMAIL" (Autopilot.sample_values ["a"; "b"; "c"; "d"; "e"; "f"])
  = "Classify this column's sensitivity." +++ PyStr.newline +++
    "Column: EMAIL" +++ PyStr.newline +++
    "Values: ['a', 'b', 'c', 'd', 'e']" +++ PyStr.newline +++
    "Labels: PII, CONFIDENTIAL, INTERNAL, PUBLIC" +++ PyStr.newline +++
    "Return only the label.".
Proof. reflexivity. Qed.

(** C1.  A response whose trimmed, upper-cased form is none of PII,
    CONFIDENTIAL, INTERNAL, PUBLIC is classified INTERNAL, never PUBLIC or
    PII, whatever the column and its values, in the module and in the
    notebook copy. *)
Theorem unknown_response_is_internal (raw : string) :
  ~ In (PyStr.upper (PyStr.strip raw)) Autopilot.allowed ->
  Autopilot.label_of_result raw = "INTERNAL" /\
  Autopilot.label_of_result raw <> "PUBLIC" /\
  Autopilot.label_of_result raw <> "PII" /\
  (forall env col values model w w1 w2,
      Autopilot._get_session env w = (inr tt, w1) ->
      cortex_complete env model
        (Autopilot.prompt_text col (Autopilot.sample_values values)) w1
      = (inr raw, w2) ->
      Autopilot.classify_column_sensitivity env col values model w
      = (inr "INTERNAL", w2)) /\
  (forall env col values w w2,
      cortex_complete env "llama3.1-8b" (Notebook.prompt_text col values) w
      = (inr raw, w2) ->
      Notebook.classify_column_sensitivity env col values w = (inr "INTERNAL", w2)).
Proof.
  intros H. pose proof (label_of_result_unknown raw H) as E.
  rewrite E. repeat split; try discriminate.
  - intros env col values model w w1 w2 Hs Hc.
    rewrite (classify_column_sensitivity_answer _ _ _ _ _ _ _ _ Hs Hc).
    now rewrite E.
  - intros env col values w w2 Hc.
    rewrite (notebook_classify_answer _ _ _ _ _ _ Hc). now rewrite E.
Qed.

Lemma unknown_response_is_internal_witness :
  let env := Demo.platform Demo.plain_frame [("NOTE", Demo.marked_answer)]
               Demo.no_fault in
  PyStr.upper (PyStr.strip Demo.marked_answer) = Demo.marked_answer /\
  fst (Autopilot.classify_column_sensitivity env "NOTE" ["ok"; "late"]
         Autopilot.default_model Demo.fresh_world) = inr "INTERNAL" /\
  fst (Notebook.classify_column_sensitivity env "NOTE" ["ok"; "late"]
         Demo.fresh_world) = inr "INTERNAL".
Proof.
  intros env.
  assert (H : ~ In (PyStr.upper (PyStr.strip Demo.marked_answer)) Autopilot.allowed)
    by (vm_compute; intros [H | [H | [H | [H | []]]]]; discriminate).
  destruct (unknown_response_is_internal Demo.marked_answer H)
    as (_ & _ & _ & Hm & Hn).
  split; [vm_compute; reflexivity|]. split.
  - rewrite (Hm env "NOTE" ["ok"; "late"] Autopilot.default_model Demo.fresh_world
               _ _ eq_refl eq_refl).
    reflexivity.
  - rewrite (Hn env "NOTE" ["ok"; "late"] Demo.fresh_world _ eq_refl).
    reflexivity.
Defined.

(** C2.  A response whose trimmed, upper-cased form is one of the four
    labels is classified as exactly that form: upper case, no whitespace
    around it.  The response itself may have any casing and padding. *)
Theorem known_response_is_normalized (raw : string) :
  In (PyStr.upper (PyStr.strip raw)) Autopilot.allowed ->
  let label := PyStr.upper (PyStr.strip raw) in
  Autopilot.label_of_result raw = label /\
  PyStr.upper label = label /\
  PyStr.strip label = label /\
  (forall env col values model w w1 w2,
      Autopilot._get_session env w = (inr tt, w1) ->
      cortex_complete env model
        (Autopilot.prompt_text col (Autopilot.sample_values values)) w1
      = (inr raw, w2) ->
      Autopilot.classify_column_sensitivity env col values model w
      = (inr label, w2)) /\
  (forall env col values w w2,
      cortex_complete env "llama3.1-8b" (Notebook.prompt_text col values) w
      = (inr raw, w2) ->
      Notebook.classify_column_sensitivity env col values w = (inr label, w2)).
Proof.
  intros H label. pose proof (label_of_result_known raw H) as E.
  fold label in E, H.
  split; [exact E|]. split; [now apply upper_allowed|].
  split; [now apply strip_allowed|]. split.
  - intros env col values model w w1 w2 Hs Hc.
    rewrite (classify_column_sensitivity_answer _ _ _ _ _ _ _ _ Hs Hc).
    now rewrite E.
  - intros env col values w w2 Hc.
    rewrite (notebook_classify_answer _ _ _ _ _ _ Hc). now rewrite E.
Qed.

Lemma known_response_is_normalized_witness :
  let env := Demo.platform Demo.abc_frame [("B", Demo.padded_answer)] Demo.no_fault in
  PyStr.upper (PyStr.strip Demo.padded_answer) = "PII" /\
  PyStr.strip Demo.padded_answer <> "PII" /\
  fst (Autopilot.classify_column_sensitivity env "B" ["ann@example.com"]
         Autopilot.default_model Demo.fresh_world) = inr "PII" /\
  fst (Notebook.classify_column_sensitivity env "B" ["ann@example.com"]
         Demo.fresh_world) = inr "PII".
Proof.
  intros env.
  assert (H : In (PyStr.upper (PyStr.strip Demo.padded_answer)) Autopilot.allowed)
    by (vm_compute; auto).
  destruct (known_response_is_normalized Demo.padded_answer H)
    as (_ & _ & _ & Hm & Hn).
  split; [vm_compute; reflexivity|]. split; [vm_compute; discriminate|]. split.
  - rewrite (Hm env "B" ["ann@example.com"] Autopilot.default_model Demo.fresh_world
               _ _ eq_refl eq_refl).
    vm_compute. reflexivity.
  - rewrite (Hn env "B" ["ann@example.com"] Demo.fresh_world _ eq_refl).
    vm_compute. reflexivity.
Defined.







(** ** Runs over a known table *)

Lemma table_limit_to_pandas_columns env name n w df' w' :
  table_limit_to_pandas env name n w = (inr df', w') ->
  exists df, table_rows env name w = inr df /\ columns env df' = map fst df
             /\ extends w w' [TableToPandas name n true].
Proof.
  unfold table_limit_to_pandas.
  destruct (table_rows env name w) as [e|df] eqn:E; intros H; pair_inv H.
  exists df. split; [reflexivity|]. split.
  - unfold columns. rewrite map_map. reflexivity.
  - split; simpl; [reflexivity|]. now rewrite app_nil_r.
Qed.

Lemma _get_session_ok_world env w a w1 :
  Autopilot._get_session env w = (inr a, w1) ->
  w1 = record_call (GetActiveSession true) w.
Proof.
  unfold Autopilot._get_session, try_except, get_active_session, raise.
  destruct (active_session env w) as [e|]; [destruct (is_exception e)|];
    intros H; inversion H; reflexivity.
Qed.

Lemma classified_app l1 l2 : classified (l1 ++ l2) = classified l1 ++ classified l2.
Proof. unfold classified. apply flat_map_app. Qed.

(** A loop that ends has classified its columns in order, one tag statement
    and one audit row each, and gives the flag accordingly. *)
Lemma loop_classified table cols has_pii b calls :
  AutopilotTrace.loop table cols has_pii (inr b) calls ->
  map fst (classified calls) = cols /\
  inserted calls
  = map (fun cl => Autopilot.tag_record table (fst cl) (snd cl)) (classified calls) /\
  b = has_pii || existsb (fun cl => String.eqb (snd cl) "PII") (classified calls).
Proof.
  remember (inr b : Exc + bool) as r eqn:Er. intros L. revert b Er.
  induction L as [hp | col rest hp values label r calls Hal L IH | col rest hp e calls Ab];
    intros b Er.
  - inversion Er; subst. simpl. now rewrite orb_false_r.
  - destruct (IH b Er) as (Hc & Hi & Hb).
    rewrite classified_app, inserted_app, Hi, Hb.
    unfold column_calls. simpl. rewrite Hc.
    split; [reflexivity|]. split; [reflexivity|].
    destruct (String.eqb label "PII"); simpl; rewrite ?orb_true_r; reflexivity.
  - discriminate.
Qed.

Lemma policy_classified table r tail :
  AutopilotTrace.policy table r tail -> classified tail = [].
Proof. intros H. destruct H; reflexivity. Qed.

(** C4.  A run that completes and whose classifications, read off its tag
    statements, are A: PUBLIC, B: PII, C: INTERNAL has sampled a table with
    the columns A, B, C; it inserts exactly the three TAG_APPLIED rows, in
    column order, leaves the loop with the PII flag set, and then inserts
    exactly one policy row, POLICY_ATTACHED or POLICY_SKIPPED. *)
Theorem abc_run_audit_rows env table w w' calls :
  Autopilot.classify_and_protect_table env table w = (inr tt, w') ->
  history w' = history w ++ calls ->
  classified calls = [("A", "PUBLIC"); ("B", "PII"); ("C", "INTERNAL")] ->
  exists df w1 policy_row,
    table_rows env table
      (printed (Autopilot.running_line table) (record_call (GetActiveSession true) w))
    = inr df /\
    map fst df = ["A"; "B"; "C"] /\
    Autopilot.protect_columns env table w = (inr true, w1) /\
    rows w' = rows w ++ [Autopilot.tag_record table "A" "PUBLIC";
                         Autopilot.tag_record table "B" "PII";
                         Autopilot.tag_record table "C" "INTERNAL";
                         policy_row] /\
    (policy_row = Autopilot.policy_attached_record table
     \/ policy_row = Autopilot.policy_skipped_record table) /\
    List.length (filter is_tag_applied (skipn (List.length (rows w)) (rows w'))) = 3 /\
    List.length (filter is_policy_record (skipn (List.length (rows w)) (rows w'))) = 1.
Proof.
  intros Hrun Hh Hcl.
  unfold Autopilot.classify_and_protect_table in Hrun.
  bind_step Hrun. rename a into has_pii, w0 into w1, Hm into Hp.
  pose proof Hp as H. unfold Autopilot.protect_columns in H.
  bind_step H. pose proof (_get_session_ok_world _ _ _ _ Hm) as ->.
  apply _get_session_spec in Hm. destruct Hm as (ok & X0 & _ & R0).
  destruct ok; [|destruct R0; discriminate].
  bind_step H. unfold print in Hm. pair_inv Hm.
  pose proof (printed_extends (Autopilot.running_line table)
                (record_call (GetActiveSession true) w)) as X1.
  bind_step H. apply table_limit_to_pandas_columns in Hm.
  destruct Hm as (df & Hrows & Hcols & X2).
  bind_step H. apply session_sql_spec in Hm. destruct Hm as (ok & X3 & _ & R3).
  destruct ok; [|destruct R3; discriminate].
  apply tag_columns_spec in H. destruct H as (calls' & X4 & L).
  apply policy_step_spec in Hrun. destruct Hrun as (tail & X5 & Hpol & _).
  pose proof (extends_trans _ _ _ _ _
                (extends_trans _ _ _ _ _
                   (extends_trans _ _ _ _ _
                      (extends_trans _ _ _ _ _ (extends_trans _ _ _ _ _ X0 X1) X2) X3)
                   X4) X5) as [Hhist Hrows'].
  rewrite Hhist in Hh. apply app_inv_head in Hh. subst calls.
  assert (Htail : classified tail = []).
  { destruct has_pii; [exact (policy_classified _ _ _ Hpol)|].
    destruct Hpol as [-> _]. reflexivity. }
  rewrite !classified_app, Htail, app_nil_r in Hcl. simpl in Hcl.
  destruct (loop_classified _ _ _ _ _ L) as (Hc & Hi & Hb).
  rewrite Hcl in Hc, Hi, Hb. simpl in Hc, Hi, Hb. subst has_pii.
  apply policy_facts in Hpol. destruct Hpol as (_ & _ & _ & Hins & _).
  assert (Hrow : exists policy_row,
             inserted tail = [policy_row] /\
             (policy_row = Autopilot.policy_attached_record table
              \/ policy_row = Autopilot.policy_skipped_record table)).
  { destruct (Hins eq_refl) as [E | E]; rewrite E; eauto. }
  destruct Hrow as (policy_row & Etail & Hkind).
  exists df, w1, policy_row.
  split; [exact Hrows|]. split; [now rewrite <- Hcols, <- Hc|]. split; [exact Hp|].
  assert (Hall : rows w' = rows w ++ [Autopilot.tag_record table "A" "PUBLIC";
                                      Autopilot.tag_record table "B" "PII";
                                      Autopilot.tag_record table "C" "INTERNAL";
                                      policy_row]).
  { rewrite Hrows', !inserted_app, Hi, Etail. reflexivity. }
  split; [exact Hall|]. split; [exact Hkind|].
  rewrite Hall, skipn_app, skipn_all, Nat.sub_diag. simpl.
  destruct Hkind as [-> | ->]; split; reflexivity.
Qed.

Lemma abc_run_audit_rows_witness :
  let env := Demo.platform Demo.abc_frame Demo.abc_script Demo.no_fault in
  let w' := snd (Autopilot.classify_and_protect_table env "PUBLIC.T" Demo.fresh_world) in
  exists policy_row,
    rows w' = [Autopilot.tag_record "PUBLIC.T" "A" "PUBLIC";
               Autopilot.tag_record "PUBLIC.T" "B" "PII";
               Autopilot.tag_record "PUBLIC.T" "C" "INTERNAL";
               policy_row] /\
    (policy_row = Autopilot.policy_attached_record "PUBLIC.T"
     \/ policy_row = Autopilot.policy_skipped_record "PUBLIC.T").
Proof.
  intros env w'.
  assert (Hrun : Autopilot.classify_and_protect_table env "PUBLIC.T" Demo.fresh_world
                 = (inr tt, w'))
    by (vm_compute; reflexivity).
  assert (Hcl : classified (history w')
                = [("A", "PUBLIC"); ("B", "PII"); ("C", "INTERNAL")])
    by (vm_compute; reflexivity).
  destruct (abc_run_audit_rows env "PUBLIC.T" Demo.fresh_world w' (history w')
              Hrun eq_refl Hcl)
    as (df & w1 & policy_row & _ & _ & _ & Hrows & Hkind & _).
  exists policy_row. split; [exact Hrows|exact Hkind].
Defined.

(** ** The policy branch under a failing attach *)

(** The notebook copy has no handler: the raise leaves the function, after
    the tag rows and before anything else is written or printed. *)
Lemma notebook_attach_error_propagates env table w w1 e w2 :
  Notebook.protect_columns env table w = (inr true, w1) ->
  session_sql env (SetRowAccessPolicy table "PII_ROW_POLICY") w1 = (inl e, w2) ->
  Notebook.classify_and_protect_table env table w = (inl e, w2) /\
  rows w2 = rows w1 /\ stdout w2 = stdout w1.
Proof.
  intros Hp Ha. split; [|split].
  - unfold Notebook.classify_and_protect_table, bind. rewrite Hp.
    unfold Notebook.policy_step, bind. rewrite Ha. reflexivity.
  - apply session_sql_spec in Ha. destruct Ha as (ok1 & [_ R1] & _ & Hr).
    destruct ok1; [discriminate|]. rewrite R1. simpl. now rewrite app_nil_r.
  - apply session_sql_spec in Ha. now destruct Ha as (ok1 & _ & O1 & _).
Qed.



(** ** Whole-run traces *)

Lemma logs_a_tag_weaken_r table calls post rec :
  logs_a_tag table calls rec -> logs_a_tag table (calls ++ post) rec.
Proof.
  intros (col & label & Hin & Hal & E). exists col, label.
  split; [apply in_or_app; now left|auto].
Qed.

(** Every row a run inserts is the row of one of its tagging statements or
    one of the two policy rows. *)
Lemma run_inserted table r calls :
  AutopilotTrace.run table r calls -> Forall (is_run_row table calls) (inserted calls).
Proof.
  intros H. destruct H as [e | e | e | cols e lcalls L | cols lcalls L
                           | cols lcalls r tail L P]; try (simpl; constructor).
  - rewrite inserted_app. simpl. eapply Forall_impl; [|exact (loop_inserted _ _ _ _ _ L)].
    intros rec Hr. left. now apply (logs_a_tag_weaken table (prelude table)).
  - rewrite inserted_app. simpl. eapply Forall_impl; [|exact (loop_inserted _ _ _ _ _ L)].
    intros rec Hr. left. now apply (logs_a_tag_weaken table (prelude table)).
  - rewrite !inserted_app. simpl. apply Forall_app. split.
    + eapply Forall_impl; [|exact (loop_inserted _ _ _ _ _ L)].
      intros rec Hr. left.
      apply (logs_a_tag_weaken table (prelude table)).
      now apply logs_a_tag_weaken_r.
    + apply policy_facts in P. destruct P as (_ & _ & _ & _ & F).
      eapply Forall_impl; [|exact F]. intros rec Hr. right. exact Hr.
Qed.

(** A run that tags no column PII never reaches the attach statement. *)
Lemma run_without_pii table r calls :
  AutopilotTrace.run table r calls ->
  existsb is_pii_tag calls = false ->
  no_policy_call calls = true /\ Forall (logs_a_tag table calls) (inserted calls).
Proof.
  intros H Hno. destruct H as [e | e | e | cols e lcalls L | cols lcalls L
                               | cols lcalls r tail L P].
  - split; [reflexivity|constructor].
  - split; [reflexivity|constructor].
  - split; [reflexivity|constructor].
  - split.
    + unfold no_policy_call. rewrite forallb_app. simpl.
      exact (loop_no_policy _ _ _ _ _ L).
    + rewrite inserted_app. simpl. eapply Forall_impl; [|exact (loop_inserted _ _ _ _ _ L)].
      intros rec. apply (logs_a_tag_weaken table (prelude table)).
  - split.
    + unfold no_policy_call. rewrite forallb_app. simpl.
      exact (loop_no_policy _ _ _ _ _ L).
    + rewrite inserted_app. simpl. eapply Forall_impl; [|exact (loop_inserted _ _ _ _ _ L)].
      intros rec. apply (logs_a_tag_weaken table (prelude table)).
  - apply loop_done in L. destruct L as (Hb & _).
    rewrite !existsb_app in Hno. simpl in Hno.
    apply orb_false_iff in Hno. destruct Hno as [Hl _].
    simpl in Hb. rewrite Hl in Hb. discriminate.
Qed.

Lemma tag_record_fields table col label :
  action (Autopilot.tag_record table col label) = "TAG_APPLIED" /\
  is_policy_record (Autopilot.tag_record table col label) = false /\
  object_type (Autopilot.tag_record table col label) = "TABLE" /\
  object_name (Autopilot.tag_record table col label) = table /\
  column_name (Autopilot.tag_record table col label) = Some col /\
  details (Autopilot.tag_record table col label) = "DATA_SENSITIVITY=" +++ label.
Proof. repeat split. Qed.

(** C6.  In a run where no tagging statement carries the label PII, no
    row-access-policy statement is issued and no policy row is written:
    every row the run inserts is the TAG_APPLIED row of one of its columns. *)
Theorem no_pii_no_policy env table w r w' calls :
  Autopilot.classify_and_protect_table env table w = (r, w') ->
  history w' = history w ++ calls ->
  (forall t col label ok, In (Sql (SetTag t col label) ok) calls -> label <> "PII") ->
  (forall t p ok, ~ In (Sql (SetRowAccessPolicy t p) ok) calls) /\
  rows w' = rows w ++ inserted calls /\
  Forall (fun rec =>
            action rec = "TAG_APPLIED" /\
            is_policy_record rec = false /\
            exists col label,
              In (Sql (SetTag table col label) true) calls /\
              rec = Autopilot.tag_record table col label)
         (inserted calls).
Proof.
  intros Hrun Hh Hno.
  apply classify_and_protect_table_spec in Hrun.
  destruct Hrun as (calls' & [Hh' Hrows] & Htrace & _).
  assert (calls' = calls) by (rewrite Hh' in Hh; now apply app_inv_head in Hh).
  subst calls'.
  assert (Hpii : existsb is_pii_tag calls = false).
  { destruct (existsb is_pii_tag calls) eqn:E; [|reflexivity].
    apply existsb_exists in E. destruct E as (c & Hin & Hc).
    destruct c as [| | | [| t c l | |] ok]; try discriminate.
    simpl in Hc. apply String.eqb_eq in Hc. subst l.
    exfalso. exact (Hno t c "PII" ok Hin eq_refl). }
  destruct (run_without_pii _ _ _ Htrace Hpii) as (Hnp & Hins).
  split; [|split; [exact Hrows|]].
  - intros t p ok Hin. unfold no_policy_call in Hnp.
    rewrite forallb_forall in Hnp. specialize (Hnp _ Hin). discriminate.
  - eapply Forall_impl; [|exact Hins].
    intros rec (col & label & Hin & _ & ->).
    split; [reflexivity|]. split; [reflexivity|]. eauto.
Qed.

Lemma no_pii_no_policy_witness :
  let env := Demo.platform Demo.plain_frame Demo.plain_script Demo.no_fault in
  let run := Autopilot.classify_and_protect_table env "PUBLIC.ITEMS" Demo.fresh_world in
  let calls := history (snd run) in
  fst run = inr tt /\
  (forall t p ok, ~ In (Sql (SetRowAccessPolicy t p) ok) calls) /\
  rows (snd run) = [Autopilot.tag_record "PUBLIC.ITEMS" "SKU" "PUBLIC";
                    Autopilot.tag_record "PUBLIC.ITEMS" "NOTE" "INTERNAL"] /\
  Forall (fun rec => action rec = "TAG_APPLIED") (inserted calls).
Proof.
  intros env run calls.
  assert (Hrun : Autopilot.classify_and_protect_table env "PUBLIC.ITEMS" Demo.fresh_world
                 = (fst run, snd run)) by (vm_compute; reflexivity).
  assert (Hh : history (snd run) = history Demo.fresh_world ++ calls)
    by (vm_compute; reflexivity).
  assert (Hno : forall t col label ok,
             In (Sql (SetTag t col label) ok) calls -> label <> "PII").
  { intros t col label ok Hin. vm_compute in Hin.
    repeat (destruct Hin as [Hin | Hin];
            [try discriminate Hin; inversion Hin; discriminate|]).
    destruct Hin. }
  destruct (no_pii_no_policy env "PUBLIC.ITEMS" Demo.fresh_world (fst run) (snd run)
              calls Hrun Hh Hno) as (Hnp & Hrows & Hall).
  split; [vm_compute; reflexivity|]. split; [exact Hnp|].
  split; [rewrite Hrows; vm_compute; reflexivity|].
  eapply Forall_impl; [|exact Hall]. intros rec (Ha & _). exact Ha.
Defined.

Lemma stops_at_failure_clean calls :
  existsb raised_fatal calls = false -> stops_at_failure calls = true.
Proof.
  induction calls as [|c l IH]; simpl; [reflexivity|].
  intros H. apply orb_false_iff in H. destruct H as [-> Hl]. auto.
Qed.

Lemma inserted_not_ok c : call_ok c = false -> inserted [c] = [].
Proof.
  destruct c as [| | | s ok]; try reflexivity.
  simpl. intros ->. apply inserted_failed.
Qed.

(** A run makes no call after one that raised while sampling, classifying
    or tagging; such a run raises, and it has issued no policy statement and
    written no policy row. *)
Lemma run_stops table r calls :
  AutopilotTrace.run table r calls ->
  stops_at_failure calls = true /\
  (existsb raised_fatal calls = true ->
   (exists e, r = inl e) /\ no_policy_call calls = true /\
   Forall (logs_a_tag table calls) (inserted calls)).
Proof.
  intros H. destruct H as [e | e | e | cols e lcalls L | cols lcalls L
                           | cols lcalls r tail L P].
  - split; [reflexivity|]. intros _. repeat split; eauto.
  - split; [reflexivity|]. intros _. repeat split; eauto.
  - split; [reflexivity|]. intros _. repeat split; eauto.
  - split.
    + rewrite stops_at_failure_ok_prefix; [|reflexivity]. exact (loop_stops _ _ _ _ _ L).
    + intros _. split; [eauto|]. split.
      * unfold no_policy_call. rewrite forallb_app. simpl.
        exact (loop_no_policy _ _ _ _ _ L).
      * rewrite inserted_app. simpl.
        eapply Forall_impl; [|exact (loop_inserted _ _ _ _ _ L)].
        intros rec. apply (logs_a_tag_weaken table (prelude table)).
  - pose proof (loop_done _ _ _ _ _ L) as (_ & Hok & _).
    pose proof (no_raised_fatal_of_ok _ Hok) as Hclean.
    split.
    + rewrite stops_at_failure_ok_prefix; [|reflexivity].
      now apply stops_at_failure_clean.
    + rewrite existsb_app. simpl. rewrite Hclean. discriminate.
  - pose proof (loop_done _ _ _ _ _ L) as (_ & Hok & _).
    pose proof (no_raised_fatal_of_ok _ Hok) as Hclean.
    pose proof (policy_facts _ _ _ P) as (_ & Htail & _).
    split.
    + rewrite stops_at_failure_ok_prefix; [|reflexivity].
      rewrite stops_at_failure_ok_prefix; [|exact Hok].
      now apply stops_at_failure_clean.
    + rewrite !existsb_app. simpl. rewrite Hclean, Htail. discriminate.
Qed.

(** C7.  When a call of the sampling, classification or tagging step raises,
    the run ends there: no call follows it, the run raises, and it has
    issued no row-access-policy statement and written no policy row. *)
Theorem fatal_error_ends_run env table w r w' pre c post :
  Autopilot.classify_and_protect_table env table w = (r, w') ->
  history w' = history w ++ pre ++ c :: post ->
  in_fatal_step c = true ->
  call_ok c = false ->
  post = [] /\
  (exists e, r = inl e) /\
  (forall t p ok, ~ In (Sql (SetRowAccessPolicy t p) ok) (pre ++ c :: post)) /\
  rows w' = rows w ++ inserted pre /\
  Forall (fun rec => is_policy_record rec = false) (inserted pre).
Proof.
  intros Hrun Hh Hstep Hfail.
  apply classify_and_protect_table_spec in Hrun.
  destruct Hrun as (calls & [Hh' Hrows] & Htrace & _).
  assert (calls = pre ++ c :: post) by (rewrite Hh' in Hh; now apply app_inv_head in Hh).
  subst calls.
  assert (Hc : raised_fatal c = true) by (unfold raised_fatal; now rewrite Hstep, Hfail).
  destruct (run_stops _ _ _ Htrace) as (Hstops & Hraised).
  assert (post = []) as -> by exact (stops_at_failure_split _ _ _ Hstops Hc).
  assert (Hex : existsb raised_fatal (pre ++ [c]) = true).
  { rewrite existsb_app. simpl. rewrite Hc. now rewrite orb_true_r. }
  destruct (Hraised Hex) as (He & Hnp & Hins).
  rewrite inserted_app, (inserted_not_ok _ Hfail), app_nil_r in Hrows, Hins.
  split; [reflexivity|]. split; [exact He|]. split; [|split; [exact Hrows|]].
  - intros t p ok Hin. unfold no_policy_call in Hnp.
    rewrite forallb_forall in Hnp. specialize (Hnp _ Hin). discriminate.
  - eapply Forall_impl; [|exact Hins].
    intros rec (col & label & _ & _ & ->). reflexivity.
Qed.

Lemma fatal_error_ends_run_witness :
  let env := Demo.platform Demo.abc_frame Demo.abc_script (Demo.tag_rejected "B") in
  let run := Autopilot.classify_and_protect_table env "PUBLIC.T" Demo.fresh_world in
  (exists e, fst run = inl e) /\
  rows (snd run) = [Autopilot.tag_record "PUBLIC.T" "A" "PUBLIC"] /\
  last (history (snd run)) (GetActiveSession true)
  = Sql (SetTag "PUBLIC.T" "B" "PII") false.
Proof.
  intros env run.
  assert (Hrun : Autopilot.classify_and_protect_table env "PUBLIC.T" Demo.fresh_world
                 = (fst run, snd run)) by (vm_compute; reflexivity).
  assert (Hh : history (snd run)
               = history Demo.fresh_world
                 ++ removelast (history (snd run))
                 ++ Sql (SetTag "PUBLIC.T" "B" "PII") false :: [])
    by (vm_compute; reflexivity).
  destruct (fatal_error_ends_run env "PUBLIC.T" Demo.fresh_world (fst run) (snd run)
              _ _ _ Hrun Hh eq_refl eq_refl) as (_ & He & _ & Hrows & _).
  split; [exact He|]. split; [rewrite Hrows; vm_compute; reflexivity|].
  vm_compute. reflexivity.
Defined.

(** ** Running twice *)

Lemma rows_nonempty w : rows w <> [] -> log_table w = Some (rows w).
Proof. unfold rows. destruct (log_table w); [reflexivity|congruence]. Qed.

(** [CREATE TABLE IF NOT EXISTS] on a table that exists: unless the platform
    faults the statement for a reason of its own, it goes through and the
    rows stay. *)
Lemma create_guard_on_existing_table env w l :
  log_table w = Some l ->
  sql_fault env CreateLogTable w = None ->
  exists w', session_sql env CreateLogTable w = (inr tt, w') /\ log_table w' = Some l.
Proof.
  intros Hl Hf. unfold session_sql. rewrite Hf, Hl. simpl.
  eexists. split; reflexivity.
Qed.

(** A completed run starts with the session lookup, the sample and the
    guard, all of which went through. *)
Lemma completed_run_prelude table calls :
  AutopilotTrace.run table (inr tt) calls ->
  exists rest, calls = prelude table ++ rest.
Proof.
  intros H. inversion H; subst; eauto.
Qed.

(** A completed run over a table with at least one column appends at least
    one row to what the audit table held. *)
Lemma completed_run_appends env table w w' :
  (forall w0 df, table_rows env table w0 = inr df -> df <> []) ->
  Autopilot.classify_and_protect_table env table w = (inr tt, w') ->
  exists new, new <> [] /\ rows w' = rows w ++ new.
Proof.
  intros Hcols Hrun. unfold Autopilot.classify_and_protect_table in Hrun.
  bind_step Hrun. rename Hm into Hp. unfold Autopilot.protect_columns in Hp.
  bind_step Hp. apply _get_session_spec in Hm. destruct Hm as (ok & [_ R0] & _).
  bind_step Hp.
  destruct (print_extends (Autopilot.running_line table) w1) as (wp & P & [_ R1] & _).
  rewrite P in Hm. pair_inv Hm.
  bind_step Hp. apply table_limit_to_pandas_columns in Hm.
  destruct Hm as (df & Hrows & Hnames & [_ R2]).
  apply Hcols in Hrows.
  bind_step Hp. apply session_sql_spec in Hm. destruct Hm as (ok' & [_ R3] & _ & Rk).
  destruct ok'; [|destruct Rk; discriminate].
  destruct df as [|[c cells] df]; [congruence|]. rewrite Hnames in Hp. simpl in Hp.
  bind_step Hp. apply column_step_spec in Hm.
  destruct Hm as (calls & [_ R4] & [(e & E & _) | (vs & l & _ & _ & _ & ->)]);
    [discriminate|].
  apply tag_columns_spec in Hp. destruct Hp as (lcalls & [_ R5] & _).
  apply policy_step_spec in Hrun. destruct Hrun as (tail & [_ R6] & _).
  exists (Autopilot.tag_record table c l :: inserted lcalls ++ inserted tail).
  split; [discriminate|].
  rewrite R6, R5, R4, R3, R2, R1, R0. simpl.
  rewrite !app_nil_r, <- !app_assoc. reflexivity.
Qed.

(** C8.  Two completed runs on the same table.  The guard of the second run
    meets the audit table the first run left and goes through; the rows of
    the first run stay, and the second run appends rows of its own after
    them, so the table is not what it was after the first run. *)
Theorem rerun_keeps_table_and_appends_rows env table w w1 w2 :
  (forall w0 df, table_rows env table w0 = inr df -> df <> []) ->
  Autopilot.classify_and_protect_table env table w = (inr tt, w1) ->
  Autopilot.classify_and_protect_table env table w1 = (inr tt, w2) ->
  (exists l1, log_table w1 = Some l1 /\
     (exists rest, history w2
                   = history w1 ++ [GetActiveSession true; TableToPandas table 10 true;
                                    Sql CreateLogTable true] ++ rest) /\
     (exists new, new <> [] /\ log_table w2 = Some (l1 ++ new)) /\
     log_table w2 <> log_table w1) /\
  (forall w0 l,
      log_table w0 = Some l -> sql_fault env CreateLogTable w0 = None ->
      exists w0', session_sql env CreateLogTable w0 = (inr tt, w0')
                  /\ log_table w0' = Some l).
Proof.
  intros Hcols H1 H2. split; [|intros w0 l; apply create_guard_on_existing_table].
  destruct (completed_run_appends _ _ _ _ Hcols H1) as (new1 & Hne1 & R1).
  destruct (completed_run_appends _ _ _ _ Hcols H2) as (new2 & Hne2 & R2).
  assert (L1 : log_table w1 = Some (rows w1)).
  { apply rows_nonempty. rewrite R1. destruct (rows w); destruct new1; simpl; congruence. }
  assert (L2 : log_table w2 = Some (rows w1 ++ new2)).
  { rewrite <- R2. apply rows_nonempty. rewrite R2.
    destruct (rows w1); destruct new2; simpl; congruence. }
  exists (rows w1). split; [exact L1|]. split; [|split].
  - apply classify_and_protect_table_spec in H2.
    destruct H2 as (calls & [Hh _] & Htrace & _).
    apply completed_run_prelude in Htrace. destruct Htrace as (rest & ->).
    exists rest. exact Hh.
  - exists new2. split; assumption.
  - rewrite L1, L2. intros E. inversion E as [E'].
    rewrite <- (app_nil_r (rows w1)) in E' at 2.
    apply app_inv_head in E'. contradiction.
Qed.

Lemma rerun_keeps_table_and_appends_rows_witness :
  let env := Demo.platform Demo.email_frame Demo.email_script Demo.attach_once in
  let first := Autopilot.classify_and_protect_table env "PUBLIC.T" Demo.fresh_world in
  let second := Autopilot.classify_and_protect_table env "PUBLIC.T" (snd first) in
  log_table (snd first)
  = Some [Autopilot.tag_record "PUBLIC.T" "EMAIL" "PII";
          Autopilot.policy_attached_record "PUBLIC.T"] /\
  log_table (snd second)
  = Some [Autopilot.tag_record "PUBLIC.T" "EMAIL" "PII";
          Autopilot.policy_attached_record "PUBLIC.T";
          Autopilot.tag_record "PUBLIC.T" "EMAIL" "PII";
          Autopilot.policy_skipped_record "PUBLIC.T"] /\
  log_table (snd second) <> log_table (snd first).
Proof.
  intros env first second.
  assert (Hcols : forall w0 df, table_rows env "PUBLIC.T" w0 = inr df -> df <> [])
    by (intros w0 df H; inversion H; discriminate).
  assert (H1 : Autopilot.classify_and_protect_table env "PUBLIC.T" Demo.fresh_world
               = (inr tt, snd first)) by (vm_compute; reflexivity).
  assert (H2 : Autopilot.classify_and_protect_table env "PUBLIC.T" (snd first)
               = (inr tt, snd second)) by (vm_compute; reflexivity).
  destruct (rerun_keeps_table_and_appends_rows env "PUBLIC.T" Demo.fresh_world
              (snd first) (snd second) Hcols H1 H2) as ((l1 & _ & _ & _ & Hneq) & _).
  split; [vm_compute; reflexivity|]. split; [vm_compute; reflexivity|exact Hneq].
Defined.

(** ** The PII flag *)





(** The notebook copy *)









(** ** The fields of the audit rows *)

(** C10.  Every TAG_APPLIED row a run inserts has OBJECT_TYPE TABLE, the
    full table name as OBJECT_NAME, the tagged column as COLUMN_NAME and
    DATA_SENSITIVITY= followed by that column's label as DETAILS; both kinds
    of policy row carry a NULL COLUMN_NAME. *)
Theorem audit_row_fields env table w r w' calls :
  Autopilot.classify_and_protect_table env table w = (r, w') ->
  history w' = history w ++ calls ->
  rows w' = rows w ++ inserted calls /\
  Forall (fun rec =>
            (action rec = "TAG_APPLIED" ->
             exists col label,
               In (Sql (SetTag table col label) true) calls /\
               object_type rec = "TABLE" /\
               object_name rec = table /\
               column_name rec = Some col /\
               details rec = "DATA_SENSITIVITY=" +++ label) /\
            (action rec = "POLICY_ATTACHED" \/ action rec = "POLICY_SKIPPED" ->
             object_type rec = "TABLE" /\
             object_name rec = table /\
             column_name rec = None))
         (inserted calls) /\
  action (Autopilot.policy_attached_record table) = "POLICY_ATTACHED" /\
  column_name (Autopilot.policy_attached_record table) = None /\
  action (Autopilot.policy_skipped_record table) = "POLICY_SKIPPED" /\
  column_name (Autopilot.policy_skipped_record table) = None.
Proof.
  intros Hrun Hh.
  apply classify_and_protect_table_spec in Hrun.
  destruct Hrun as (calls' & [Hh' Hrows] & Htrace & _).
  assert (calls' = calls) by (rewrite Hh' in Hh; now apply app_inv_head in Hh).
  subst calls'. split; [exact Hrows|]. split; [|repeat split].
  eapply Forall_impl; [|exact (run_inserted _ _ _ Htrace)].
  intros rec [(col & label & Hin & _ & ->) | [-> | ->]]; split.
  - intros _. exists col, label. repeat split. exact Hin.
  - simpl. intros [H | H]; discriminate.
  - simpl. discriminate.
  - intros _. repeat split.
  - simpl. discriminate.
  - intros _. repeat split.
Qed.

Lemma audit_row_fields_witness :
  let env := Demo.platform Demo.abc_frame Demo.abc_script Demo.no_fault in
  let run := Autopilot.classify_and_protect_table env "PUBLIC.T" Demo.fresh_world in
  rows (snd run)
  = [mkAudit "TABLE" "PUBLIC.T" (Some "A") "TAG_APPLIED" "DATA_SENSITIVITY=PUBLIC";
     mkAudit "TABLE" "PUBLIC.T" (Some "B") "TAG_APPLIED" "DATA_SENSITIVITY=PII";
     mkAudit "TABLE" "PUBLIC.T" (Some "C") "TAG_APPLIED" "DATA_SENSITIVITY=INTERNAL";
     mkAudit "TABLE" "PUBLIC.T" None "POLICY_ATTACHED" "PII_ROW_POLICY"].
Proof.
  intros env run.
  assert (Hrun : Autopilot.classify_and_protect_table env "PUBLIC.T" Demo.fresh_world
                 = (fst run, snd run)) by (vm_compute; reflexivity).
  assert (Hh : history (snd run) = history Demo.fresh_world ++ history (snd run))
    by reflexivity.
  destruct (audit_row_fields env "PUBLIC.T" Demo.fresh_world (fst run) (snd run)
              (history (snd run)) Hrun Hh) as (Hrows & _).
  rewrite Hrows. vm_compute. reflexivity.
Defined.

(** * Further properties of the code *)

(** ** Session lookup *)

(** X1.  When the session lookup raises, both entry points raise at once:
    the [RuntimeError] of [_get_session] when the error derives from
    [Exception], whatever it was, and the error itself when it does not, as
    for an interrupt.  Either way one lookup is recorded, nothing is
    printed, no query or statement is sent and the audit table is as it
    was. *)
Theorem missing_session_stops_at_once env w e :
  active_session env w = Some e ->
  let w' := record_call (GetActiveSession false) w in
  let raised := if is_exception e then no_session_error else e in
  (forall table,
      Autopilot.classify_and_protect_table env table w = (inl raised, w')) /\
  (forall col values model,
      Autopilot.classify_column_sensitivity env col values model w
      = (inl raised, w')) /\
  exc_class no_session_error = "RuntimeError" /\
  history w' = history w ++ [GetActiveSession false] /\
  stdout w' = stdout w /\
  log_table w' = log_table w.
Proof.
  intros He w' raised.
  assert (Hs : Autopilot._get_session env w = (inl raised, w')).
  { unfold Autopilot._get_session, try_except, get_active_session, raised.
    rewrite He. destruct (is_exception e); reflexivity. }
  split; [|split; [|repeat split]].
  - intros table.
    unfold Autopilot.classify_and_protect_table, Autopilot.protect_columns, bind.
    now rewrite Hs.
  - intros col values model.
    unfold Autopilot.classify_column_sensitivity, bind. now rewrite Hs.
Qed.

Lemma missing_session_stops_at_once_witness :
  Autopilot.classify_and_protect_table Scenario.offline "PUBLIC.CUSTOMERS_DEMO"
    Demo.fresh_world
  = (inl no_session_error, mkWorld None [GetActiveSession false] []) /\
  Autopilot.classify_and_protect_table Scenario.interrupted_lookup
    "PUBLIC.CUSTOMERS_DEMO" Demo.fresh_world
  = (inl Scenario.interrupt, mkWorld None [GetActiveSession false] []).
Proof.
  destruct (missing_session_stops_at_once Scenario.offline Demo.fresh_world _ eq_refl)
    as (H & _).
  destruct (missing_session_stops_at_once Scenario.interrupted_lookup
              Demo.fresh_world _ eq_refl) as (H' & _).
  split; [exact (H "PUBLIC.CUSTOMERS_DEMO")|exact (H' "PUBLIC.CUSTOMERS_DEMO")].
Defined.

(** ** The classifier as a whole *)

Lemma classify_frame env col values model w r w' :
  Autopilot.classify_column_sensitivity env col values model w = (r, w') ->
  log_table w' = log_table w /\ stdout w' = stdout w /\
  exists calls, history w' = history w ++ calls /\
                existsb is_sql calls = false /\ (List.length calls <= 2)%nat.
Proof.
  unfold Autopilot.classify_column_sensitivity, Autopilot._get_session,
    try_except, get_active_session, cortex_complete, bind, ret, raise.
  destruct (active_session env w) as [e|].
  - destruct (is_exception e); intros H; pair_inv H; repeat split; eexists;
      (split; [reflexivity|]); (split; [reflexivity|simpl; lia]).
  - destruct (cortex_answer env model _ _) as [e|raw]; intros H; pair_inv H;
      repeat split; eexists; (split; [simpl; rewrite <- app_assoc; reflexivity|]);
      (split; [reflexivity|simpl; lia]).
Qed.

Lemma notebook_classify_frame env col values w r w' :
  Notebook.classify_column_sensitivity env col values w = (r, w') ->
  log_table w' = log_table w /\ stdout w' = stdout w /\
  exists calls, history w' = history w ++ calls /\
                existsb is_sql calls = false /\ (List.length calls <= 1)%nat.
Proof.
  unfold Notebook.classify_column_sensitivity, cortex_complete, bind, ret.
  destruct (cortex_answer env _ _ _) as [e|raw]; intros H; pair_inv H;
    repeat split; eexists; (split; [reflexivity|]);
    (split; [reflexivity|simpl; lia]).
Qed.

(** X2.  Whatever the service answers, a classifier call that returns gives
    one of the four labels; and, returning or raising, it sends no SQL
    statement, prints nothing and leaves the audit table alone: it makes at
    most the session lookup and the inference request (the notebook copy,
    the request only). *)
Theorem classifier_returns_a_label_and_writes_nothing env col values model w r w' :
  Autopilot.classify_column_sensitivity env col values model w = (r, w') ->
  (forall label, r = inr label -> In label Autopilot.allowed) /\
  log_table w' = log_table w /\
  stdout w' = stdout w /\
  (exists calls, history w' = history w ++ calls /\
                 existsb is_sql calls = false /\ (List.length calls <= 2)%nat) /\
  (forall r2 w2,
      Notebook.classify_column_sensitivity env col values w = (r2, w2) ->
      (forall label, r2 = inr label -> In label Notebook.allowed) /\
      log_table w2 = log_table w /\
      stdout w2 = stdout w /\
      exists calls, history w2 = history w ++ calls /\
                    existsb is_sql calls = false /\ (List.length calls <= 1)%nat).
Proof.
  intros H. split; [|split; [|split; [|split]]];
    try (now destruct (classify_frame _ _ _ _ _ _ _ H) as (? & ? & ?)).
  - intros label ->. apply classify_column_sensitivity_spec in H. simpl in H.
    destruct H as (_ & [(e & E & _) | [(e & E & _) | (raw & E & _)]]);
      try discriminate.
    inversion E. apply label_of_result_allowed.
  - intros r2 w2 H2. split;
      [|now destruct (notebook_classify_frame _ _ _ _ _ _ H2) as (? & ? & ?)].
    intros label ->. unfold Notebook.classify_column_sensitivity in H2.
    bind_step H2. unfold ret in H2. inversion H2.
    apply label_of_result_allowed.
Qed.

Lemma classifier_returns_a_label_and_writes_nothing_witness :
  let env := Demo.platform Demo.plain_frame Demo.plain_script Demo.no_fault in
  let run := Autopilot.classify_column_sensitivity env "NOTE" ["ok"; "late"]
               Autopilot.default_model Demo.prepared_world in
  (forall label, fst run = inr label -> In label Autopilot.allowed) /\
  log_table (snd run) = Some [] /\ stdout (snd run) = [].
Proof.
  intros env run.
  destruct (classifier_returns_a_label_and_writes_nothing env "NOTE" ["ok"; "late"]
              Autopilot.default_model Demo.prepared_world (fst run) (snd run) eq_refl)
    as (Hl & Ht & Ho & _).
  split; [exact Hl|]. split; [exact Ht|exact Ho].
Defined.

(** X3.  An error of the inference request is not replaced by a label: the
    classifier raises that same error, in both files, and in the module's
    column loop the column's step raises it before any tag statement. *)
Theorem inference_error_passes_through env col values model e :
  (forall w w1 w2,
      Autopilot._get_session env w = (inr tt, w1) ->
      cortex_complete env model
        (Autopilot.prompt_text col (Autopilot.sample_values values)) w1 = (inl e, w2) ->
      Autopilot.classify_column_sensitivity env col values model w = (inl e, w2)) /\
  (forall w w2,
      cortex_complete env "llama3.1-8b" (Notebook.prompt_text col values) w
      = (inl e, w2) ->
      Notebook.classify_column_sensitivity env col values w = (inl e, w2)) /\
  (forall table df has_pii w w1 w2,
      model = Autopilot.default_model ->
      column_values env df col w = (inr values, w) ->
      Autopilot._get_session env w = (inr tt, w1) ->
      cortex_complete env model
        (Autopilot.prompt_text col (Autopilot.sample_values values)) w1 = (inl e, w2) ->
      Autopilot.column_step env table df col has_pii w = (inl e, w2) /\
      history w2 = history w ++ [GetActiveSession true;
                                 CortexComplete model
                                   (Autopilot.prompt_text col
                                      (Autopilot.sample_values values)) false]).
Proof.
  assert (Hc : forall w w1 w2,
             Autopilot._get_session env w = (inr tt, w1) ->
             cortex_complete env model
               (Autopilot.prompt_text col (Autopilot.sample_values values)) w1
             = (inl e, w2) ->
             Autopilot.classify_column_sensitivity env col values model w = (inl e, w2)).
  { intros w w1 w2 Hs He. unfold Autopilot.classify_column_sensitivity, bind.
    now rewrite Hs, He. }
  split; [exact Hc|]. split.
  - intros w w2 He. unfold Notebook.classify_column_sensitivity, bind. now rewrite He.
  - intros table df has_pii w w1 w2 -> Hv Hs He. split.
    + unfold Autopilot.column_step, bind. rewrite Hv.
      now rewrite (Hc _ _ _ Hs He).
    + apply _get_session_spec in Hs. destruct Hs as (ok & [Hh _] & _ & R).
      destruct ok; [|destruct R; discriminate].
      apply cortex_complete_spec in He. destruct He as (ok & [Hh2 _] & _ & R2).
      destruct ok; [destruct R2; discriminate|].
      rewrite Hh2, Hh, <- app_assoc. reflexivity.
Qed.

Lemma inference_error_passes_through_witness :
  let env := Scenario.inference_down Demo.email_frame in
  fst (Autopilot.classify_column_sensitivity env "EMAIL" ["ann@example.com"]
         Autopilot.default_model Demo.fresh_world) = inl Scenario.inference_error /\
  fst (Autopilot.classify_and_protect_table env "PUBLIC.T" Demo.fresh_world)
  = inl Scenario.inference_error.
Proof.
  intros env.
  destruct (inference_error_passes_through env "EMAIL" ["ann@example.com"]
              Autopilot.default_model Scenario.inference_error) as (H & _ & _).
  split; [|vm_compute; reflexivity].
  rewrite (H Demo.fresh_world _ _ eq_refl eq_refl). reflexivity.
Defined.

(** ** Calls, printed lines and the audit table, compositionally *)

Lemma replay_app log c1 c2 : replay log (c1 ++ c2) = replay (replay log c1) c2.
Proof. unfold replay. apply fold_left_app. Qed.

Lemma traced_ret {A} P Q (R : A -> Prop) a : R a -> traced P Q R (ret a).
Proof.
  intros Ha w r w' H. unfold ret in H. pair_inv H. exists [], [].
  rewrite !app_nil_r. repeat split; try constructor.
  intros a0 E. inversion E; subst. exact Ha.
Qed.

Lemma traced_raise {A} P Q (R : A -> Prop) e : traced P Q R (raise e).
Proof.
  intros w r w' H. unfold raise in H. pair_inv H. exists [], [].
  rewrite !app_nil_r. repeat split; try constructor. discriminate.
Qed.

Lemma traced_bind {A B} P Q (R1 : A -> Prop) (R2 : B -> Prop) m k :
  traced P Q R1 m -> (forall a, R1 a -> traced P Q R2 (k a)) ->
  traced P Q R2 (bind m k).
Proof.
  intros Hm Hk w r w' H. apply bind_inv in H.
  destruct H as [(a & w1 & H1 & H2) | (e & H1 & ->)].
  - destruct (Hm _ _ _ H1) as (c1 & o1 & Hh1 & Ho1 & Hl1 & P1 & Q1 & Ra).
    destruct (Hk a (Ra a eq_refl) _ _ _ H2)
      as (c2 & o2 & Hh2 & Ho2 & Hl2 & P2 & Q2 & Rb).
    exists (c1 ++ c2), (o1 ++ o2).
    rewrite Hh2, Hh1, Ho2, Ho1, Hl2, Hl1, replay_app, <- !app_assoc.
    repeat split; try (apply Forall_app; split); assumption.
  - destruct (Hm _ _ _ H1) as (c1 & o1 & Hh1 & Ho1 & Hl1 & P1 & Q1 & _).
    exists c1, o1. repeat split; try assumption. discriminate.
Qed.

Lemma traced_try {A} P Q (R : A -> Prop) m h :
  traced P Q R m -> (forall e, traced P Q R (h e)) -> traced P Q R (try_except m h).
Proof.
  intros Hm Hh w r w' H. unfold try_except in H.
  destruct (m w) as [[e|a] w1] eqn:E.
  - destruct (Hm _ _ _ E) as (c1 & o1 & Hh1 & Ho1 & Hl1 & P1 & Q1 & _).
    destruct (is_exception e).
    + destruct (Hh e _ _ _ H) as (c2 & o2 & Hh2 & Ho2 & Hl2 & P2 & Q2 & Rb).
      exists (c1 ++ c2), (o1 ++ o2).
      rewrite Hh2, Hh1, Ho2, Ho1, Hl2, Hl1, replay_app, <- !app_assoc.
      repeat split; try (apply Forall_app; split); assumption.
    + pair_inv H. exists c1, o1.
      split; [assumption|]. split; [assumption|]. split; [assumption|].
      split; [assumption|]. split; [assumption|]. intros a Ea. discriminate.
  - pair_inv H. exact (Hm _ _ _ E).
Qed.

Lemma traced_weaken {A} (P P' : Call -> Prop) (Q Q' : string -> Prop)
    (R R' : A -> Prop) m :
  (forall c, P c -> P' c) -> (forall l, Q l -> Q' l) -> (forall a, R a -> R' a) ->
  traced P Q R m -> traced P' Q' R' m.
Proof.
  intros HP HQ HR Hm w r w' H.
  destruct (Hm _ _ _ H) as (c & o & Hh & Ho & Hl & Pc & Qo & Ra).
  exists c, o. repeat split; try assumption.
  - eapply Forall_impl; [exact HP|exact Pc].
  - eapply Forall_impl; [exact HQ|exact Qo].
  - intros a E. apply HR. now apply Ra.
Qed.

Lemma traced_print P (Q : string -> Prop) line :
  Q line -> traced P Q (fun _ : unit => True) (print line).
Proof.
  intros Hq w r w' H. unfold print in H. pair_inv H. exists [], [line].
  rewrite app_nil_r. repeat split; try constructor; auto.
Qed.

(** Closes [traced] for a computation that made the one call at hand. *)
Ltac one_call_traced Hp :=
  split; [reflexivity|]; split; [reflexivity|]; split; [reflexivity|];
  split; [constructor; [apply Hp|constructor]|];
  split; [constructor|auto].

Section TracedPrimitives.

Variable env : Env.
Variable P : Call -> Prop.
Variable Q : string -> Prop.

Lemma traced_get_active_session :
  (forall ok, P (GetActiveSession ok)) ->
  traced P Q (fun _ : unit => True) (get_active_session env).
Proof.
  intros Hp w r w' H. unfold get_active_session in H.
  destruct (active_session env w); pair_inv H;
    [exists [GetActiveSession false], [] | exists [GetActiveSession true], []];
    rewrite app_nil_r; one_call_traced Hp.
Qed.

Lemma traced_cortex_complete model prompt :
  (forall ok, P (CortexComplete model prompt ok)) ->
  traced P Q (fun _ : string => True) (cortex_complete env model prompt).
Proof.
  intros Hp w r w' H. unfold cortex_complete in H.
  destruct (cortex_answer env model prompt w); pair_inv H;
    [exists [CortexComplete model prompt false], []
    |exists [CortexComplete model prompt true], []];
    rewrite app_nil_r; one_call_traced Hp.
Qed.

Lemma traced_table_limit_to_pandas name n :
  (forall ok, P (TableToPandas name n ok)) ->
  traced P Q (fun _ : DataFrame (Cell env) => True) (table_limit_to_pandas env name n).
Proof.
  intros Hp w r w' H. unfold table_limit_to_pandas in H.
  destruct (table_rows env name w); pair_inv H;
    [exists [TableToPandas name n false], []
    |exists [TableToPandas name n true], []];
    rewrite app_nil_r; one_call_traced Hp.
Qed.

Lemma traced_session_sql s :
  (forall ok, P (Sql s ok)) ->
  traced P Q (fun _ : unit => True) (session_sql env s).
Proof.
  intros Hp w r w' H. unfold session_sql in H.
  destruct (sql_fault env s w).
  - pair_inv H. exists [Sql s false], []. rewrite app_nil_r. one_call_traced Hp.
  - destruct (apply_stmt s (log_table w)) as [e|log'] eqn:E; pair_inv H.
    + exists [Sql s false], []. rewrite app_nil_r. one_call_traced Hp.
    + exists [Sql s true], []. rewrite app_nil_r.
      split; [reflexivity|]. split; [reflexivity|].
      split; [simpl; now rewrite E|].
      split; [constructor; [apply Hp|constructor]|].
      split; [constructor|auto].
Qed.

Lemma traced_column_values df name :
  traced P Q (fun _ : list string => True) (column_values env df name).
Proof.
  unfold column_values. destruct (filter _ df) as [|c [|c' l]].
  - apply traced_raise.
  - now apply traced_ret.
  - apply traced_raise.
Qed.

End TracedPrimitives.

Lemma loop_call_run_call table c : loop_call table c -> run_call table c.
Proof.
  destruct c as [ok | t n ok | m p ok | [| t col l | t p | r] ok]; simpl; auto;
    intros [].
Qed.

Lemma policy_branch_call_run_call table c :
  policy_branch_call table c -> run_call table c.
Proof.
  destruct c as [ok | t n ok | m p ok | [| t col l | t p | r] ok]; simpl; auto;
    intros [].
Qed.

Section TracedAutopilot.

Variable env : Env.
Variable table : string.

Lemma traced__get_session P Q :
  (forall ok, P (GetActiveSession ok)) ->
  traced P Q (fun _ : unit => True) (Autopilot._get_session env).
Proof.
  intros Hp. unfold Autopilot._get_session. apply traced_try.
  - now apply traced_get_active_session.
  - intros e. apply traced_raise.
Qed.

Lemma traced_classify_column_sensitivity Q col values :
  traced (loop_call table) Q (fun label => In label Autopilot.allowed)
    (Autopilot.classify_column_sensitivity env col values Autopilot.default_model).
Proof.
  unfold Autopilot.classify_column_sensitivity.
  eapply traced_bind; [apply traced__get_session; intros ok; exact I|].
  intros _ _. cbv zeta.
  eapply traced_bind; [apply traced_cortex_complete; intros ok; reflexivity|].
  intros result _. apply traced_ret. apply label_of_result_allowed.
Qed.

Lemma traced_column_step df col has_pii :
  traced (loop_call table) (progress_line table) (fun _ : bool => True)
    (Autopilot.column_step env table df col has_pii).
Proof.
  unfold Autopilot.column_step.
  eapply traced_bind; [apply traced_column_values|].
  intros values _.
  eapply traced_bind; [apply traced_classify_column_sensitivity|].
  intros raw_label Hal. cbv zeta. rewrite (upper_allowed _ Hal).
  eapply traced_bind.
  { apply traced_print. right. exists col, raw_label. auto. }
  intros _ _.
  eapply traced_bind.
  { apply traced_session_sql. intros ok. simpl. auto. }
  intros _ _.
  eapply traced_bind.
  { apply traced_session_sql. intros ok. simpl. exists col, raw_label. auto. }
  intros _ _. now apply traced_ret.
Qed.

Lemma traced_tag_columns df cols :
  forall has_pii,
    traced (loop_call table) (progress_line table) (fun _ : bool => True)
      (Autopilot.tag_columns env table df cols has_pii).
Proof.
  induction cols as [|col rest IH]; intros has_pii; simpl.
  - now apply traced_ret.
  - eapply traced_bind; [apply traced_column_step|].
    intros b _. apply IH.
Qed.

Lemma traced_protect_columns :
  traced (run_call table) (progress_line table) (fun _ : bool => True)
    (Autopilot.protect_columns env table).
Proof.
  unfold Autopilot.protect_columns.
  eapply traced_bind.
  { apply traced__get_session. intros ok. simpl. auto. }
  intros _ _.
  eapply traced_bind; [apply traced_print; now left|].
  intros _ _.
  eapply traced_bind.
  { apply traced_table_limit_to_pandas. intros ok. simpl. auto. }
  intros df _. cbv zeta.
  eapply traced_bind.
  { apply traced_session_sql. intros ok. exact I. }
  intros _ _.
  eapply traced_weaken; [apply loop_call_run_call| | |apply traced_tag_columns]; auto.
Qed.

Lemma traced_policy_step has_pii :
  traced (run_call table) (fun _ => True) (fun _ : unit => True)
    (Autopilot.policy_step env table has_pii).
Proof.
  unfold Autopilot.policy_step.
  eapply traced_bind with (R1 := fun _ => True); [|intros; now apply traced_print].
  destruct has_pii; [|now apply traced_print].
  eapply traced_bind; [now apply traced_print|].
  intros _ _. apply traced_try.
  - eapply traced_bind.
    { apply traced_session_sql. intros ok. simpl. auto. }
    intros _ _. apply traced_session_sql. intros ok. simpl. auto.
  - intros e. eapply traced_bind; [now apply traced_print|].
    intros _ _. apply traced_session_sql. intros ok. simpl. auto.
Qed.

Lemma traced_classify_and_protect_table :
  traced (run_call table) (fun _ => True) (fun _ : unit => True)
    (Autopilot.classify_and_protect_table env table).
Proof.
  unfold Autopilot.classify_and_protect_table.
  eapply traced_bind with (R1 := fun _ => True).
  { eapply traced_weaken with (P := run_call table) (Q := progress_line table)
                              (R := fun _ => True);
      [auto|auto|auto|apply traced_protect_columns]. }
  intros has_pii _. apply traced_policy_step.
Qed.

End TracedAutopilot.

Section TracedNotebook.

Variable env : Env.
Variable table : string.

Lemma traced_notebook_classify Q col values :
  traced (notebook_call table) Q (fun label => In label Notebook.allowed)
    (Notebook.classify_column_sensitivity env col values).
Proof.
  unfold Notebook.classify_column_sensitivity. cbv zeta.
  eapply traced_bind; [apply traced_cortex_complete; intros ok; reflexivity|].
  intros result _. apply traced_ret. apply label_of_result_allowed.
Qed.

Lemma traced_notebook_column_step Q df col has_pii :
  traced (notebook_call table) Q (fun _ : bool => True)
    (Notebook.column_step env table df col has_pii).
Proof.
  unfold Notebook.column_step.
  eapply traced_bind; [apply traced_column_values|].
  intros values _.
  eapply traced_bind; [apply traced_notebook_classify|].
  intros label Hal.
  eapply traced_bind.
  { apply traced_session_sql. intros ok. simpl. auto. }
  intros _ _.
  eapply traced_bind.
  { apply traced_session_sql. intros ok. simpl. left. exists col, label. auto. }
  intros _ _. now apply traced_ret.
Qed.

Lemma traced_notebook_tag_columns Q df cols :
  forall has_pii,
    traced (notebook_call table) Q (fun _ : bool => True)
      (Notebook.tag_columns env table df cols has_pii).
Proof.
  induction cols as [|col rest IH]; intros has_pii; simpl.
  - now apply traced_ret.
  - eapply traced_bind; [apply traced_notebook_column_step|].
    intros b _. apply IH.
Qed.

Lemma traced_notebook_run :
  traced (notebook_call table)
    (fun line => line = "Autopilot classification complete.")
    (fun _ : unit => True)
    (Notebook.classify_and_protect_table env table).
Proof.
  unfold Notebook.classify_and_protect_table, Notebook.protect_columns,
    Notebook.policy_step.
  eapply traced_bind with (R1 := fun _ => True).
  { eapply traced_bind.
    { apply traced_table_limit_to_pandas. intros ok. simpl. auto. }
    intros df _. cbv zeta. apply traced_notebook_tag_columns. }
  intros has_pii _.
  eapply traced_bind with (R1 := fun _ => True); [|intros; now apply traced_print].
  destruct has_pii; [|now apply traced_ret].
  eapply traced_bind.
  { apply traced_session_sql. intros ok. simpl. auto. }
  intros _ _. apply traced_session_sql. intros ok. simpl. auto.
Qed.

End TracedNotebook.

(** ** The label in the column loop *)

(** X4.  The classifier's result is already in its final form: upper-casing
    it again (line 115) or classifying it again changes nothing.  So once a
    column is classified, the loop body prints the label twice over, tags
    the column with the classifier's own result and logs that same label. *)
Theorem second_upper_changes_nothing env table df col has_pii :
  (forall raw,
      PyStr.upper (Autopilot.label_of_result raw) = Autopilot.label_of_result raw /\
      Autopilot.label_of_result (Autopilot.label_of_result raw)
      = Autopilot.label_of_result raw) /\
  (forall values raw_label w w1,
      column_values env df col w = (inr values, w) ->
      Autopilot.classify_column_sensitivity env col values Autopilot.default_model w
      = (inr raw_label, w1) ->
      Autopilot.column_step env table df col has_pii w
      = (session_sql env (SetTag table col raw_label) ;;;
         session_sql env (InsertLog (Autopilot.tag_record table col raw_label)) ;;;
         ret (if String.eqb raw_label "PII" then true else has_pii))
          (printed (Autopilot.classified_line col raw_label raw_label) w1)).
Proof.
  split.
  - intros raw. pose proof (label_of_result_allowed raw) as Hal.
    split; [now apply upper_allowed|].
    rewrite label_of_result_known; rewrite (strip_allowed _ Hal), (upper_allowed _ Hal);
      [reflexivity|assumption].
  - intros values raw_label w w1 Hv Hc.
    assert (Hal : In raw_label Autopilot.allowed).
    { destruct (traced_classify_column_sensitivity env table (fun _ => True)
                  col values _ _ _ Hc) as (_ & _ & _ & _ & _ & _ & _ & R).
      now apply R. }
    unfold Autopilot.column_step. unfold bind at 1. rewrite Hv.
    unfold bind at 1. rewrite Hc. cbv zeta. rewrite (upper_allowed _ Hal).
    reflexivity.
Qed.

Lemma second_upper_changes_nothing_witness :
  let env := Demo.platform Demo.abc_frame Demo.abc_script Demo.no_fault in
  stdout (snd (Autopilot.column_step env "PUBLIC.T" Demo.abc_frame "B" false
                 Demo.prepared_world))
  = [Autopilot.classified_line "B" "PII" "PII"].
Proof.
  intros env.
  destruct (second_upper_changes_nothing env "PUBLIC.T" Demo.abc_frame "B" false)
    as (_ & H).
  rewrite (H ["ann@example.com"; "bob@example.com"] "PII" Demo.prepared_world _
             eq_refl eq_refl).
  vm_compute. reflexivity.
Defined.

(** ** What a run sends *)

Lemma loop_has_no_sample table cols has_pii r calls :
  AutopilotTrace.loop table cols has_pii r calls ->
  forall t n ok, ~ In (TableToPandas t n ok) calls.
Proof.
  induction 1 as [hp | col rest hp values label r calls Hal L IH | col rest hp e calls Ab];
    intros t n ok Hin.
  - destruct Hin.
  - apply in_app_or in Hin. destruct Hin as [Hin | Hin]; [|exact (IH _ _ _ Hin)].
    simpl in Hin. intuition discriminate.
  - destruct Ab; simpl in Hin; intuition discriminate.
Qed.

Lemma policy_has_no_sample table r tail :
  AutopilotTrace.policy table r tail ->
  forall t n ok, ~ In (TableToPandas t n ok) tail.
Proof.
  intros H t n ok Hin. destruct H; simpl in Hin; intuition discriminate.
Qed.

(** X5.  The sample is taken before the log table guard.  In a run whose
    sample query raised, the only calls are the session lookup and that
    query: no statement was sent, so the audit table was neither created nor
    touched, and the run raised. *)
Theorem failed_sample_sends_no_statement env table w r w' calls :
  Autopilot.classify_and_protect_table env table w = (r, w') ->
  history w' = history w ++ calls ->
  In (TableToPandas table 10 false) calls ->
  calls = [GetActiveSession true; TableToPandas table 10 false] /\
  (exists e, r = inl e) /\
  log_table w' = log_table w.
Proof.
  intros Hrun Hh Hin.
  destruct (traced_classify_and_protect_table env table _ _ _ Hrun)
    as (calls0 & _ & Hh0 & _ & Hlog & _).
  assert (calls0 = calls) by (rewrite Hh0 in Hh; now apply app_inv_head in Hh).
  subst calls0.
  apply classify_and_protect_table_spec in Hrun.
  destruct Hrun as (calls' & [Hh' _] & Htrace & _).
  assert (calls' = calls) by (rewrite Hh' in Hh; now apply app_inv_head in Hh).
  subst calls'.
  destruct Htrace as [e | e | e | cols e lcalls L | cols lcalls L
                      | cols lcalls r tail L P].
  - simpl in Hin. intuition discriminate.
  - split; [reflexivity|]. split; [eauto|]. rewrite Hlog. reflexivity.
  - simpl in Hin. intuition discriminate.
  - exfalso. apply in_app_or in Hin. destruct Hin as [Hin | Hin].
    + simpl in Hin. intuition discriminate.
    + exact (loop_has_no_sample _ _ _ _ _ L _ _ _ Hin).
  - exfalso. apply in_app_or in Hin. destruct Hin as [Hin | Hin].
    + simpl in Hin. intuition discriminate.
    + exact (loop_has_no_sample _ _ _ _ _ L _ _ _ Hin).
  - exfalso. apply in_app_or in Hin. destruct Hin as [Hin | Hin].
    + simpl in Hin. intuition discriminate.
    + apply in_app_or in Hin. destruct Hin as [Hin | Hin].
      * exact (loop_has_no_sample _ _ _ _ _ L _ _ _ Hin).
      * exact (policy_has_no_sample _ _ _ P _ _ _ Hin).
Qed.

Lemma failed_sample_sends_no_statement_witness :
  let run := Autopilot.classify_and_protect_table Scenario.unreadable_table
               "PUBLIC.MISSING" Demo.fresh_world in
  history (snd run) = [GetActiveSession true; TableToPandas "PUBLIC.MISSING" 10 false] /\
  (exists e, fst run = inl e) /\
  log_table (snd run) = None.
Proof.
  intros run.
  assert (Hrun : Autopilot.classify_and_protect_table Scenario.unreadable_table
                   "PUBLIC.MISSING" Demo.fresh_world = (fst run, snd run))
    by (vm_compute; reflexivity).
  assert (Hh : history (snd run) = history Demo.fresh_world ++ history (snd run))
    by reflexivity.
  assert (Hin : In (TableToPandas "PUBLIC.MISSING" 10 false) (history (snd run)))
    by (vm_compute; auto).
  destruct (failed_sample_sends_no_statement _ _ _ _ _ _ Hrun Hh Hin)
    as (Hc & He & Hl).
  split; [exact Hc|]. split; [exact He|exact Hl].
Defined.

(** X6.  A run of the module sends nothing but its own calls: the sample of
    the named table with limit 10, inference requests to the default model,
    tag statements on the named table carrying one of the four labels, the
    attach of PII_ROW_POLICY on the named table, the guard, and inserts of
    tag rows and policy rows.  The notebook copy likewise, without a guard
    and without session lookups. *)
Theorem run_sends_only_its_own_calls env table w :
  (forall r w' calls,
      Autopilot.classify_and_protect_table env table w = (r, w') ->
      history w' = history w ++ calls ->
      Forall (run_call table) calls /\
      (forall t n ok, In (TableToPandas t n ok) calls -> t = table /\ n = 10) /\
      (forall m p ok, In (CortexComplete m p ok) calls -> m = "llama3.1-8b") /\
      (forall t col label ok,
          In (Sql (SetTag t col label) ok) calls ->
          t = table /\ In label ["PII"; "CONFIDENTIAL"; "INTERNAL"; "PUBLIC"]) /\
      (forall t p ok,
          In (Sql (SetRowAccessPolicy t p) ok) calls ->
          t = table /\ p = "PII_ROW_POLICY")) /\
  (forall r w' calls,
      Notebook.classify_and_protect_table env table w = (r, w') ->
      history w' = history w ++ calls ->
      Forall (notebook_call table) calls /\
      (forall ok, ~ In (Sql CreateLogTable ok) calls) /\
      (forall ok, ~ In (GetActiveSession ok) calls) /\
      (forall t col label ok,
          In (Sql (SetTag t col label) ok) calls ->
          t = table /\ In label ["PII"; "CONFIDENTIAL"; "INTERNAL"; "PUBLIC"])).
Proof.
  split; intros r w' calls Hrun Hh.
  - destruct (traced_classify_and_protect_table env table _ _ _ Hrun)
      as (calls0 & _ & Hh0 & _ & _ & Hall & _).
    assert (calls0 = calls) by (rewrite Hh0 in Hh; now apply app_inv_head in Hh).
    subst calls0. split; [exact Hall|].
    rewrite Forall_forall in Hall.
    split; [|split; [|split]].
    + intros t n ok Hin. exact (Hall _ Hin).
    + intros m p ok Hin. specialize (Hall _ Hin). simpl in Hall.
      destruct Hall as [H | []]. exact H.
    + intros t col label ok Hin. specialize (Hall _ Hin). simpl in Hall.
      destruct Hall as [H | []]. exact H.
    + intros t p ok Hin. specialize (Hall _ Hin). simpl in Hall.
      destruct Hall as [[] | H]. exact H.
  - destruct (traced_notebook_run env table _ _ _ Hrun)
      as (calls0 & _ & Hh0 & _ & _ & Hall & _).
    assert (calls0 = calls) by (rewrite Hh0 in Hh; now apply app_inv_head in Hh).
    subst calls0. split; [exact Hall|].
    rewrite Forall_forall in Hall.
    split; [|split].
    + intros ok Hin. exact (Hall _ Hin).
    + intros ok Hin. exact (Hall _ Hin).
    + intros t col label ok Hin. exact (Hall _ Hin).
Qed.

Lemma run_sends_only_its_own_calls_witness :
  let env := Demo.platform Demo.abc_frame Demo.abc_script Demo.no_fault in
  let run := Autopilot.classify_and_protect_table env "PUBLIC.T" Demo.fresh_world in
  Forall (run_call "PUBLIC.T") (history (snd run)) /\
  List.length (history (snd run)) = 17.
Proof.
  intros env run.
  destruct (run_sends_only_its_own_calls env "PUBLIC.T" Demo.fresh_world) as (H & _).
  assert (Hrun : Autopilot.classify_and_protect_table env "PUBLIC.T" Demo.fresh_world
                 = (fst run, snd run)) by (vm_compute; reflexivity).
  destruct (H _ _ (history (snd run)) Hrun eq_refl) as (Hall & _).
  split; [exact Hall|vm_compute; reflexivity].
Defined.

(** ** Tags and their audit rows *)

Lemma filter_length_app {A} (f : A -> bool) l1 l2 :
  List.length (filter f (l1 ++ l2))
  = (List.length (filter f l1) + List.length (filter f l2))%nat.
Proof. now rewrite filter_app, List.length_app. Qed.

(** In the column loop the accepted tag statements are the logged ones, or
    one more; one more exactly when the loop stopped at a rejected insert. *)
Lemma loop_tags_and_rows table cols has_pii r calls :
  AutopilotTrace.loop table cols has_pii r calls ->
  let tagged := List.length (filter is_tag_ok calls) in
  let logged := List.length (filter is_tag_applied (inserted calls)) in
  (logged <= tagged <= logged + 1)%nat /\
  (forall b, r = inr b -> tagged = logged) /\
  (tagged = (logged + 1)%nat ->
   exists pre col label,
     calls = pre ++ [Sql (SetTag table col label) true;
                     Sql (InsertLog (Autopilot.tag_record table col label)) false]).
Proof.
  induction 1 as [hp | col rest hp values label r calls Hal L IH | col rest hp e calls Ab];
    cbv zeta.
  - simpl. split; [lia|]. split; [reflexivity|]. intros E; discriminate.
  - cbv zeta in IH. destruct IH as (Hb & Hd & Hg).
    rewrite inserted_app, !filter_length_app.
    change (List.length (filter is_tag_ok (column_calls _ _ _ _ _ _))) with 1.
    change (List.length (filter is_tag_applied (inserted (column_calls _ _ _ _ _ _))))
      with 1.
    split; [lia|]. split.
    + intros b E. specialize (Hd b E). lia.
    + intros E. destruct Hg as (pre & c & l & ->); [lia|].
      eexists (_ ++ pre), c, l. now rewrite <- app_assoc.
  - destruct Ab; simpl; (split; [lia|]); (split; [discriminate|]); intros E;
      try discriminate.
    eexists [_; _], col, label. reflexivity.
Qed.

Lemma policy_tags_and_rows table r tail :
  AutopilotTrace.policy table r tail ->
  filter is_tag_ok tail = [] /\ filter is_tag_applied (inserted tail) = [].
Proof.
  intros H. destruct H as [| ok r Hr | ok r Hr | e He | e He]; try destruct ok;
    split; reflexivity.
Qed.

(** X7.  Tagging and logging are separate statements.  In any run the
    columns tagged are the columns logged or one more, and they are the same
    when the run completes.  There is one more only when the run stopped at
    the rejected insert of a column whose tag had just been accepted: that
    column is tagged with no audit row. *)
Theorem tags_and_tag_rows env table w r w' calls :
  Autopilot.classify_and_protect_table env table w = (r, w') ->
  history w' = history w ++ calls ->
  let tagged := List.length (filter is_tag_ok calls) in
  let logged := List.length (filter is_tag_applied (inserted calls)) in
  (logged <= tagged <= logged + 1)%nat /\
  (r = inr tt -> tagged = logged) /\
  (tagged = (logged + 1)%nat ->
   (exists e, r = inl e) /\
   exists pre col label,
     calls = pre ++ [Sql (SetTag table col label) true;
                     Sql (InsertLog (Autopilot.tag_record table col label)) false]).
Proof.
  intros Hrun Hh.
  apply classify_and_protect_table_spec in Hrun.
  destruct Hrun as (calls' & [Hh' _] & Htrace & _).
  assert (calls' = calls) by (rewrite Hh' in Hh; now apply app_inv_head in Hh).
  subst calls'. cbv zeta.
  destruct Htrace as [e | e | e | cols e lcalls L | cols lcalls L
                      | cols lcalls r tail L P].
  - simpl. repeat split; try lia; discriminate.
  - simpl. repeat split; try lia; discriminate.
  - simpl. repeat split; try lia; discriminate.
  - destruct (loop_tags_and_rows _ _ _ _ _ L) as (Hb & _ & Hg). cbv zeta in Hb, Hg.
    rewrite inserted_app, !filter_length_app. simpl.
    split; [lia|]. split; [discriminate|].
    intros E. split; [eauto|].
    destruct Hg as (pre & c & l & ->); [lia|].
    exists (prelude table ++ pre), c, l. now rewrite <- app_assoc.
  - destruct (loop_tags_and_rows _ _ _ _ _ L) as (Hb & Hd & _). cbv zeta in Hb, Hd.
    specialize (Hd _ eq_refl).
    rewrite inserted_app, !filter_length_app. simpl.
    split; [lia|]. split; [intros _; lia|]. intros E. lia.
  - destruct (loop_tags_and_rows _ _ _ _ _ L) as (Hb & Hd & _). cbv zeta in Hb, Hd.
    specialize (Hd _ eq_refl).
    destruct (policy_tags_and_rows _ _ _ P) as (T1 & T2).
    rewrite !inserted_app, !filter_length_app, T1, T2. simpl.
    split; [lia|]. split; [intros _; lia|]. intros E. lia.
Qed.

Lemma tags_and_tag_rows_witness :
  let env := Demo.platform Demo.abc_frame Demo.abc_script (Scenario.tag_row_rejected "B") in
  let run := Autopilot.classify_and_protect_table env "PUBLIC.T" Demo.fresh_world in
  List.length (filter is_tag_ok (history (snd run))) = 2 /\
  List.length (filter is_tag_applied (inserted (history (snd run)))) = 1 /\
  (exists e, fst run = inl e).
Proof.
  intros env run.
  assert (Hrun : Autopilot.classify_and_protect_table env "PUBLIC.T" Demo.fresh_world
                 = (fst run, snd run)) by (vm_compute; reflexivity).
  destruct (tags_and_tag_rows env "PUBLIC.T" Demo.fresh_world _ _ (history (snd run))
              Hrun eq_refl) as (_ & _ & Hg).
  split; [vm_compute; reflexivity|]. split; [vm_compute; reflexivity|].
  destruct Hg as (He & _); [vm_compute; reflexivity|exact He].
Defined.

(** ** The policy branch *)

Lemma loop_has_no_policy_row table cols has_pii r calls :
  AutopilotTrace.loop table cols has_pii r calls ->
  filter is_policy_call calls = [] /\ filter is_policy_record (inserted calls) = [].
Proof.
  induction 1 as [hp | col rest hp values label r calls Hal L IH | col rest hp e calls Ab].
  - split; reflexivity.
  - destruct IH as (I1 & I2). rewrite inserted_app, !filter_app, I1, I2.
    split; reflexivity.
  - destruct Ab; split; reflexivity.
Qed.

(** X12.  A run tries the attach at most once and writes at most one policy
    row, also when the insert of the POLICY_ATTACHED row raises and the
    handler runs; and it writes no policy row without having tried the
    attach. *)
Theorem at_most_one_policy_row env table w r w' calls :
  Autopilot.classify_and_protect_table env table w = (r, w') ->
  history w' = history w ++ calls ->
  (List.length (filter is_policy_call calls) <= 1)%nat /\
  (List.length (filter is_policy_record (inserted calls)) <= 1)%nat /\
  (filter is_policy_record (inserted calls) <> [] ->
   filter is_policy_call calls <> []).
Proof.
  intros Hrun Hh.
  apply classify_and_protect_table_spec in Hrun.
  destruct Hrun as (calls' & [Hh' _] & Htrace & _).
  assert (calls' = calls) by (rewrite Hh' in Hh; now apply app_inv_head in Hh).
  subst calls'.
  destruct Htrace as [e | e | e | cols e lcalls L | cols lcalls L
                      | cols lcalls r tail L P];
    try (simpl; repeat split; try lia; intros H; now elim H).
  - destruct (loop_has_no_policy_row _ _ _ _ _ L) as (I1 & I2).
    rewrite inserted_app, !filter_app, I1, I2. simpl.
    repeat split; try lia. intros H; now elim H.
  - destruct (loop_has_no_policy_row _ _ _ _ _ L) as (I1 & I2).
    rewrite inserted_app, !filter_app, I1, I2. simpl.
    repeat split; try lia. intros H; now elim H.
  - destruct (loop_has_no_policy_row _ _ _ _ _ L) as (I1 & I2).
    rewrite !inserted_app, !filter_app, I1, I2. simpl.
    destruct P as [| ok r Hr | ok r Hr | e He | e He]; try destruct ok; simpl;
      repeat split; try lia; discriminate.
Qed.

Lemma at_most_one_policy_row_witness :
  let env := Demo.platform Demo.email_frame Demo.email_script
               Scenario.attached_row_rejected in
  let run := Autopilot.classify_and_protect_table env "PUBLIC.T" Demo.fresh_world in
  (List.length (filter is_policy_record (inserted (history (snd run)))) <= 1)%nat /\
  filter is_policy_record (rows (snd run)) = [Autopilot.policy_skipped_record "PUBLIC.T"].
Proof.
  intros env run.
  assert (Hrun : Autopilot.classify_and_protect_table env "PUBLIC.T" Demo.fresh_world
                 = (fst run, snd run)) by (vm_compute; reflexivity).
  destruct (at_most_one_policy_row env "PUBLIC.T" Demo.fresh_world _ _
              (history (snd run)) Hrun eq_refl) as (_ & H & _).
  split; [exact H|vm_compute; reflexivity].
Defined.

(** X8.  The handler guards the attach and the insert of its audit row
    alike.  When the attach goes through and the insert of the
    POLICY_ATTACHED row raises an error that derives from [Exception], the
    run still completes, but the only policy row it writes says
    POLICY_SKIPPED although the policy is attached, and the line printed
    carries the error of the insert. *)
Theorem attached_policy_is_logged_as_skipped env table w w1 w2 e w3 w4 :
  Autopilot.protect_columns env table w = (inr true, w1) ->
  session_sql env (SetRowAccessPolicy table "PII_ROW_POLICY")
    (printed (Autopilot.pii_detected_line table) w1) = (inr tt, w2) ->
  session_sql env (InsertLog (Autopilot.policy_attached_record table)) w2
  = (inl e, w3) ->
  is_exception e = true ->
  session_sql env (InsertLog (Autopilot.policy_skipped_record table))
    (printed (Autopilot.attach_failed_line e) w3) = (inr tt, w4) ->
  let w' := printed Autopilot.completion_line w4 in
  Autopilot.classify_and_protect_table env table w = (inr tt, w') /\
  rows w' = rows w1 ++ [Autopilot.policy_skipped_record table] /\
  history w'
  = history w1 ++ [Sql (SetRowAccessPolicy table "PII_ROW_POLICY") true;
                   Sql (InsertLog (Autopilot.policy_attached_record table)) false;
                   Sql (InsertLog (Autopilot.policy_skipped_record table)) true] /\
  stdout w'
  = stdout w1 ++ [Autopilot.pii_detected_line table; Autopilot.attach_failed_line e;
                  Autopilot.completion_line].
Proof.
  intros Hp Ha Hi He Hs w'. split; [|split; [|split]].
  - unfold Autopilot.classify_and_protect_table, bind. rewrite Hp.
    unfold Autopilot.policy_step, bind, try_except, print. rewrite Ha, Hi, He, Hs.
    reflexivity.
  - apply session_sql_spec in Ha. destruct Ha as (ok1 & [_ R1] & _ & K1).
    destruct ok1; [|destruct K1; discriminate].
    apply session_sql_spec in Hi. destruct Hi as (ok2 & [_ R2] & _ & K2).
    destruct ok2; [discriminate|].
    apply session_sql_spec in Hs. destruct Hs as (ok3 & [_ R3] & _ & K3).
    destruct ok3; [|destruct K3; discriminate].
    change (rows w') with (rows w4). rewrite R3.
    change (rows (printed (Autopilot.attach_failed_line e) w3)) with (rows w3).
    rewrite R2, R1. simpl. rewrite !app_nil_r. reflexivity.
  - apply session_sql_spec in Ha. destruct Ha as (ok1 & [H1 _] & _ & K1).
    destruct ok1; [|destruct K1; discriminate].
    apply session_sql_spec in Hi. destruct Hi as (ok2 & [H2 _] & _ & K2).
    destruct ok2; [discriminate|].
    apply session_sql_spec in Hs. destruct Hs as (ok3 & [H3 _] & _ & K3).
    destruct ok3; [|destruct K3; discriminate].
    change (history w') with (history w4). rewrite H3.
    change (history (printed (Autopilot.attach_failed_line e) w3)) with (history w3).
    rewrite H2, H1. simpl. rewrite <- !app_assoc. reflexivity.
  - apply session_sql_spec in Ha. destruct Ha as (ok1 & _ & O1 & _).
    apply session_sql_spec in Hi. destruct Hi as (ok2 & _ & O2 & _).
    apply session_sql_spec in Hs. destruct Hs as (ok3 & _ & O3 & _).
    unfold w'. rewrite stdout_printed, O3, stdout_printed, O2, O1, stdout_printed.
    rewrite <- !app_assoc. reflexivity.
Qed.

Lemma attached_policy_is_logged_as_skipped_witness :
  let env := Demo.platform Demo.email_frame Demo.email_script
               Scenario.attached_row_rejected in
  let run := Autopilot.classify_and_protect_table env "PUBLIC.T" Demo.fresh_world in
  fst run = inr tt /\
  In (Sql (SetRowAccessPolicy "PUBLIC.T" "PII_ROW_POLICY") true) (history (snd run)) /\
  rows (snd run) = [Autopilot.tag_record "PUBLIC.T" "EMAIL" "PII";
                    Autopilot.policy_skipped_record "PUBLIC.T"].
Proof.
  intros env run.
  pose (w1 := snd (Autopilot.protect_columns env "PUBLIC.T" Demo.fresh_world)).
  pose (w2 := snd (session_sql env (SetRowAccessPolicy "PUBLIC.T" "PII_ROW_POLICY")
                     (printed (Autopilot.pii_detected_line "PUBLIC.T") w1))).
  pose (w3 := snd (session_sql env
                     (InsertLog (Autopilot.policy_attached_record "PUBLIC.T")) w2)).
  pose (w4 := snd (session_sql env
                     (InsertLog (Autopilot.policy_skipped_record "PUBLIC.T"))
                     (printed (Autopilot.attach_failed_line
                                 (Scenario.sql_error "insert rejected")) w3))).
  assert (Hp : Autopilot.protect_columns env "PUBLIC.T" Demo.fresh_world
               = (inr true, w1)) by (vm_compute; reflexivity).
  assert (Ha : session_sql env (SetRowAccessPolicy "PUBLIC.T" "PII_ROW_POLICY")
                 (printed (Autopilot.pii_detected_line "PUBLIC.T") w1) = (inr tt, w2))
    by (vm_compute; reflexivity).
  assert (Hi : session_sql env (InsertLog (Autopilot.policy_attached_record "PUBLIC.T"))
                 w2 = (inl (Scenario.sql_error "insert rejected"), w3))
    by (vm_compute; reflexivity).
  assert (Hs : session_sql env (InsertLog (Autopilot.policy_skipped_record "PUBLIC.T"))
                 (printed (Autopilot.attach_failed_line
                             (Scenario.sql_error "insert rejected")) w3)
               = (inr tt, w4)) by (vm_compute; reflexivity).
  destruct (attached_policy_is_logged_as_skipped env "PUBLIC.T" Demo.fresh_world
              w1 w2 _ w3 w4 Hp Ha Hi eq_refl Hs) as (Hrun & Hrows & Hh & _).
  unfold run. rewrite Hrun. split; [reflexivity|]. split.
  - simpl snd. rewrite Hh. apply in_or_app. right. simpl. auto.
  - simpl snd. rewrite Hrows. vm_compute. reflexivity.
Defined.

(** X9.  The handler itself is not guarded.  Once it has taken an error
    that derives from [Exception], an insert of the POLICY_SKIPPED row that
    raises ends the run with its own error, of whatever class, not with the
    one the handler took; the closing line is not printed and no policy row
    is written.  This holds whether the handler was entered by the attach
    or by the insert of the POLICY_ATTACHED row. *)
Theorem error_in_the_handler_leaves_the_run env table w w1 :
  Autopilot.protect_columns env table w = (inr true, w1) ->
  let wp := printed (Autopilot.pii_detected_line table) w1 in
  (forall e1 w2 e2 w3,
      session_sql env (SetRowAccessPolicy table "PII_ROW_POLICY") wp = (inl e1, w2) ->
      is_exception e1 = true ->
      session_sql env (InsertLog (Autopilot.policy_skipped_record table))
        (printed (Autopilot.attach_failed_line e1) w2) = (inl e2, w3) ->
      Autopilot.classify_and_protect_table env table w = (inl e2, w3) /\
      rows w3 = rows w1 /\
      stdout w3 = stdout w1 ++ [Autopilot.pii_detected_line table;
                                Autopilot.attach_failed_line e1]) /\
  (forall w2 e1 w3 e2 w4,
      session_sql env (SetRowAccessPolicy table "PII_ROW_POLICY") wp = (inr tt, w2) ->
      session_sql env (InsertLog (Autopilot.policy_attached_record table)) w2
      = (inl e1, w3) ->
      is_exception e1 = true ->
      session_sql env (InsertLog (Autopilot.policy_skipped_record table))
        (printed (Autopilot.attach_failed_line e1) w3) = (inl e2, w4) ->
      Autopilot.classify_and_protect_table env table w = (inl e2, w4) /\
      rows w4 = rows w1 /\
      stdout w4 = stdout w1 ++ [Autopilot.pii_detected_line table;
                                Autopilot.attach_failed_line e1]).
Proof.
  intros Hp wp. split.
  - intros e1 w2 e2 w3 Ha He Hs. split; [|split].
    + unfold Autopilot.classify_and_protect_table, bind. rewrite Hp.
      unfold Autopilot.policy_step, bind, try_except, print. fold wp.
      rewrite Ha, He, Hs. reflexivity.
    + apply session_sql_spec in Ha. destruct Ha as (ok1 & [_ R1] & _ & K1).
      destruct ok1; [discriminate|].
      apply session_sql_spec in Hs. destruct Hs as (ok2 & [_ R2] & _ & K2).
      destruct ok2; [discriminate|].
      rewrite R2.
      change (rows (printed (Autopilot.attach_failed_line e1) w2)) with (rows w2).
      rewrite R1. simpl. rewrite !app_nil_r. reflexivity.
    + apply session_sql_spec in Ha. destruct Ha as (ok1 & _ & O1 & _).
      apply session_sql_spec in Hs. destruct Hs as (ok2 & _ & O2 & _).
      rewrite O2, stdout_printed, O1. unfold wp. rewrite stdout_printed.
      rewrite <- !app_assoc. reflexivity.
  - intros w2 e1 w3 e2 w4 Ha Hi He Hs. split; [|split].
    + unfold Autopilot.classify_and_protect_table, bind. rewrite Hp.
      unfold Autopilot.policy_step, bind, try_except, print. fold wp.
      rewrite Ha, Hi, He, Hs. reflexivity.
    + apply session_sql_spec in Ha. destruct Ha as (ok1 & [_ R1] & _ & K1).
      destruct ok1; [|destruct K1; discriminate].
      apply session_sql_spec in Hi. destruct Hi as (ok2 & [_ R2] & _ & K2).
      destruct ok2; [discriminate|].
      apply session_sql_spec in Hs. destruct Hs as (ok3 & [_ R3] & _ & K3).
      destruct ok3; [discriminate|].
      rewrite R3.
      change (rows (printed (Autopilot.attach_failed_line e1) w3)) with (rows w3).
      rewrite R2, R1. simpl. rewrite !app_nil_r. reflexivity.
    + apply session_sql_spec in Ha. destruct Ha as (ok1 & _ & O1 & _).
      apply session_sql_spec in Hi. destruct Hi as (ok2 & _ & O2 & _).
      apply session_sql_spec in Hs. destruct Hs as (ok3 & _ & O3 & _).
      rewrite O3, stdout_printed, O2, O1. unfold wp. rewrite stdout_printed.
      rewrite <- !app_assoc. reflexivity.
Qed.

Lemma error_in_the_handler_leaves_the_run_witness :
  let env := Demo.platform Demo.email_frame Demo.email_script
               Scenario.attach_and_skip_row_rejected in
  let run := Autopilot.classify_and_protect_table env "PUBLIC.T" Demo.fresh_world in
  fst run = inl (Scenario.sql_error "insert rejected") /\
  rows (snd run) = [Autopilot.tag_record "PUBLIC.T" "EMAIL" "PII"] /\
  ~ In Autopilot.completion_line (stdout (snd run)).
Proof.
  intros env run.
  pose (w1 := snd (Autopilot.protect_columns env "PUBLIC.T" Demo.fresh_world)).
  assert (Hp : Autopilot.protect_columns env "PUBLIC.T" Demo.fresh_world
               = (inr true, w1)) by (vm_compute; reflexivity).
  destruct (error_in_the_handler_leaves_the_run env "PUBLIC.T" Demo.fresh_world w1 Hp)
    as (H & _).
  pose (w2 := snd (session_sql env (SetRowAccessPolicy "PUBLIC.T" "PII_ROW_POLICY")
                     (printed (Autopilot.pii_detected_line "PUBLIC.T") w1))).
  pose (w3 := snd (session_sql env
                     (InsertLog (Autopilot.policy_skipped_record "PUBLIC.T"))
                     (printed (Autopilot.attach_failed_line Demo.policy_error) w2))).
  assert (Ha : session_sql env (SetRowAccessPolicy "PUBLIC.T" "PII_ROW_POLICY")
                 (printed (Autopilot.pii_detected_line "PUBLIC.T") w1)
               = (inl Demo.policy_error, w2)) by (vm_compute; reflexivity).
  assert (Hs : session_sql env (InsertLog (Autopilot.policy_skipped_record "PUBLIC.T"))
                 (printed (Autopilot.attach_failed_line Demo.policy_error) w2)
               = (inl (Scenario.sql_error "insert rejected"), w3))
    by (vm_compute; reflexivity).
  destruct (H _ _ _ _ Ha eq_refl Hs) as (Hrun & Hrows & Hout).
  unfold run. rewrite Hrun. split; [reflexivity|]. split.
  - simpl snd. rewrite Hrows. vm_compute. reflexivity.
  - simpl snd. rewrite Hout. vm_compute. intuition discriminate.
Defined.

(** ** Exceptions the handler does not take *)

(** X16.  The handler of the policy branch takes only what derives from
    [Exception].  An attach, or an insert of the POLICY_ATTACHED row, that
    raises anything else, as an interrupt does, ends the run with that very
    exception: the failure line is not printed, the POLICY_SKIPPED insert is
    not tried, no policy row is written and the closing line is not
    printed. *)
Theorem interrupt_passes_the_handler env table w w1 :
  Autopilot.protect_columns env table w = (inr true, w1) ->
  let wp := printed (Autopilot.pii_detected_line table) w1 in
  (forall e w2,
      session_sql env (SetRowAccessPolicy table "PII_ROW_POLICY") wp = (inl e, w2) ->
      is_exception e = false ->
      Autopilot.classify_and_protect_table env table w = (inl e, w2) /\
      rows w2 = rows w1 /\
      history w2 = history w1 ++ [Sql (SetRowAccessPolicy table "PII_ROW_POLICY") false] /\
      stdout w2 = stdout w1 ++ [Autopilot.pii_detected_line table]) /\
  (forall w2 e w3,
      session_sql env (SetRowAccessPolicy table "PII_ROW_POLICY") wp = (inr tt, w2) ->
      session_sql env (InsertLog (Autopilot.policy_attached_record table)) w2
      = (inl e, w3) ->
      is_exception e = false ->
      Autopilot.classify_and_protect_table env table w = (inl e, w3) /\
      rows w3 = rows w1 /\
      history w3
      = history w1 ++ [Sql (SetRowAccessPolicy table "PII_ROW_POLICY") true;
                       Sql (InsertLog (Autopilot.policy_attached_record table)) false] /\
      stdout w3 = stdout w1 ++ [Autopilot.pii_detected_line table]).
Proof.
  intros Hp wp. split.
  - intros e w2 Ha He. split; [|split; [|split]].
    + unfold Autopilot.classify_and_protect_table, bind. rewrite Hp.
      unfold Autopilot.policy_step, bind, try_except, print. fold wp.
      rewrite Ha, He. reflexivity.
    + apply session_sql_spec in Ha. destruct Ha as (ok1 & [_ R1] & _ & K1).
      destruct ok1; [discriminate|].
      rewrite R1. simpl. rewrite app_nil_r. reflexivity.
    + apply session_sql_spec in Ha. destruct Ha as (ok1 & [H1 _] & _ & K1).
      destruct ok1; [discriminate|]. rewrite H1. reflexivity.
    + apply session_sql_spec in Ha. destruct Ha as (ok1 & _ & O1 & _).
      rewrite O1. unfold wp. rewrite stdout_printed. reflexivity.
  - intros w2 e w3 Ha Hi He. split; [|split; [|split]].
    + unfold Autopilot.classify_and_protect_table, bind. rewrite Hp.
      unfold Autopilot.policy_step, bind, try_except, print. fold wp.
      rewrite Ha, Hi, He. reflexivity.
    + apply session_sql_spec in Ha. destruct Ha as (ok1 & [_ R1] & _ & K1).
      destruct ok1; [|destruct K1; discriminate].
      apply session_sql_spec in Hi. destruct Hi as (ok2 & [_ R2] & _ & K2).
      destruct ok2; [discriminate|].
      rewrite R2, R1. simpl. rewrite !app_nil_r. reflexivity.
    + apply session_sql_spec in Ha. destruct Ha as (ok1 & [H1 _] & _ & K1).
      destruct ok1; [|destruct K1; discriminate].
      apply session_sql_spec in Hi. destruct Hi as (ok2 & [H2 _] & _ & K2).
      destruct ok2; [discriminate|].
      rewrite H2, H1. simpl. rewrite <- app_assoc. reflexivity.
    + apply session_sql_spec in Ha. destruct Ha as (ok1 & _ & O1 & _).
      apply session_sql_spec in Hi. destruct Hi as (ok2 & _ & O2 & _).
      rewrite O2, O1. unfold wp. rewrite stdout_printed. reflexivity.
Qed.

Lemma interrupt_passes_the_handler_witness :
  let env := Demo.platform Demo.email_frame Demo.email_script
               Scenario.attach_interrupted in
  let run := Autopilot.classify_and_protect_table env "PUBLIC.T" Demo.fresh_world in
  fst run = inl Scenario.interrupt /\
  rows (snd run) = [Autopilot.tag_record "PUBLIC.T" "EMAIL" "PII"] /\
  last (stdout (snd run)) "" = Autopilot.pii_detected_line "PUBLIC.T".
Proof.
  intros env run.
  pose (w1 := snd (Autopilot.protect_columns env "PUBLIC.T" Demo.fresh_world)).
  assert (Hp : Autopilot.protect_columns env "PUBLIC.T" Demo.fresh_world
               = (inr true, w1)) by (vm_compute; reflexivity).
  destruct (interrupt_passes_the_handler env "PUBLIC.T" Demo.fresh_world w1 Hp)
    as (H & _).
  pose (w2 := snd (session_sql env (SetRowAccessPolicy "PUBLIC.T" "PII_ROW_POLICY")
                     (printed (Autopilot.pii_detected_line "PUBLIC.T") w1))).
  assert (Ha : session_sql env (SetRowAccessPolicy "PUBLIC.T" "PII_ROW_POLICY")
                 (printed (Autopilot.pii_detected_line "PUBLIC.T") w1)
               = (inl Scenario.interrupt, w2)) by (vm_compute; reflexivity).
  destruct (H _ _ Ha eq_refl) as (Hrun & Hrows & _ & Hout).
  unfold run. rewrite Hrun. split; [reflexivity|]. split.
  - simpl snd. rewrite Hrows. vm_compute. reflexivity.
  - simpl snd. rewrite Hout. apply last_last.
Defined.

(** ** The closing line *)

Lemma progress_line_is_not_the_closing_line table line :
  progress_line table line -> line <> Autopilot.completion_line.
Proof.
  intros [-> | (col & label & _ & ->)]; discriminate.
Qed.

Lemma policy_step_raised env table has_pii w e w' :
  Autopilot.policy_step env table has_pii w = (inl e, w') ->
  exists out, stdout w' = stdout w ++ out /\ ~ In Autopilot.completion_line out.
Proof.
  unfold Autopilot.policy_step. intros H.
  cbv beta iota delta [bind try_except print ret raise] in H.
  destruct has_pii; cbv beta iota in H; [|discriminate].
  sql_case H.
  - exc_case H.
    + sql_case H; pair_inv H. eexists. split.
      * rewrite O0, stdout_printed, O, stdout_printed, <- app_assoc. reflexivity.
      * simpl. intros [E | [E | []]]; discriminate.
    + pair_inv H. eexists. split.
      * rewrite O, stdout_printed. reflexivity.
      * simpl. intros [E | []]; discriminate.
  - sql_case H.
    exc_case H.
    + sql_case H; pair_inv H. eexists. split.
      * rewrite O1, stdout_printed, O0, O, stdout_printed, <- app_assoc. reflexivity.
      * simpl. intros [E | [E | []]]; discriminate.
    + pair_inv H. eexists. split.
      * rewrite O0, O, stdout_printed. reflexivity.
      * simpl. intros [E | []]; discriminate.
Qed.

(** X10.  Among the lines a run prints, the closing line appears if and
    only if the run returned normally, and it is then the last line: a run
    that raised, wherever it raised, has not printed it. *)
Theorem closing_line_means_completion env table w r w' :
  Autopilot.classify_and_protect_table env table w = (r, w') ->
  exists out,
    stdout w' = stdout w ++ out /\
    (In Autopilot.completion_line out <-> r = inr tt) /\
    (r = inr tt -> last out "" = Autopilot.completion_line).
Proof.
  unfold Autopilot.classify_and_protect_table. intros H.
  apply bind_inv in H. destruct H as [(b & w1 & Hp & Hs) | (e & Hp & ->)].
  - destruct (traced_protect_columns env table _ _ _ Hp)
      as (_ & out1 & _ & Ho1 & _ & _ & Q1 & _).
    assert (N1 : ~ In Autopilot.completion_line out1).
    { intros Hin. rewrite Forall_forall in Q1.
      exact (progress_line_is_not_the_closing_line _ _ (Q1 _ Hin) eq_refl). }
    destruct r as [e | []].
    + apply policy_step_raised in Hs. destruct Hs as (out2 & Ho2 & N2).
      exists (out1 ++ out2). split; [rewrite Ho2, Ho1, <- app_assoc; reflexivity|].
      split; [|discriminate]. split; [|discriminate].
      intros Hin. exfalso. apply in_app_or in Hin. destruct Hin as [Hin | Hin];
        [exact (N1 Hin)|exact (N2 Hin)].
    + apply policy_step_spec in Hs. destruct Hs as (_ & _ & _ & Ho2).
      destruct (Ho2 eq_refl) as (out2 & Ho).
      exists (out1 ++ out2 ++ [Autopilot.completion_line]).
      split; [rewrite Ho, Ho1, <- app_assoc; reflexivity|].
      split; [split; [reflexivity|]|].
      * intros _. apply in_or_app. right. apply in_or_app. right. simpl. auto.
      * intros _. rewrite !app_assoc. apply last_last.
  - destruct (traced_protect_columns env table _ _ _ Hp)
      as (_ & out1 & _ & Ho1 & _ & _ & Q1 & _).
    exists out1. split; [exact Ho1|]. split; [|discriminate].
    split; [|discriminate]. intros Hin. exfalso. rewrite Forall_forall in Q1.
    exact (progress_line_is_not_the_closing_line _ _ (Q1 _ Hin) eq_refl).
Qed.

Lemma closing_line_means_completion_witness :
  let env := Demo.platform Demo.abc_frame Demo.abc_script (Demo.tag_rejected "B") in
  let run := Autopilot.classify_and_protect_table env "PUBLIC.T" Demo.fresh_world in
  (exists e, fst run = inl e) /\
  ~ In Autopilot.completion_line (stdout (snd run)).
Proof.
  intros env run.
  assert (Hrun : Autopilot.classify_and_protect_table env "PUBLIC.T" Demo.fresh_world
                 = (fst run, snd run)) by (vm_compute; reflexivity).
  destruct (closing_line_means_completion env "PUBLIC.T" Demo.fresh_world _ _ Hrun)
    as (out & Ho & Hiff & _).
  split; [eexists; vm_compute; reflexivity|].
  rewrite Ho. simpl. intros Hin. apply Hiff in Hin.
  revert Hin. vm_compute. discriminate.
Defined.

(** ** The order of the columns *)

Lemma tagged_columns_app c1 c2 :
  tagged_columns (c1 ++ c2) = tagged_columns c1 ++ tagged_columns c2.
Proof. unfold tagged_columns. apply flat_map_app. Qed.

Lemma loop_tags_a_prefix table cols has_pii r calls :
  AutopilotTrace.loop table cols has_pii r calls ->
  exists rest, cols = tagged_columns calls ++ rest /\
               (forall b, r = inr b -> rest = []).
Proof.
  induction 1 as [hp | col rest hp values label r calls Hal L IH | col rest hp e calls Ab].
  - exists []. split; [reflexivity|auto].
  - destruct IH as (rest' & -> & Hd). exists rest'.
    rewrite tagged_columns_app. split; [reflexivity|exact Hd].
  - destruct Ab; simpl; eexists; (split; [reflexivity|discriminate]).
Qed.

Lemma policy_tags_nothing table r tail :
  AutopilotTrace.policy table r tail -> tagged_columns tail = [].
Proof. intros H. destruct H; reflexivity. Qed.

(** X11.  Columns are tagged in the order of the sampled frame, each at
    most once: the columns of the accepted tag statements of a run are a
    prefix of the columns the table scan gave, and all of them when the run
    completes. *)
Theorem columns_are_tagged_in_frame_order env table w r w' calls df :
  Autopilot.classify_and_protect_table env table w = (r, w') ->
  history w' = history w ++ calls ->
  table_rows env table
    (printed (Autopilot.running_line table) (record_call (GetActiveSession true) w))
  = inr df ->
  exists rest,
    map fst df = tagged_columns calls ++ rest /\
    (r = inr tt -> rest = []).
Proof.
  intros Hrun Hh Hdf.
  assert (Hcols : forall b w1,
             Autopilot.protect_columns env table w = (inr b, w1) ->
             exists lcalls,
               history w1 = history w ++ prelude table ++ lcalls /\
               AutopilotTrace.loop table (map fst df) false (inr b) lcalls).
  { intros b w1 Hp. unfold Autopilot.protect_columns in Hp.
    bind_step Hp. pose proof (_get_session_ok_world _ _ _ _ Hm) as ->. clear Hm.
    bind_step Hp. unfold print in Hm. pair_inv Hm.
    bind_step Hp. apply table_limit_to_pandas_columns in Hm.
    destruct Hm as (df' & Hrows & Hnames & [H2 _]).
    rewrite Hdf in Hrows. pair_inv Hrows.
    bind_step Hp. apply session_sql_spec in Hm. destruct Hm as (ok & [H3 _] & _ & K).
    destruct ok; [|destruct K; discriminate].
    rewrite Hnames in Hp. apply tag_columns_spec in Hp.
    destruct Hp as (lcalls & [H4 _] & L).
    exists lcalls. split; [|exact L].
    rewrite H4, H3, H2. simpl. rewrite <- !app_assoc. reflexivity. }
  unfold Autopilot.classify_and_protect_table in Hrun.
  apply bind_inv in Hrun. destruct Hrun as [(b & w1 & Hp & Hs) | (e & Hp & ->)].
  - destruct (Hcols _ _ Hp) as (lcalls & H1 & L).
    apply policy_step_spec in Hs. destruct Hs as (tail & [H2 _] & P & _).
    assert (calls = prelude table ++ lcalls ++ tail).
    { rewrite H2, H1, <- !app_assoc in Hh. now apply app_inv_head in Hh. }
    subst calls.
    destruct (loop_tags_a_prefix _ _ _ _ _ L) as (rest & E & Hd).
    exists rest. rewrite !tagged_columns_app. simpl.
    assert (Ht : tagged_columns tail = []).
    { destruct b; [now apply policy_tags_nothing in P|now destruct P as [-> _]]. }
    rewrite Ht, app_nil_r. split; [exact E|]. intros _. exact (Hd _ eq_refl).
  - pose proof Hp as Hp'. apply protect_columns_spec in Hp'.
    destruct Hp' as (calls' & [Hh' _] & Hcase).
    assert (calls' = calls) by (rewrite Hh' in Hh; now apply app_inv_head in Hh).
    subst calls'.
    destruct Hcase as [(e' & _ & ->) | [(e' & _ & ->) | [(e' & _ & ->) |
                       (cols & lcalls & -> & L)]]];
      try (exists (map fst df); split; [reflexivity|discriminate]).
    (* the loop raised: its columns are those of the frame *)
    unfold Autopilot.protect_columns in Hp.
    bind_step Hp.
    2:{ apply _get_session_spec in Hm. destruct Hm as (ok & [Hx _] & _ & K).
        rewrite Hx in Hh'. apply app_inv_head in Hh'.
        destruct ok; [discriminate|]. simpl in Hh'. discriminate. }
    pose proof (_get_session_ok_world _ _ _ _ Hm) as ->. clear Hm.
    bind_step Hp; unfold print in Hm; [|discriminate]. pair_inv Hm.
    bind_step Hp.
    2:{ unfold table_limit_to_pandas in Hm. rewrite Hdf in Hm. discriminate. }
    apply table_limit_to_pandas_columns in Hm.
    destruct Hm as (df' & Hrows & Hnames & [H2 _]).
    rewrite Hdf in Hrows. pair_inv Hrows.
    bind_step Hp.
    2:{ apply session_sql_spec in Hm. destruct Hm as (ok & [H3 _] & _ & K).
        destruct ok; [discriminate|].
        rewrite H3, H2 in Hh'. simpl in Hh'. rewrite <- !app_assoc in Hh'.
        apply app_inv_head in Hh'. simpl in Hh'. discriminate. }
    apply session_sql_spec in Hm. destruct Hm as (ok & [H3 _] & _ & K).
    destruct ok; [|destruct K; discriminate].
    rewrite Hnames in Hp. apply tag_columns_spec in Hp.
    destruct Hp as (lcalls' & [H4 _] & L').
    assert (lcalls' = lcalls).
    { rewrite H4, H3, H2 in Hh'. simpl in Hh'. rewrite <- !app_assoc in Hh'.
      apply app_inv_head in Hh'. simpl in Hh'. now inversion Hh'. }
    subst lcalls'.
    destruct (loop_tags_a_prefix _ _ _ _ _ L') as (rest & E & _).
    exists rest. rewrite tagged_columns_app. simpl. split; [exact E|discriminate].
Qed.

Lemma columns_are_tagged_in_frame_order_witness :
  let env := Demo.platform Demo.abc_frame Demo.abc_script Demo.no_fault in
  let run := Autopilot.classify_and_protect_table env "PUBLIC.T" Demo.fresh_world in
  tagged_columns (history (snd run)) = ["A"; "B"; "C"].
Proof.
  intros env run.
  assert (Hrun : Autopilot.classify_and_protect_table env "PUBLIC.T" Demo.fresh_world
                 = (inr tt, snd run)) by (vm_compute; reflexivity).
  destruct (columns_are_tagged_in_frame_order env "PUBLIC.T" Demo.fresh_world _ _
              (history (snd run)) Demo.abc_frame Hrun eq_refl eq_refl)
    as (rest & E & Hd).
  rewrite (Hd eq_refl), app_nil_r in E. symmetry. exact E.
Defined.

(** ** The audit table itself *)

Lemma replay_keeps_table calls :
  forall log, log <> None -> replay log calls <> None.
Proof.
  induction calls as [|c calls IH]; intros log Hl; simpl; [exact Hl|].
  apply IH. destruct c as [| | | s [|]]; try exact Hl.
  destruct log as [l|]; [|congruence].
  destruct s; simpl; congruence.
Qed.

Lemma replay_after_guard calls :
  forall log, In (Sql CreateLogTable true) calls -> replay log calls <> None.
Proof.
  induction calls as [|c calls IH]; intros log Hin; [destruct Hin|].
  destruct Hin as [-> | Hin].
  - simpl. apply replay_keeps_table. destruct log; simpl; congruence.
  - simpl. now apply IH.
Qed.

Lemma replay_without_guard calls :
  (forall ok, ~ In (Sql CreateLogTable ok) calls) -> replay None calls = None.
Proof.
  induction calls as [|c calls IH]; intros Hno; [reflexivity|].
  assert (Hrest : forall ok, ~ In (Sql CreateLogTable ok) calls)
    by (intros ok Hin; apply (Hno ok); now right).
  simpl. destruct c as [| | | s [|]]; try (now apply IH).
  destruct s; simpl; try (now apply IH).
  exfalso. apply (Hno true). now left.
Qed.

(** X13.  No run of the module removes or rewrites an audit row: what the
    table held stays as a prefix, and a table that existed still exists.
    Once the guard has gone through the table exists, so it does after every
    completed run, also over a table with no column and no PII. *)
Theorem run_keeps_and_ensures_audit_table env table w r w' calls :
  Autopilot.classify_and_protect_table env table w = (r, w') ->
  history w' = history w ++ calls ->
  rows w' = rows w ++ inserted calls /\
  (table_exists w = true -> table_exists w' = true) /\
  (In (Sql CreateLogTable true) calls -> table_exists w' = true) /\
  (r = inr tt -> table_exists w' = true).
Proof.
  intros Hrun Hh.
  destruct (traced_classify_and_protect_table env table _ _ _ Hrun)
    as (calls0 & _ & Hh0 & _ & Hlog & _).
  assert (calls0 = calls) by (rewrite Hh0 in Hh; now apply app_inv_head in Hh).
  subst calls0.
  apply classify_and_protect_table_spec in Hrun.
  destruct Hrun as (calls' & [Hh' Hrows] & Htrace & _).
  assert (calls' = calls) by (rewrite Hh' in Hh; now apply app_inv_head in Hh).
  subst calls'.
  assert (Hex : forall lg : option (list AuditRecord), lg <> None ->
                  match lg with Some _ => true | None => false end = true)
    by (intros [l|] H; [reflexivity|congruence]).
  split; [exact Hrows|]. unfold table_exists. rewrite Hlog.
  split; [|split].
  - intros Hw. apply Hex. apply replay_keeps_table.
    destruct (log_table w); [discriminate|discriminate].
  - intros Hin. apply Hex. now apply replay_after_guard.
  - intros ->. apply Hex. apply replay_after_guard.
    apply completed_run_prelude in Htrace. destruct Htrace as (rest & ->).
    simpl. auto.
Qed.

Lemma run_keeps_and_ensures_audit_table_witness :
  let env := Demo.platform Scenario.empty_frame [] Demo.no_fault in
  let run := Autopilot.classify_and_protect_table env "PUBLIC.EMPTY" Demo.fresh_world in
  table_exists Demo.fresh_world = false /\
  fst run = inr tt /\ inserted (history (snd run)) = [] /\
  table_exists (snd run) = true.
Proof.
  intros env run.
  assert (Hrun : Autopilot.classify_and_protect_table env "PUBLIC.EMPTY"
                   Demo.fresh_world = (inr tt, snd run)) by (vm_compute; reflexivity).
  destruct (run_keeps_and_ensures_audit_table env "PUBLIC.EMPTY" Demo.fresh_world _ _
              (history (snd run)) Hrun eq_refl) as (_ & _ & _ & H).
  split; [reflexivity|]. split; [reflexivity|]. split; [reflexivity|].
  exact (H eq_refl).
Defined.
(** ** The notebook copy and the audit table *)

Lemma notebook_column_step_without_table env table df col has_pii w r w' :
  log_table w = None ->
  Notebook.column_step env table df col has_pii w = (r, w') ->
  (exists e, r = inl e) /\ log_table w' = None /\
  exists calls, history w' = history w ++ calls /\
                inserted calls = [] /\
                (tagged_columns calls = [] \/ tagged_columns calls = [col]).
Proof.
  intros Hw H. unfold Notebook.column_step in H.
  bind_step H.
  2:{ apply column_values_spec in Hm. subst. split; [eauto|]. split; [exact Hw|].
      exists []. rewrite app_nil_r. split; [reflexivity|]. split; [reflexivity|now left]. }
  apply column_values_spec in Hm. subst w0.
  bind_step H.
  2:{ destruct (notebook_classify_frame _ _ _ _ _ _ Hm) as (Hl & _).
      split; [eauto|]. split; [now rewrite Hl|].
      unfold Notebook.classify_column_sensitivity in Hm. bind_step Hm; [discriminate|].
      apply cortex_complete_spec in Hm0. destruct Hm0 as (ok & [Hx _] & _).
      eexists. split; [exact Hx|]. split; [reflexivity|now left]. }
  destruct (notebook_classify_frame _ _ _ _ _ _ Hm) as (Hl & _).
  unfold Notebook.classify_column_sensitivity in Hm. bind_step Hm.
  apply cortex_complete_spec in Hm0. destruct Hm0 as (ok & [Hx _] & _).
  unfold ret in Hm. pair_inv Hm. rewrite Hw in Hl.
  unfold bind, session_sql, ret in H.
  destruct (sql_fault env (SetTag _ _ _) w0).
  - pair_inv H. split; [eauto|]. split; [exact Hl|].
    eexists. split; [simpl; rewrite Hx, <- app_assoc; reflexivity|].
    split; [reflexivity|now left].
  - rewrite Hl in H. simpl in H.
    destruct (sql_fault env (InsertLog _) _); pair_inv H;
      (split; [eauto|]); (split; [reflexivity|]);
      (eexists; split; [simpl; rewrite Hx, <- !app_assoc; reflexivity|]);
      (split; [reflexivity|now right]).
Qed.

(** X14.  The notebook copy has no log table guard.  Started on a warehouse
    where the audit table is absent, it never creates it and writes no audit
    row.  Over a table with no column the run completes; over a table with
    at least one column it raises, and the only column it may have tagged by
    then is the first of the frame.  When the scan itself raises, that error
    ends the run and nothing is tagged. *)
Theorem notebook_needs_the_audit_table env table w r w' calls :
  log_table w = None ->
  Notebook.classify_and_protect_table env table w = (r, w') ->
  history w' = history w ++ calls ->
  log_table w' = None /\
  inserted calls = [] /\
  (forall df, table_rows env table w = inr df ->
     match df with
     | [] => r = inr tt /\ tagged_columns calls = []
     | (first, _) :: _ =>
         (exists e, r = inl e) /\
         (tagged_columns calls = [] \/ tagged_columns calls = [first])
     end) /\
  (forall e, table_rows env table w = inl e ->
     r = inl e /\ tagged_columns calls = []).
Proof.
  intros Hw Hrun Hh.
  unfold Notebook.classify_and_protect_table, Notebook.protect_columns in Hrun.
  apply bind_inv in Hrun. destruct Hrun as [(b & w1 & Hp & Hs) | (e & Hp & ->)].
  - (* the loop returned: there was no column *)
    bind_step Hp. unfold table_limit_to_pandas in Hm.
    destruct (table_rows env table w) as [e|df] eqn:Hdf; [discriminate|].
    pair_inv Hm. destruct df as [|[c cells] df].
    + simpl in Hp. unfold ret in Hp. pair_inv Hp.
      unfold Notebook.policy_step, bind, ret, print in Hs. pair_inv Hs.
      simpl in Hh. apply app_inv_head in Hh. subst calls.
      split; [exact Hw|]. split; [reflexivity|].
      split; [|intros e E; discriminate].
      intros df E. pair_inv E. split; reflexivity.
    + exfalso. simpl in Hp. bind_step Hp.
      apply notebook_column_step_without_table in Hm; [|exact Hw].
      destruct Hm as ((e & E) & _). discriminate.
  - bind_step Hp.
    + unfold table_limit_to_pandas in Hm.
      destruct (table_rows env table w) as [e'|df] eqn:Hdf; [discriminate|].
      pair_inv Hm.
      destruct df as [|[c cells] df]; [simpl in Hp; discriminate|].
      simpl in Hp. bind_step Hp.
      * apply notebook_column_step_without_table in Hm; [|exact Hw].
        destruct Hm as ((e' & E) & _). discriminate.
      * (* the first column cannot be logged *)
        apply notebook_column_step_without_table in Hm; [|exact Hw].
        destruct Hm as (_ & Hlog & ccalls & Hcc & Hins & Htag).
        simpl in Hcc. rewrite Hcc, <- app_assoc in Hh. apply app_inv_head in Hh.
        subst calls. split; [exact Hlog|]. split; [exact Hins|].
        split; [|intros e' E; discriminate].
        intros df' E. pair_inv E. split; [eauto|exact Htag].
    + (* the scan raised *)
      unfold table_limit_to_pandas in Hm.
      destruct (table_rows env table w) as [e'|df] eqn:Hdf; [|discriminate].
      pair_inv Hm. injection Hr as ->.
      simpl in Hh. apply app_inv_head in Hh. subst calls.
      split; [exact Hw|]. split; [reflexivity|].
      split; [intros df E; discriminate|].
      intros e' E. pair_inv E. split; reflexivity.
Qed.

Lemma notebook_needs_the_audit_table_witness :
  let env := Demo.platform Demo.abc_frame Demo.abc_script Demo.no_fault in
  let run := Notebook.classify_and_protect_table env "PUBLIC.T" Demo.fresh_world in
  (exists e, fst run = inl e) /\
  log_table (snd run) = None /\
  tagged_columns (history (snd run)) = ["A"].
Proof.
  intros env run.
  assert (Hrun : Notebook.classify_and_protect_table env "PUBLIC.T" Demo.fresh_world
                 = (fst run, snd run)) by (vm_compute; reflexivity).
  destruct (notebook_needs_the_audit_table env "PUBLIC.T" Demo.fresh_world _ _
              (history (snd run)) eq_refl Hrun eq_refl) as (Hl & _ & He & _).
  split; [|split; [exact Hl|vm_compute; reflexivity]].
  exact (proj1 (He Demo.abc_frame eq_refl)).
Defined.

Lemma inserted_In rec calls :
  In rec (inserted calls) -> In (Sql (InsertLog rec) true) calls.
Proof.
  unfold inserted. rewrite in_flat_map. intros (c & Hin & Hc).
  destruct c as [| | | [| | | r] [|]]; try destruct Hc.
  - now subst.
  - destruct H.
Qed.

Lemma label_is_not_a_tag_assignment label :
  In label Autopilot.allowed -> forall l, label <> "DATA_SENSITIVITY=" +++ l.
Proof.
  simpl. intros [<- | [<- | [<- | [<- | []]]]] l; discriminate.
Qed.

(** X15.  The two copies log the same event differently.  Every row the
    notebook copy writes is either a TAG_APPLIED row whose DETAILS is the
    bare label, one of the four, or the POLICY_ATTACHED row without a column;
    none of them is the row the module writes for a tagged column, whatever
    the column and label, and none is a POLICY_SKIPPED row. *)
Theorem notebook_tag_rows_carry_the_bare_label env table w r w' calls :
  Notebook.classify_and_protect_table env table w = (r, w') ->
  history w' = history w ++ calls ->
  Forall (fun rec =>
            ((exists col label,
                 In label ["PII"; "CONFIDENTIAL"; "INTERNAL"; "PUBLIC"] /\
                 rec = notebook_tag_record table col label)
             \/ rec = mkAudit "TABLE" table None "POLICY_ATTACHED" "PII_ROW_POLICY") /\
            (forall c l, rec <> Autopilot.tag_record table c l) /\
            rec <> Autopilot.policy_skipped_record table)
         (inserted calls).
Proof.
  intros Hrun Hh.
  destruct (traced_notebook_run env table _ _ _ Hrun)
    as (calls0 & _ & Hh0 & _ & _ & Hall & _).
  assert (calls0 = calls) by (rewrite Hh0 in Hh; now apply app_inv_head in Hh).
  subst calls0.
  apply Forall_forall. intros rec Hin. apply inserted_In in Hin.
  rewrite Forall_forall in Hall. apply Hall in Hin. simpl in Hin. rename Hin into Hk.
  destruct Hk as [(col & label & Hal & ->) | ->].
  - split; [left; exists col, label; split; [exact Hal|reflexivity]|]. split.
    + intros c l E. inversion E.
      now apply (label_is_not_a_tag_assignment _ Hal l).
    + intros E. inversion E.
  - split; [now right|]. split.
    + intros c l E. inversion E.
    + intros E. inversion E.
Qed.

Lemma notebook_tag_rows_carry_the_bare_label_witness :
  let env := Demo.platform Demo.abc_frame Demo.abc_script Demo.no_fault in
  let run := Notebook.classify_and_protect_table env "PUBLIC.T" Demo.prepared_world in
  fst run = inr tt /\
  map details (inserted (history (snd run))) <> [] /\
  Forall (fun rec => forall c l, rec <> Autopilot.tag_record "PUBLIC.T" c l)
         (inserted (history (snd run))).
Proof.
  intros env run.
  assert (Hrun : Notebook.classify_and_protect_table env "PUBLIC.T" Demo.prepared_world
                 = (fst run, snd run)) by (vm_compute; reflexivity).
  pose proof (notebook_tag_rows_carry_the_bare_label env "PUBLIC.T"
                Demo.prepared_world _ _ (history (snd run)) Hrun eq_refl) as H.
  split; [vm_compute; reflexivity|]. split; [vm_compute; discriminate|].
  eapply Forall_impl; [|exact H]. intros rec (_ & Hrec & _). exact Hrec.
Defined.
